(** * book-fetcher: the two scripts, embedded and checked against their spec

    [download_book_script/download_books.py] (class [BookFetcher] and [main])
    and [get_book_links/get_book_links.py] are translated function by
    function.  Python objects that come out of a JSON payload are values of
    [pyval]; Python exceptions are values of [exn]; code that can raise but
    has no other effect lives in [res], code that prints, prompts, talks to
    the network or writes files lives in [M], a state-and-exception monad
    over the console input still to be read and the trace of events so far.

    Modelling conventions.
    - A Python [str] is a Rocq [string] read as a sequence of code points
      below 256 (Latin-1); [isalnum], [isspace] and [lower] are Python's
      on that range.
    - What an f-string prints is kept as a [text]: literal pieces and the
      values formatted into them, so that no [str()] of a number or of a
      container has to be computed.
    - The terminal (rich's console, [print], [input]) is an event log and a
      list of pending input lines.  rich reads the text it is given as
      markup and raises [MarkupError] on a closing tag that closes
      nothing: whether a text renders is an oracle of [runtime], asked
      where download_books.py prints the cells of the table, the line of
      a caught exception (unless its text is plain, see
      [has_plain_text]) and the path of a finished download.  The
      script's own literals are well-formed markup, and the status line
      of a download is taken to render.
    - The network and the file system answer through the oracles of
      [runtime]; the theorems hold for every runtime.  A file that could
      be opened is taken to accept every write.
    - [main] is modelled in two halves ([MainScript]), before and after
      its aggregation step, because the search functions hand over
      payload values where the rest of [main] is read at the annotated
      types. *)

From Stdlib Require Import ZArith List String Ascii Bool Arith Lia.
From Stdlib Require Import Floats Uint63.
From Stdlib Require Strings.Byte.
Import ListNotations.

Set Implicit Arguments.

Open Scope string_scope.
Open Scope list_scope.

(* ------------------------------------------------------------------ *)
(** ** Python [str] methods on Latin-1 strings *)

Module Str.

Definition code (c : ascii) : nat := nat_of_ascii c.

Definition between (lo hi n : nat) : bool := Nat.leb lo n && Nat.leb n hi.

(** [c.isspace()]: TAB..CR, FS..US and space, NEL, NBSP. *)
Definition isspace (c : ascii) : bool :=
  let n := code c in
  between 9 13 n || between 28 32 n || Nat.eqb n 133 || Nat.eqb n 160.

(** [c.isalnum()]: the ASCII letters and digits, and in the upper half
    the letters (feminine and masculine ordinal, micro, A-grave..y-diaeresis
    without the multiplication and division signs), the superscript
    digits and the three vulgar fractions. *)
Definition isalnum (c : ascii) : bool :=
  let n := code c in
  between 48 57 n || between 65 90 n || between 97 122 n
  || Nat.eqb n 170 || between 178 179 n || Nat.eqb n 181
  || between 185 186 n || between 188 190 n
  || between 192 214 n || between 216 246 n || between 248 255 n.

(** The characters [lower()] changes: A..Z and A-grave..Thorn without
    the multiplication sign; each moves up by 32. *)
Definition has_lower (c : ascii) : bool :=
  let n := code c in
  between 65 90 n || between 192 214 n || between 216 222 n.

Definition lower_char (c : ascii) : ascii :=
  if has_lower c then ascii_of_nat (code c + 32) else c.

(** [s.lower()] *)
Fixpoint lower (s : string) : string :=
  match s with
  | EmptyString => EmptyString
  | String c s' => String (lower_char c) (lower s')
  end.

(** [needle in hay] *)
Fixpoint contains (needle hay : string) : bool :=
  String.prefix needle hay
  || match hay with
     | EmptyString => false
     | String _ hay' => contains needle hay'
     end.

(** Leading and trailing characters of a class removed; [lstrip],
    [rstrip] and [strip] take [isspace]. *)
Fixpoint lstrip_with (p : ascii -> bool) (s : string) : string :=
  match s with
  | EmptyString => EmptyString
  | String c s' => if p c then lstrip_with p s' else s
  end.

Fixpoint rstrip_with (p : ascii -> bool) (s : string) : string :=
  match s with
  | EmptyString => EmptyString
  | String c s' =>
      match rstrip_with p s' with
      | EmptyString => if p c then EmptyString else String c EmptyString
      | r => String c r
      end
  end.

Definition lstrip : string -> string := lstrip_with isspace.
Definition rstrip : string -> string := rstrip_with isspace.
Definition strip (s : string) : string := rstrip (lstrip s).

(** Iterating a [str] yields its characters as one-character strings. *)
Fixpoint chars (s : string) : list string :=
  match s with
  | EmptyString => []
  | String c s' => String c EmptyString :: chars s'
  end.

(** [sep.join(parts)] *)
Definition join (sep : string) (parts : list string) : string :=
  String.concat sep parts.

(** ["".join(c for c in s if keep c)] *)
Fixpoint select (keep : ascii -> bool) (s : string) : string :=
  match s with
  | EmptyString => EmptyString
  | String c s' => if keep c then String c (select keep s') else select keep s'
  end.

Definition newline : string := String (ascii_of_nat 10) EmptyString.

End Str.

(* ------------------------------------------------------------------ *)
(** ** Python values, exceptions and the operations the scripts apply *)

Module Py.

(** What [json.loads] builds: [None], [bool], [int], [float], [str],
    [list], and [dict] with string keys (items in insertion order). *)
#[warnings="-register-all"] Inductive pyval : Type :=
| PNone
| PBool (b : bool)
| PInt (z : Z)
| PFloat (f : float)
| PStr (s : string)
| PList (l : list pyval)
| PDict (d : list (string * pyval)).

(** The exceptions that can arise.  [ConnectionError], [HTTPError] and
    [JSONDecodeError] are the [requests] ones, subclasses of
    [requests.RequestException] (the last since requests 2.27);
    [MarkupError] is rich's; the others are builtins.  All are subclasses
    of [Exception]. *)
Inductive exn : Type :=
| ConnectionError
| HTTPError (status : Z)
| JSONDecodeError
| KeyError (key : pyval)
| IndexError
| TypeError
| AttributeError
| ValueError
| EOFError
| OSError
| RecursionError
| MarkupError.

Definition is_RequestException (e : exn) : bool :=
  match e with
  | ConnectionError | HTTPError _ | JSONDecodeError => true
  | _ => false
  end.

Definition is_ValueError (e : exn) : bool :=
  match e with ValueError => true | _ => false end.

(** [except Exception] *)
Definition is_Exception (e : exn) : bool := true.

(** The exceptions the traversal of a payload raises in
    download_books.py.  Their text is made by the interpreter from type
    names and from the subscript 0 ("list index out of range", "'str'
    object has no attribute 'get'", "0"): it quotes nothing that comes
    from outside, and has no bracket in it. *)
Definition has_plain_text (e : exn) : bool :=
  match e with
  | KeyError (PInt _) | IndexError | TypeError | AttributeError => true
  | _ => false
  end.

(** A computation that returns or raises. *)
Definition res (A : Type) : Type := (exn + A)%type.

Definition dict_lookup (d : list (string * pyval)) (k : string) : option pyval :=
  option_map snd (find (fun kv => String.eqb (fst kv) k) d).

(** [v.get(k, default)]: only a [dict] has [get]. *)
Definition py_get (v : pyval) (k : string) (default : pyval) : res pyval :=
  match v with
  | PDict d => inr (match dict_lookup d k with Some x => x | None => default end)
  | _ => inl AttributeError
  end.

(** [v[k]] with a string subscript. *)
Definition py_getitem (v : pyval) (k : string) : res pyval :=
  match v with
  | PDict d => match dict_lookup d k with
               | Some x => inr x
               | None => inl (KeyError (PStr k))
               end
  | _ => inl TypeError
  end.

(** [v[0]] *)
Definition py_first (v : pyval) : res pyval :=
  match v with
  | PList (x :: _) => inr x
  | PList [] => inl IndexError
  | PStr (String c _) => inr (PStr (String c EmptyString))
  | PStr EmptyString => inl IndexError
  | PDict _ => inl (KeyError (PInt 0))
  | _ => inl TypeError
  end.

(** [iter(v)], run to the end: the elements of a [list], the characters
    of a [str], the keys of a [dict]. *)
Definition py_iter (v : pyval) : res (list pyval) :=
  match v with
  | PList l => inr l
  | PStr s => inr (map PStr (Str.chars s))
  | PDict d => inr (map (fun kv => PStr (fst kv)) d)
  | _ => inl TypeError
  end.

(** [v.items()] *)
Definition py_items (v : pyval) : res (list (string * pyval)) :=
  match v with
  | PDict d => inr d
  | _ => inl AttributeError
  end.

(** [v.lower()] *)
Definition py_lower (v : pyval) : res string :=
  match v with
  | PStr s => inr (Str.lower s)
  | _ => inl AttributeError
  end.

Fixpoint all_str (l : list pyval) : res (list string) :=
  match l with
  | [] => inr []
  | PStr s :: t => match all_str t with
                   | inr ss => inr (s :: ss)
                   | inl e => inl e
                   end
  | _ :: _ => inl TypeError
  end.

(** [sep.join(v)]: [v] is iterated and every item has to be a [str]. *)
Definition py_join (sep : string) (v : pyval) : res string :=
  match py_iter v with
  | inr items => match all_str items with
                 | inr ss => inr (Str.join sep ss)
                 | inl e => inl e
                 end
  | inl e => inl e
  end.

(** *** [int(s)] for a [str]

    Surrounding white space is skipped (of [isspace], the separators
    FS..US do not count here), then an optional sign, then decimal
    digits, single underscores allowed between two digits.  A string of
    more than 640 digits is refused when it has more than
    [max_str_digits] of them and that limit is not 0
    ([sys.get_int_max_str_digits()], 4300 unless changed; interpreters
    without the limit behave as with 0). *)
Definition int_space (c : ascii) : bool :=
  let n := Str.code c in
  Str.between 9 13 n || Nat.eqb n 32 || Nat.eqb n 133 || Nat.eqb n 160.

Definition digit_of (c : ascii) : option Z :=
  let n := Str.code c in
  if Str.between 48 57 n then Some (Z.of_nat (n - 48)) else None.

Fixpoint int_digits (s : string) (acc : Z) (count : nat) (after_digit : bool)
  : option (Z * nat) :=
  match s with
  | EmptyString => if after_digit then Some (acc, count) else None
  | String c s' =>
      if Ascii.eqb c "_"%char
      then if after_digit then int_digits s' acc count false else None
      else match digit_of c with
           | Some d => int_digits s' (10 * acc + d)%Z (S count) true
           | None => None
           end
  end.

Definition over_limit (max_str_digits count : nat) : bool :=
  Nat.ltb 640 count && Nat.ltb 0 max_str_digits && Nat.ltb max_str_digits count.

Definition py_int (max_str_digits : nat) (s : string) : res Z :=
  let body := Str.rstrip_with int_space (Str.lstrip_with int_space s) in
  let signed :=
    match body with
    | String "-"%char r => (true, r)
    | String "+"%char r => (false, r)
    | _ => (false, body)
    end in
  match int_digits (snd signed) 0%Z 0 false with
  | Some (v, count) =>
      if over_limit max_str_digits count then inl ValueError
      else inr (if fst signed then (- v)%Z else v)
  | None => inl ValueError
  end.

(** [a / b] on two [int]s, as a [float].  The quotient Python returns is
    the correctly rounded one; it is the quotient of the two conversions
    whenever both operands are below 2^53 in magnitude, which is the
    range this definition is for. *)
Definition float_of_int (z : Z) : float :=
  let m := PrimFloat.of_uint63 (Uint63.of_Z (Z.abs z)) in
  if (z <? 0)%Z then PrimFloat.opp m else m.

Definition py_truediv (a b : Z) : float :=
  PrimFloat.div (float_of_int a) (float_of_int b).

End Py.

(* ------------------------------------------------------------------ *)
(** ** Console, network and files: events, the world, the monad [M] *)

Module IO.
Import Py.

(** A path built by [os.path.join(dir, name)], kept as its two parts. *)
Definition path : Type := (string * string)%type.

(** The pieces of an f-string: literal text, [{v}] for a payload value
    or an [int], [{e}] for an exception, [{p}] for a path and [{x:.1f}]
    for a [float]. *)
Inductive piece : Type :=
| Lit (s : string)
| Fmt (v : pyval)
| FmtExn (e : exn)
| FmtPath (p : path)
| FmtFixed1 (x : float).

Definition text : Type := list piece.

Inductive event : Type :=
| HttpGet (url : string) (params : list (string * pyval))
| HttpGetStream (url : string)
| Print (t : text)
| Input (prompt : text)
| ShowTable (columns : list string) (rows : list (list text))
| Status (t : text)
| StatusUpdate (t : text)
| FileOpen (p : path)
| FileWrite (p : path) (data : list Byte.byte)
| MakeDirs (dir : string).

(** The answer to a search request: no answer at all, or a status line
    and a body.  [response.json()] returns the value of a body that is
    JSON ([Some]) and raises [JSONDecodeError] on one that is not
    ([None]); on a [Garbled] body it raises another exception, [e]: the
    decoder's [RecursionError] on a body nested too deep, its
    [ValueError] on an integer literal beyond the digit limit. *)
Inductive api_reply : Type :=
| Unreachable
| Responded (status : Z) (body : option pyval)
| Garbled (status : Z) (e : exn).

(** The answer to a streamed download: the [content-length] header when
    the server sends one, the chunks [iter_content] delivers, and whether
    the transfer runs to its end or breaks after the last of them. *)
Inductive stream_reply : Type :=
| StreamUnreachable
| Streamed (status : Z) (content_length : option string)
           (chunks : list (list Byte.byte)) (complete : bool).

(** The machine the script runs on.  [renders t] says whether rich's
    console prints [t] or raises [MarkupError]; [folder_exists] is
    [os.path.exists(download_folder)] at start-up and [makedirs_ok]
    whether [os.makedirs] can create the folder. *)
Record runtime : Type := {
  api : string -> list (string * pyval) -> api_reply;
  stream : string -> stream_reply;
  can_open : path -> bool;
  download_folder : string;
  max_str_digits : nat;
  renders : text -> bool;
  folder_exists : bool;
  makedirs_ok : bool
}.

Record world : Type := {
  stdin : list string;
  trace : list event
}.

Definition M (A : Type) : Type := world -> res A * world.

Class Monad (m : Type -> Type) : Type := {
  ret : forall {A}, A -> m A;
  bind : forall {A B}, m A -> (A -> m B) -> m B
}.

#[export] Instance Monad_res : Monad res := {
  ret := fun A (a : A) => inr a;
  bind := fun A B (c : res A) (k : A -> res B) =>
            match c with
            | inl e => inl e
            | inr a => k a
            end
}.

#[export] Instance Monad_M : Monad M := {
  ret := fun A (a : A) (w : world) => (inr a, w);
  bind := fun A B (c : M A) (k : A -> M B) (w : world) =>
            match c w with
            | (inl e, w') => (inl e, w')
            | (inr a, w') => k a w'
            end
}.

Definition raise {A : Type} (e : exn) : M A := fun w => (inl e, w).

Definition lift {A : Type} (c : res A) : M A := fun w => (c, w).

(** [try: body / except <class> as e: handler e] *)
Definition try_except {A : Type} (body : M A) (class : exn -> bool)
           (handler : exn -> M A) : M A :=
  fun w =>
    match body w with
    | (inl e, w') => if class e then handler e w' else (inl e, w')
    | (inr a, w') => (inr a, w')
    end.

Definition emit (e : event) : M unit :=
  fun w => (inr tt, {| stdin := stdin w; trace := trace w ++ [e] |}).

(** rich's [console.print(t)] for a text that carries data: the call is
    made, and raises [MarkupError] when [t] does not render. *)
Definition console_print (rt : runtime) (t : text) : M unit :=
  fun w =>
    let w' := {| stdin := stdin w; trace := trace w ++ [Print t] |} in
    if renders rt t then (inr tt, w') else (inl MarkupError, w').

(** [console.print(f"...{str(e)}...")] in the [except] clause of a
    search: the text of [e] is part of what is rendered, and a plain
    text renders. *)
Definition console_print_error (rt : runtime) (t : text) (e : exn) : M unit :=
  if has_plain_text e then emit (Print t) else console_print rt t.

(** [input(prompt)] and [console.input(prompt)]: the prompt is shown and
    one line is read; at the end of the input [EOFError] is raised. *)
Definition input (prompt : text) : M string :=
  fun w =>
    let tr := trace w ++ [Input prompt] in
    match stdin w with
    | [] => (inl EOFError, {| stdin := []; trace := tr |})
    | line :: rest => (inr line, {| stdin := rest; trace := tr |})
    end.

(** [for x in l: s = body s x] where the body can raise. *)
Fixpoint for_each {m : Type -> Type} {Mm : Monad m} {A S : Type}
         (l : list A) (s : S) (body : S -> A -> m S) : m S :=
  match l with
  | [] => ret s
  | x :: l' => bind (body s x) (fun s' => for_each l' s' body)
  end.

End IO.

Declare Scope monad_scope.
Delimit Scope monad_scope with monad.
Notation "x <- c ;; k" := (IO.bind c (fun x => k))
  (at level 61, c at next level, right associativity) : monad_scope.
Notation "c ;;; k" := (IO.bind c (fun _ => k))
  (at level 61, right associativity) : monad_scope.
Open Scope monad_scope.

(* ------------------------------------------------------------------ *)
(** ** The calls into [requests] both scripts make *)

Module Requests.
Import Py IO.

(** The statuses [raise_for_status] turns into [HTTPError]. *)
Definition error_status (status : Z) : bool :=
  ((400 <=? status) && (status <? 600))%Z.

(** The JSON payload of a reply that passes [raise_for_status] and
    decodes; [None] for every other reply. *)
Definition payload (reply : api_reply) : option pyval :=
  match reply with
  | Responded status (Some data) => if error_status status then None else Some data
  | _ => None
  end.

Section Session.
Variable rt : runtime.

(** [requests.get(url, params=params)]: the response, as its status
    and what decoding its body will give, or [ConnectionError]. *)
Definition get (url : string) (params : list (string * pyval))
  : M (Z * res pyval) :=
  emit (HttpGet url params) ;;;
  match api rt url params with
  | Unreachable => raise ConnectionError
  | Responded status (Some data) => ret (status, inr data)
  | Responded status None => ret (status, inl JSONDecodeError)
  | Garbled status e => ret (status, inl e)
  end.

(** [response.raise_for_status()] *)
Definition raise_for_status (status : Z) : M unit :=
  if error_status status then raise (HTTPError status) else ret tt.

(** [response.json()] *)
Definition json (decoded : res pyval) : M pyval := lift decoded.

End Session.

End Requests.

(* ------------------------------------------------------------------ *)
(** ** download_book_script/download_books.py *)

Module DownloadBooks.
Import Py IO.

(** The dataclass [BookResult].  Its annotations say [str] everywhere
    ([file_size] is optional), and Python does not enforce them: the
    search functions copy [title] and [download_url] from the payload as
    they are, so what they return is [BookResult_of pyval]; the
    aggregation in [main], [display_results] and [download_book] are
    taken at the annotated type, [BookResult]. *)
Record BookResult_of (V : Type) : Type := {
  title : V;
  author : string;
  format : string;
  source : string;
  download_url : V;
  file_size : option string
}.

Definition BookResult : Type := BookResult_of string.

Definition open_library_api : string := "https://openlibrary.org/search.json".
Definition project_gutenberg_api : string := "https://gutendex.com/books".

(** [search_open_library], the [try] block from [data] on: the body of
    the inner loop, the body of the outer loop, the loops. *)
Definition open_library_format (doc : pyval) (results : list (BookResult_of pyval))
           (fmt : pyval) : res (list (BookResult_of pyval)) :=
  low <- py_lower fmt ;;
  if Str.contains ".pdf" low || Str.contains ".epub" low
  then
    title <- py_get doc "title" (PStr "Unknown") ;;
    names <- py_get doc "author_name" (PList [PStr "Unknown"]) ;;
    author <- py_join ", " names ;;
    ret (results ++
         [ {| title := title;
              author := author;
              format := if Str.contains ".pdf" low then "PDF" else "EPUB";
              source := "OpenLibrary";
              download_url := fmt;
              file_size := None |} ])
  else ret results.

Definition open_library_doc (results : list (BookResult_of pyval)) (doc : pyval)
  : res (list (BookResult_of pyval)) :=
  formats <- py_get doc "formats" (PList []) ;;
  formats <- py_iter formats ;;
  for_each formats results (open_library_format doc).

Definition open_library_results (data : pyval) : res (list (BookResult_of pyval)) :=
  docs <- py_get data "docs" (PList []) ;;
  docs <- py_iter docs ;;
  for_each docs [] open_library_doc.

(** [search_project_gutenberg], the [try] block from [data] on, in the
    same three parts. *)
Definition project_gutenberg_format (book : pyval) (results : list (BookResult_of pyval))
           (item : string * pyval) : res (list (BookResult_of pyval)) :=
  let fmt_type := fst item in
  let url := snd item in
  let low := Str.lower fmt_type in
  if Str.contains "pdf" low || Str.contains "epub" low
  then
    title <- py_get book "title" (PStr "Unknown") ;;
    authors <- py_get book "authors" (PList [PDict [("name", PStr "Unknown")]]) ;;
    first <- py_first authors ;;
    name <- py_get first "name" PNone ;;
    author <- py_join ", " name ;;
    ret (results ++
         [ {| title := title;
              author := author;
              format := if Str.contains "pdf" low then "PDF" else "EPUB";
              source := "Project Gutenberg";
              download_url := url;
              file_size := None |} ])
  else ret results.

Definition project_gutenberg_book (results : list (BookResult_of pyval)) (book : pyval)
  : res (list (BookResult_of pyval)) :=
  formats <- py_get book "formats" (PDict []) ;;
  formats <- py_items formats ;;
  for_each formats results (project_gutenberg_format book).

Definition project_gutenberg_results (data : pyval) : res (list (BookResult_of pyval)) :=
  books <- py_get data "results" (PList []) ;;
  books <- py_iter books ;;
  for_each books [] project_gutenberg_book.

(** [{r.download_url: r for r in results}] builds a [dict]: a key seen
    before keeps its place and takes the new value, a new key goes to
    the end. *)
Fixpoint dict_set {V : Type} (d : list (string * V)) (k : string) (v : V)
  : list (string * V) :=
  match d with
  | [] => [(k, v)]
  | (k', v') :: d' =>
      if String.eqb k' k then (k', v) :: d' else (k', v') :: dict_set d' k v
  end.

Definition dict_values {V : Type} (d : list (string * V)) : list V := map snd d.

(** [list({r.download_url: r for r in results}.values())] *)
Definition unique_results (results : list BookResult) : list BookResult :=
  dict_values (fold_left (fun d r => dict_set d (download_url r) r) results []).

(** The aggregation of [main]: [results = []], one [results.extend] per
    source in query order, then the duplicates removed.  [main] has the
    two sources of [main_results]. *)
Definition aggregate (per_source : list (list BookResult)) : list BookResult :=
  unique_results (fold_left (fun results found => results ++ found) per_source []).

Definition main_results (open_library gutenberg : list BookResult) : list BookResult :=
  aggregate [open_library; gutenberg].

(** The file name [download_book] writes to. *)
Definition keep_in_filename (c : ascii) : bool :=
  Str.isalnum c || Ascii.eqb c " " || Ascii.eqb c "-" || Ascii.eqb c "_".

Definition safe_title (title : string) : string :=
  Str.rstrip (Str.select keep_in_filename title).

Definition filename (book_result : BookResult) : string :=
  (safe_title (title book_result) ++ "." ++ Str.lower (format book_result))%string.

Fixpoint table_rows (idx : Z) (results : list BookResult) : list (list text) :=
  match results with
  | [] => []
  | result :: rest =>
      [ [Fmt (PInt idx)]; [Lit (title result)]; [Lit (author result)];
        [Lit (format result)]; [Lit (source result)] ]
      :: table_rows (idx + 1) rest
  end.

Definition choice_prompt : text :=
  [Lit (Str.newline ++
        "[bold]Enter the number of the book to download (or 'q' to quit): [/bold]")%string].
Definition invalid_number : text :=
  [Lit "[red]Invalid number. Please try again.[/red]"].
Definition not_a_number : text :=
  [Lit "[red]Please enter a valid number.[/red]"].
Definition no_results : text :=
  [Lit "[yellow]No results found.[/yellow]"].

(** The lines of the three [except Exception as e] clauses. *)
Definition open_library_error (e : exn) : text :=
  [Lit "[red]Error searching OpenLibrary: "; FmtExn e; Lit "[/red]"].
Definition project_gutenberg_error (e : exn) : text :=
  [Lit "[red]Error searching Project Gutenberg: "; FmtExn e; Lit "[/red]"].
Definition download_error (e : exn) : text :=
  [Lit "[red]Error downloading book: "; FmtExn e; Lit "[/red]"].
Definition downloaded_to (filepath : path) : text :=
  [Lit "[green]Successfully downloaded to: "; FmtPath filepath; Lit "[/green]"].

Definition open_library_params (title author : string) : list (string * pyval) :=
  let query := ("title:" ++ title ++ " author:" ++ author)%string in
  [("q", PStr query); ("fields", PStr "title,author_name,formats")].

Definition project_gutenberg_params (title author : string) : list (string * pyval) :=
  let query := (title ++ " " ++ author)%string in
  [("search", PStr query)].

Section Fetcher.
Variable rt : runtime.

(** [_ensure_download_folder]: the folder is made when it is not there,
    and [os.makedirs] can fail. *)
Definition _ensure_download_folder : M unit :=
  if folder_exists rt then ret tt
  else
    emit (MakeDirs (download_folder rt)) ;;;
    (if makedirs_ok rt then ret tt else raise OSError).

(** [BookFetcher()]: the attributes are the constants above and the
    fields of [rt]; what is left to run is the check of the folder. *)
Definition __init__ : M unit := _ensure_download_folder.

Definition search_open_library (title author : string)
  : M (list (BookResult_of pyval)) :=
  let params := open_library_params title author in
  try_except
    (response <- Requests.get rt open_library_api params ;;
     Requests.raise_for_status (fst response) ;;;
     data <- Requests.json (snd response) ;;
     lift (open_library_results data))
    is_Exception
    (fun e =>
       console_print_error rt (open_library_error e) e ;;;
       ret []).

Definition search_project_gutenberg (title author : string)
  : M (list (BookResult_of pyval)) :=
  let params := project_gutenberg_params title author in
  try_except
    (response <- Requests.get rt project_gutenberg_api params ;;
     Requests.raise_for_status (fst response) ;;;
     data <- Requests.json (snd response) ;;
     lift (project_gutenberg_results data))
    is_Exception
    (fun e =>
       console_print_error rt (project_gutenberg_error e) e ;;;
       ret []).

(** The body of the [while True] of [display_results] once [choice] is
    read: [Some x] is [return x], [None] goes round again. *)
Definition on_choice (results : list BookResult) (choice : string)
  : M (option (option BookResult)) :=
  if String.eqb (Str.lower choice) "q" then ret (Some None)
  else
    try_except
      (n <- lift (py_int (max_str_digits rt) choice) ;;
       let choice_idx := (n - 1)%Z in
       if ((0 <=? choice_idx) && (choice_idx <? Z.of_nat (List.length results)))%Z
       then match nth_error results (Z.to_nat choice_idx) with
            | Some result => ret (Some (Some result))
            | None => raise IndexError
            end
       else emit (Print invalid_number) ;;; ret None)
      is_ValueError
      (fun _ => emit (Print not_a_number) ;;; ret None).

(** The [while True] loop over the input lines still to come.  The body
    reads no input of its own, so the next pass starts from [rest]. *)
Fixpoint choose (results : list BookResult) (lines : list string)
         (shown : list event) : res (option BookResult) * world :=
  let shown := shown ++ [Input choice_prompt] in
  match lines with
  | [] => (inl EOFError, {| stdin := []; trace := shown |})
  | choice :: rest =>
      match on_choice results choice {| stdin := rest; trace := shown |} with
      | (inr (Some answer), w) => (inr answer, w)
      | (inr None, w) => choose results rest (trace w)
      | (inl e, w) => (inl e, w)
      end
  end.

(** [console.print(table)]: every cell is rendered as markup. *)
Definition table_renders (results : list BookResult) : bool :=
  forallb (forallb (renders rt)) (table_rows 1 results).

Definition display_results (results : list BookResult) : M (option BookResult) :=
  match results with
  | [] => emit (Print no_results) ;;; ret None
  | _ =>
      emit (ShowTable ["#"; "Title"; "Author"; "Format"; "Source"]
                      (table_rows 1 results)) ;;;
      (if table_renders results then ret tt else raise MarkupError) ;;;
      (fun w => choose results (stdin w) (trace w))
  end.

(** One pass of [for chunk in response.iter_content(chunk_size=8192)].
    A write to the file that is open goes through; so does the status
    line, whose data is the file name. *)
Definition receive (filepath : path) (name : string) (total_size : Z)
           (downloaded : Z) (chunk : list Byte.byte) : M Z :=
  match chunk with
  | [] => ret downloaded
  | _ =>
      emit (FileWrite filepath chunk) ;;;
      let downloaded := (downloaded + Z.of_nat (List.length chunk))%Z in
      let percent := PrimFloat.mul (py_truediv downloaded total_size) 100 in
      emit (StatusUpdate [Lit "[bold green]Downloading "; Lit name; Lit ": ";
                          FmtFixed1 percent; Lit "%"]) ;;;
      ret downloaded
  end.

(** The [try] block of [download_book]. *)
Definition transfer (book_result : BookResult) : M bool :=
  emit (HttpGetStream (download_url book_result)) ;;;
  match stream rt (download_url book_result) with
  | StreamUnreachable => raise ConnectionError
  | Streamed status content_length chunks complete =>
      Requests.raise_for_status status ;;;
      let name := filename book_result in
      let filepath := (download_folder rt, name) in
      total_size <- match content_length with
                    | Some header => lift (py_int (max_str_digits rt) header)
                    | None => ret 0%Z
                    end ;;
      (if can_open rt filepath then emit (FileOpen filepath) else raise OSError) ;;;
      emit (Status [Lit "[bold green]Downloading "; Lit name; Lit "..."]) ;;;
      (if (total_size =? 0)%Z
       then
         (if complete then emit (FileWrite filepath (List.concat chunks))
          else raise ConnectionError)
       else
         for_each chunks 0%Z (receive filepath name total_size) ;;;
         (if complete then ret tt else raise ConnectionError)) ;;;
      console_print rt (downloaded_to filepath) ;;;
      ret true
  end.

Definition download_book (book_result : BookResult) : M bool :=
  try_except
    (transfer book_result)
    is_Exception
    (fun e =>
       console_print rt (download_error e) ;;;
       ret false).

End Fetcher.

(** The progress figures a run reported, in order. *)
Definition progress_values (events : list event) : list float :=
  flat_map (fun e =>
              match e with
              | StatusUpdate t =>
                  flat_map (fun p => match p with FmtFixed1 x => [x] | _ => [] end) t
              | _ => []
              end) events.

End DownloadBooks.

(* ------------------------------------------------------------------ *)
(** ** get_book_links/get_book_links.py *)

Module GetBookLinks.
Import Py IO.

(** The value under ['download_link']: a payload value as it is (Google
    Books) or an f-string (Open Library). *)
Inductive link : Type :=
| Value (v : pyval)
| Formatted (t : text).

(** The [dict] each search function builds per book. *)
Record book_link : Type := {
  title : pyval;
  authors : pyval;
  download_link : link
}.

Definition google_books_api : string := "https://www.googleapis.com/books/v1/volumes".
Definition open_library_api : string := "https://openlibrary.org/search.json".

(** The list comprehension of [search_google_books]: the dict built for
    one [book], and the comprehension. *)
Definition google_books_item (found : list book_link) (book : pyval) : res (list book_link) :=
  info <- py_getitem book "volumeInfo" ;;
  title <- py_get info "title" PNone ;;
  info <- py_getitem book "volumeInfo" ;;
  authors <- py_get info "authors" (PList []) ;;
  access <- py_getitem book "accessInfo" ;;
  reader <- py_get access "webReaderLink" (PStr "N/A") ;;
  ret (found ++ [ {| title := title; authors := authors;
                     download_link := Value reader |} ]).

Definition google_books_results (books : pyval) : res (list book_link) :=
  books <- py_iter books ;;
  for_each books [] google_books_item.

(** The list comprehension of [search_open_library]. *)
Definition open_library_item (found : list book_link) (book : pyval) : res (list book_link) :=
  title <- py_get book "title" PNone ;;
  authors <- py_get book "author_name" (PList []) ;;
  key <- py_get book "key" PNone ;;
  ret (found ++ [ {| title := title; authors := authors;
                     download_link :=
                       Formatted [Lit "https://openlibrary.org"; Fmt key] |} ]).

Definition open_library_results (books : pyval) : res (list book_link) :=
  books <- py_iter books ;;
  for_each books [] open_library_item.

Fixpoint enumerate {A : Type} (start : Z) (l : list A) : list (Z * A) :=
  match l with
  | [] => []
  | x :: l' => (start, x) :: enumerate (start + 1) l'
  end.

Definition welcome : text := [Lit "Welcome to the Book Fetcher!"].
Definition ask_book : text := [Lit "Enter the book name: "].
Definition ask_author : text := [Lit "Enter the author's name: "].
Definition both_required : text := [Lit "Both book name and author name are required."].

Definition google_books_params (book_name author_name : string)
  : list (string * pyval) :=
  [("q", PStr ("intitle:" ++ book_name ++ "+inauthor:" ++ author_name)%string);
   ("maxResults", PInt 5)].

Definition open_library_params (book_name author_name : string)
  : list (string * pyval) :=
  [("title", PStr book_name); ("author", PStr author_name)].

Section Script.
Variable rt : runtime.

Definition search_google_books (book_name author_name : string) : M (list book_link) :=
  let params := google_books_params book_name author_name in
  try_except
    (response <- Requests.get rt google_books_api params ;;
     Requests.raise_for_status (fst response) ;;;
     data <- Requests.json (snd response) ;;
     books <- lift (py_get data "items" (PList [])) ;;
     lift (google_books_results books))
    is_RequestException
    (fun e =>
       emit (Print [Lit "Error fetching data from Google Books: "; FmtExn e]) ;;;
       ret []).

Definition search_open_library (book_name author_name : string) : M (list book_link) :=
  let params := open_library_params book_name author_name in
  try_except
    (response <- Requests.get rt open_library_api params ;;
     Requests.raise_for_status (fst response) ;;;
     data <- Requests.json (snd response) ;;
     books <- lift (py_get data "docs" (PList [])) ;;
     lift (open_library_results books))
    is_RequestException
    (fun e =>
       emit (Print [Lit "Error fetching data from Open Library: "; FmtExn e]) ;;;
       ret []).

Definition print_book (entry : Z * book_link) : M unit :=
  let idx := fst entry in
  let book := snd entry in
  authors <- lift (py_join ", " (authors book)) ;;
  emit (Print ([Fmt (PInt idx); Lit ". "; Fmt (title book); Lit " by "; Lit authors;
                Lit (Str.newline ++ "   Download/Read Link: ")%string]
               ++ match download_link book with
                  | Value v => [Fmt v]
                  | Formatted t => t
                  end
               ++ [Lit Str.newline])).

Definition fetch_books : M unit :=
  emit (Print welcome) ;;;
  line <- input ask_book ;;
  let book_name := Str.strip line in
  line <- input ask_author ;;
  let author_name := Str.strip line in
  if String.eqb book_name "" || String.eqb author_name ""
  then emit (Print both_required)
  else
    emit (Print [Lit "Fetching books from Google Books..."]) ;;;
    google_books <- search_google_books book_name author_name ;;
    emit (Print [Lit "Found "; Fmt (PInt (Z.of_nat (List.length google_books)));
                 Lit " books on Google Books."]) ;;;
    emit (Print [Lit "Fetching books from Open Library..."]) ;;;
    open_library_books <- search_open_library book_name author_name ;;
    emit (Print [Lit "Found "; Fmt (PInt (Z.of_nat (List.length open_library_books)));
                 Lit " books on Open Library."]) ;;;
    let all_books := google_books ++ open_library_books in
    match all_books with
    | [] => emit (Print [Lit "No books found for your query."])
    | _ =>
        emit (Print [Lit (Str.newline ++ "Books found:")%string]) ;;;
        for_each (enumerate 1 all_books) tt (fun _ entry => print_book entry)
    end.

End Script.

(** Whether a payload value says "pdf" or "epub" anywhere, in a string or
    in a key, in any letter case. *)
Definition names_format (s : string) : bool :=
  Str.contains "pdf" (Str.lower s) || Str.contains "epub" (Str.lower s).

Fixpoint mentions_format (v : pyval) : bool :=
  match v with
  | PStr s => names_format s
  | PList l => existsb mentions_format l
  | PDict d =>
      (fix in_items (d : list (string * pyval)) : bool :=
         match d with
         | [] => false
         | (k, x) :: d' => names_format k || mentions_format x || in_items d'
         end) d
  | _ => false
  end.

End GetBookLinks.

(* ------------------------------------------------------------------ *)
(** ** The vocabulary of the specification *)

Module Spec.
Import Py IO.

(** *** ResultAggregator *)

Definition has_url (url : string) (r : DownloadBooks.BookResult) : bool :=
  String.eqb (DownloadBooks.download_url r) url.

(** The first, resp. last, entry of a list that carries a URL. *)
Definition first_with_url (url : string) (results : list DownloadBooks.BookResult)
  : option DownloadBooks.BookResult :=
  find (has_url url) results.

Definition last_with_url (url : string) (results : list DownloadBooks.BookResult)
  : option DownloadBooks.BookResult :=
  find (has_url url) (rev results).

Definition occurrences (url : string) (results : list DownloadBooks.BookResult) : nat :=
  List.length (filter (has_url url) results).

(** The URLs of a list in the order in which each is first seen. *)
Fixpoint first_seen (urls : list string) : list string :=
  match urls with
  | [] => []
  | u :: rest => u :: filter (fun x => negb (String.eqb x u)) (first_seen rest)
  end.

(** The flat input of the aggregator: the sources one after the other. *)
Definition in_input_order (per_source : list (list DownloadBooks.BookResult))
  : list DownloadBooks.BookResult :=
  List.concat per_source.

(** *** SourceClient: errors swallowed, the entries of a payload and the
    format filter *)

(** What [except Exception: return []] makes of a traversal. *)
Definition recovered {A : Type} (found : res (list A)) : list A :=
  match found with
  | inr l => l
  | inl _ => []
  end.

Definition propagates_only_other_errors {A : Type} (outcome : res A) : Prop :=
  match outcome with
  | inl e => is_RequestException e = false
  | inr _ => True
  end.

Definition items_of (v : pyval) : list pyval :=
  match py_iter v with
  | inr l => l
  | inl _ => []
  end.

Definition field (v : pyval) (k : string) (default : pyval) : pyval :=
  match py_get v k default with
  | inr x => x
  | inl _ => default
  end.

(** Open Library: every entry of every doc's [formats], in order. *)
Definition open_library_formats (data : pyval) : list pyval :=
  flat_map (fun doc => items_of (field doc "formats" (PList [])))
           (items_of (field data "docs" (PList []))).

Definition names_pdf_or_epub_file (fmt : pyval) : bool :=
  match fmt with
  | PStr s => Str.contains ".pdf" (Str.lower s) || Str.contains ".epub" (Str.lower s)
  | _ => false
  end.

Definition file_format (fmt : pyval) : string :=
  match fmt with
  | PStr s => if Str.contains ".pdf" (Str.lower s) then "PDF" else "EPUB"
  | _ => "EPUB"
  end.

(** The format and the URL of a result, which is what the filter decides. *)
Definition format_and_url (r : DownloadBooks.BookResult_of pyval) : string * pyval :=
  (DownloadBooks.format r, DownloadBooks.download_url r).

(** Gutendex: every (format name, URL) item of every book's [formats]. *)
Definition gutenberg_formats (data : pyval) : list (string * pyval) :=
  flat_map (fun book =>
              match py_items (field book "formats" (PDict [])) with
              | inr items => items
              | inl _ => []
              end)
           (items_of (field data "results" (PList []))).

Definition names_pdf_or_epub (fmt_type : string) : bool :=
  Str.contains "pdf" (Str.lower fmt_type) || Str.contains "epub" (Str.lower fmt_type).

Definition media_format (fmt_type : string) : string :=
  if Str.contains "pdf" (Str.lower fmt_type) then "PDF" else "EPUB".

(** *** Presenter/Selector *)

(** The quit token. *)
Definition quits (choice : string) : bool := String.eqb (Str.lower choice) "q".

(** An input that is neither the quit token nor the number of a row:
    not an integer at all, or an integer outside 1..n. *)
Definition rejected (max_str_digits : nat) (n : nat) (choice : string) : bool :=
  negb (quits choice)
  && match py_int max_str_digits choice with
     | inl _ => true
     | inr k => negb ((1 <=? k) && (k <=? Z.of_nat n))%Z
     end.

(** The message a rejected input is answered with. *)
Definition rejection (max_str_digits : nat) (choice : string) : text :=
  match py_int max_str_digits choice with
  | inl _ => DownloadBooks.not_a_number
  | inr _ => DownloadBooks.invalid_number
  end.

(** The world after [console.print(t)]. *)
Definition say (t : text) (w : world) : world :=
  {| stdin := stdin w; trace := trace w ++ [Print t] |}.

(** What the console shows after the table for a run of rejected inputs:
    the prompt and the message, once per input. *)
Definition reprompts (max_str_digits : nat) (choices : list string) : list event :=
  flat_map (fun choice =>
              [Input DownloadBooks.choice_prompt; Print (rejection max_str_digits choice)])
           choices.

(** *** Downloader *)

Definition allowed_in_filename (c : ascii) : bool :=
  Str.isalnum c || existsb (Ascii.eqb c) [" "; "-"; "_"]%char.

Fixpoint drop_while {A : Type} (p : A -> bool) (l : list A) : list A :=
  match l with
  | [] => []
  | x :: l' => if p x then drop_while p l' else l
  end.

Definition trim_trailing_space (l : list ascii) : list ascii :=
  rev (drop_while Str.isspace (rev l)).

(** The file name as the specification words it: the disallowed
    characters stripped, trailing white space trimmed, a period and the
    lower-case format appended. *)
Definition filename (title format : string) : string :=
  (string_of_list_ascii
     (trim_trailing_space (filter allowed_in_filename (list_ascii_of_string title)))
   ++ "." ++ Str.lower format)%string.

Fixpoint strictly_increasing (l : list float) : bool :=
  match l with
  | x :: (y :: _) as rest => PrimFloat.ltb x y && strictly_increasing rest
  | _ => true
  end.

(** *** Requests in a trace *)

Definition is_request (e : event) : bool :=
  match e with
  | HttpGet _ _ | HttpGetStream _ => true
  | _ => false
  end.

End Spec.

(* ------------------------------------------------------------------ *)
(** ** Concrete inputs *)

Module Samples.
Import Py IO.

Definition entry (title url : string) : DownloadBooks.BookResult :=
  {| DownloadBooks.title := title;
     DownloadBooks.author := "Unknown";
     DownloadBooks.format := "PDF";
     DownloadBooks.source := "OpenLibrary";
     DownloadBooks.download_url := url;
     DownloadBooks.file_size := None |}.

(** A machine on which every search request gets [reply] and every
    download gets [body]. *)
Definition machine (reply : api_reply) (body : stream_reply) : runtime :=
  {| api := fun _ _ => reply;
     stream := fun _ => body;
     can_open := fun _ => true;
     download_folder := "/home/reader/Desktop/book_fetcher";
     max_str_digits := 4300;
     renders := fun _ => true;
     folder_exists := true;
     makedirs_ok := true |}.

Definition offline : runtime := machine Unreachable StreamUnreachable.

(** The same machine with a console on which no text that carries data
    renders. *)
Definition refusing (reply : api_reply) (body : stream_reply) : runtime :=
  {| api := fun _ _ => reply;
     stream := fun _ => body;
     can_open := fun _ => true;
     download_folder := "/home/reader/Desktop/book_fetcher";
     max_str_digits := 4300;
     renders := fun _ => false;
     folder_exists := true;
     makedirs_ok := true |}.

Definition answering (data : pyval) : runtime :=
  machine (Responded 200 (Some data)) StreamUnreachable.

Definition idle : world := {| stdin := []; trace := [] |}.

(** Gutendex: one book by Jane Austen with three formats. *)
Definition austen : pyval :=
  PDict [("results",
          PList [PDict [("title", PStr "Pride and Prejudice");
                        ("authors", PList [PDict [("name", PStr "Jane Austen")]]);
                        ("formats",
                         PDict [("application/pdf", PStr "https://gutenberg.org/1342.pdf");
                                ("text/html", PStr "https://gutenberg.org/1342.html");
                                ("application/EPUB+zip",
                                 PStr "https://gutenberg.org/1342.epub")])]])].

(** Gutendex: a book without an author list. *)
Definition anonymous : pyval :=
  PDict [("results",
          PList [PDict [("title", PStr "Beowulf");
                        ("formats",
                         PDict [("application/pdf", PStr "https://gutenberg.org/16328.pdf")])]])].

(** Gutendex: a book with an empty author list. *)
Definition unsigned : pyval :=
  PDict [("results",
          PList [PDict [("title", PStr "Beowulf");
                        ("authors", PList []);
                        ("formats",
                         PDict [("application/pdf", PStr "https://gutenberg.org/16328.pdf")])]])].

(** Open Library (with [formats]): two docs, one without title and
    authors. *)
Definition shelf : pyval :=
  PDict [("docs",
          PList [PDict [("title", PStr "Emma");
                        ("author_name", PList [PStr "Jane Austen"; PStr "An Editor"]);
                        ("formats", PList [PStr "https://archive.org/emma.PDF";
                                           PStr "https://archive.org/emma.txt";
                                           PStr "https://archive.org/emma.epub"])];
                 PDict [("formats", PList [PStr "https://archive.org/x.epub"])]])].

(** Google Books: an item without ['volumeInfo']. *)
Definition bare_item : pyval := PDict [("items", PList [PDict []])].

(** Google Books: a well-formed item that names no format anywhere. *)
Definition plain_item : pyval :=
  PDict [("items",
          PList [PDict [("volumeInfo", PDict [("title", PStr "Emma")]);
                        ("accessInfo", PDict [])]])].

(** One payload with the keys of all three catalogues. *)
Definition catalogue : pyval :=
  PDict [("docs",
          PList [PDict [("title", PStr "Emma");
                        ("key", PStr "/works/OL1W");
                        ("author_name", PList [PStr "Jane Austen"]);
                        ("formats", PList [PStr "https://archive.org/emma.PDF";
                                           PStr "https://archive.org/emma.txt"])]]);
         ("results",
          PList [PDict [("title", PStr "Emma");
                        ("authors", PList [PDict [("name", PStr "Jane Austen")]]);
                        ("formats",
                         PDict [("text/plain", PStr "https://gutenberg.org/158.txt");
                                ("application/epub+zip",
                                 PStr "https://gutenberg.org/158.epub")])]]);
         ("items",
          PList [PDict [("volumeInfo", PDict [("title", PStr "Emma")]);
                        ("accessInfo",
                         PDict [("webReaderLink", PStr "https://play.google.com/1")])]])].

(** A download of 16384 bytes announced as such and delivered in two
    chunks of 8192. *)
Definition chunk : list Byte.byte := repeat Byte.x00 (Z.to_nat 8192).

Definition two_chunks : runtime :=
  machine Unreachable (Streamed 200 (Some "16384") [chunk; chunk] true).

End Samples.

(* ------------------------------------------------------------------ *)
(** ** The dict under construction, for the aggregation proofs *)

Module Aggregation.
Import DownloadBooks.

Definition dict : Type := list (string * BookResult).

Definition keys (d : dict) : list string := map fst d.

Definition lookup (d : dict) (k : string) : option BookResult :=
  option_map snd (find (fun kv => String.eqb (fst kv) k) d).

Definition mem (k : string) (l : list string) : bool := existsb (String.eqb k) l.

(** Every value sits under its own URL and no key comes twice. *)
Definition well_keyed (d : dict) : Prop :=
  NoDup (keys d) /\ Forall (fun kv => download_url (snd kv) = fst kv) d.

(** The comprehension, started from a dict [d]. *)
Definition collect (d : dict) (results : list BookResult) : dict :=
  fold_left (fun d r => dict_set d (download_url r) r) results d.

End Aggregation.

(* ------------------------------------------------------------------ *)
(** ** [main] of download_books.py, in its two halves

    The search functions hand over [BookResult_of pyval], the rest of
    [main] is taken at the annotated type: the half up to the
    aggregation and the half from it on are two definitions.  The second
    half is [main] on results whose fields are [str], as annotated. *)

Module MainScript.
Import Py IO DownloadBooks.

Definition title_prompt : text := [Lit "[bold]Enter book title: [/bold]"].
Definition author_prompt : text := [Lit "[bold]Enter author name: [/bold]"].
Definition searching : text := [Lit "[bold green]Searching for books..."].

Section Run.
Variable rt : runtime.

(** [main] from [BookFetcher()] to the second [results.extend]. *)
Definition main_search : M (list (BookResult_of pyval)) :=
  __init__ rt ;;;
  title <- input title_prompt ;;
  author <- input author_prompt ;;
  emit (Status searching) ;;;
  let results := [] in
  found <- search_open_library rt title author ;;
  let results := results ++ found in
  found <- search_project_gutenberg rt title author ;;
  let results := results ++ found in
  ret results.

(** [main] from the removal of duplicates to the end. *)
Definition main_select (results : list BookResult) : M unit :=
  let unique_results := unique_results results in
  selected_book <- display_results rt unique_results ;;
  match selected_book with
  | Some book => download_book rt book ;;; ret tt
  | None => ret tt
  end.

End Run.

End MainScript.

(* ------------------------------------------------------------------ *)
(** ** What a payload should give, entry by entry *)

Module Shapes.
Import Py IO Spec.

Definition is_str (v : pyval) : bool :=
  match v with PStr _ => true | _ => false end.

Definition is_dict (v : pyval) : bool :=
  match v with PDict _ => true | _ => false end.

Definition str_list (v : pyval) : bool :=
  match v with PList l => forallb is_str l | _ => false end.

(** A key that is absent, or present with a value that satisfies [p]. *)
Definition optional (p : pyval -> bool) (d : list (string * pyval)) (k : string) : bool :=
  match dict_lookup d k with
  | Some v => p v
  | None => true
  end.

Definition list_of (p : pyval -> bool) (v : pyval) : bool :=
  match v with PList l => forallb p l | _ => false end.

(** *** download_books.py, Open Library *)

Definition author_names (doc : pyval) : string :=
  match py_join ", " (field doc "author_name" (PList [PStr "Unknown"])) with
  | inr names => names
  | inl _ => EmptyString
  end.

Definition open_library_result (doc fmt : pyval) : DownloadBooks.BookResult_of pyval :=
  {| DownloadBooks.title := field doc "title" (PStr "Unknown");
     DownloadBooks.author := author_names doc;
     DownloadBooks.format := file_format fmt;
     DownloadBooks.source := "OpenLibrary";
     DownloadBooks.download_url := fmt;
     DownloadBooks.file_size := None |}.

Definition open_library_expected (data : pyval) : list (DownloadBooks.BookResult_of pyval) :=
  flat_map (fun doc =>
              map (open_library_result doc)
                  (filter names_pdf_or_epub_file (items_of (field doc "formats" (PList [])))))
           (items_of (field data "docs" (PList []))).

(** A payload as Open Library sends it: an object whose [docs], when
    there, is a list of objects whose [formats] and [author_name], when
    there, are lists of strings. *)
Definition open_library_doc_ok (doc : pyval) : bool :=
  match doc with
  | PDict d => optional str_list d "formats" && optional str_list d "author_name"
  | _ => false
  end.

Definition open_library_ok (data : pyval) : bool :=
  match data with
  | PDict d => optional (list_of open_library_doc_ok) d "docs"
  | _ => false
  end.

(** *** download_books.py, Project Gutenberg *)

Definition first_author (book : pyval) : res string :=
  authors <- py_get book "authors" (PList [PDict [("name", PStr "Unknown")]]) ;;
  first <- py_first authors ;;
  name <- py_get first "name" PNone ;;
  py_join ", " name.

Definition project_gutenberg_result (book : pyval) (item : string * pyval)
  : DownloadBooks.BookResult_of pyval :=
  {| DownloadBooks.title := field book "title" (PStr "Unknown");
     DownloadBooks.author := match first_author book with
                             | inr spelled => spelled
                             | inl _ => EmptyString
                             end;
     DownloadBooks.format := media_format (fst item);
     DownloadBooks.source := "Project Gutenberg";
     DownloadBooks.download_url := snd item;
     DownloadBooks.file_size := None |}.

Definition formats_of (book : pyval) : list (string * pyval) :=
  match py_items (field book "formats" (PDict [])) with
  | inr items => items
  | inl _ => []
  end.

Definition project_gutenberg_expected (data : pyval)
  : list (DownloadBooks.BookResult_of pyval) :=
  flat_map (fun book =>
              map (project_gutenberg_result book)
                  (filter (fun item => names_pdf_or_epub (fst item)) (formats_of book)))
           (items_of (field data "results" (PList []))).

(** *** What a search leaves in the trace *)

(** The exception a search runs into, if any: the request, the status,
    the decoding, then the traversal. *)
Definition search_failure {A : Type} (reply : api_reply) (traversal : pyval -> res A)
  : option exn :=
  match reply with
  | Unreachable => Some ConnectionError
  | Responded status body =>
      if Requests.error_status status then Some (HTTPError status)
      else match body with
           | None => Some JSONDecodeError
           | Some data => match traversal data with
                          | inl e => Some e
                          | inr _ => None
                          end
           end
  | Garbled status e =>
      if Requests.error_status status then Some (HTTPError status) else Some e
  end.

(** Whether the line an [except] clause of download_books.py prints for
    a failure gets through rich. *)
Definition reported (rt : runtime) (line : exn -> text) (failure : option exn) : bool :=
  match failure with
  | Some e => has_plain_text e || renders rt (line e)
  | None => true
  end.

Definition open_library_failure (rt : runtime) (title author : string) : option exn :=
  search_failure (api rt DownloadBooks.open_library_api
                      (DownloadBooks.open_library_params title author))
                 DownloadBooks.open_library_results.

Definition project_gutenberg_failure (rt : runtime) (title author : string) : option exn :=
  search_failure (api rt DownloadBooks.project_gutenberg_api
                      (DownloadBooks.project_gutenberg_params title author))
                 DownloadBooks.project_gutenberg_results.

(** What each search of download_books.py returns, read off the reply. *)
Definition found_on_open_library (rt : runtime) (title author : string)
  : list (DownloadBooks.BookResult_of pyval) :=
  match Requests.payload (api rt DownloadBooks.open_library_api
                              (DownloadBooks.open_library_params title author)) with
  | Some data => recovered (DownloadBooks.open_library_results data)
  | None => []
  end.

Definition found_on_gutenberg (rt : runtime) (title author : string)
  : list (DownloadBooks.BookResult_of pyval) :=
  match Requests.payload (api rt DownloadBooks.project_gutenberg_api
                              (DownloadBooks.project_gutenberg_params title author)) with
  | Some data => recovered (DownloadBooks.project_gutenberg_results data)
  | None => []
  end.

(** *** get_book_links.py *)

Definition google_books_link (book : pyval) : GetBookLinks.book_link :=
  let info := match py_getitem book "volumeInfo" with inr v => v | inl _ => PNone end in
  let access := match py_getitem book "accessInfo" with inr v => v | inl _ => PNone end in
  {| GetBookLinks.title := field info "title" PNone;
     GetBookLinks.authors := field info "authors" (PList []);
     GetBookLinks.download_link := GetBookLinks.Value (field access "webReaderLink" (PStr "N/A")) |}.

Definition google_books_item_ok (book : pyval) : bool :=
  match book with
  | PDict d =>
      match dict_lookup d "volumeInfo", dict_lookup d "accessInfo" with
      | Some (PDict _), Some (PDict _) => true
      | _, _ => false
      end
  | _ => false
  end.

Definition open_library_link (book : pyval) : GetBookLinks.book_link :=
  {| GetBookLinks.title := field book "title" PNone;
     GetBookLinks.authors := field book "author_name" (PList []);
     GetBookLinks.download_link :=
       GetBookLinks.Formatted [Lit "https://openlibrary.org"; Fmt (field book "key" PNone)] |}.

(** The exception behind a reply without payload. *)
Definition reply_failure (reply : api_reply) : exn :=
  match reply with
  | Unreachable => ConnectionError
  | Responded status _ =>
      if Requests.error_status status then HTTPError status else JSONDecodeError
  | Garbled status e =>
      if Requests.error_status status then HTTPError status else e
  end.

(** A reply on which a search raises a [requests.RequestException]: no
    answer, a 4xx or 5xx status, or a body on which [json()] raises
    [JSONDecodeError]. *)
Definition request_failed (reply : api_reply) : bool :=
  match Requests.payload reply with
  | Some _ => false
  | None => is_RequestException (reply_failure reply)
  end.

(** What [except requests.RequestException: return []] makes of a reply
    without payload: the empty list for a failure of that class, the
    exception itself for any other. *)
Definition excepted {A : Type} (reply : api_reply) : res (list A) :=
  if is_RequestException (reply_failure reply) then inr [] else inl (reply_failure reply).

(** What each search of get_book_links.py returns or raises, read off
    the reply. *)
Definition found_on_google_books (rt : runtime) (book_name author_name : string)
  : res (list GetBookLinks.book_link) :=
  let reply := api rt GetBookLinks.google_books_api
                   (GetBookLinks.google_books_params book_name author_name) in
  match Requests.payload reply with
  | Some data =>
      books <- py_get data "items" (PList []) ;;
      GetBookLinks.google_books_results books
  | None => excepted reply
  end.

Definition found_on_open_library_links (rt : runtime) (book_name author_name : string)
  : res (list GetBookLinks.book_link) :=
  let reply := api rt GetBookLinks.open_library_api
                   (GetBookLinks.open_library_params book_name author_name) in
  match Requests.payload reply with
  | Some data =>
      books <- py_get data "docs" (PList []) ;;
      GetBookLinks.open_library_results books
  | None => excepted reply
  end.

(** The line [fetch_books] prints for a book under a number, once its
    authors are joined. *)
Definition listing_line (idx : Z) (book : GetBookLinks.book_link) (authors : string)
  : event :=
  Print ([Fmt (PInt idx); Lit ". "; Fmt (GetBookLinks.title book); Lit " by ";
          Lit authors; Lit (Str.newline ++ "   Download/Read Link: ")%string]
         ++ match GetBookLinks.download_link book with
            | GetBookLinks.Value v => [Fmt v]
            | GetBookLinks.Formatted t => t
            end
         ++ [Lit Str.newline]).

Definition joined_authors (book : GetBookLinks.book_link) : res string :=
  py_join ", " (GetBookLinks.authors book).

Definition joinable (book : GetBookLinks.book_link) : bool :=
  match joined_authors book with
  | inr _ => true
  | inl _ => false
  end.

(** The lines for a list of books numbered from [start]. *)
Definition listing (start : Z) (books : list GetBookLinks.book_link) : list event :=
  flat_map (fun entry =>
              match joined_authors (snd entry) with
              | inr authors => [listing_line (fst entry) (snd entry) authors]
              | inl _ => []
              end)
           (GetBookLinks.enumerate start books).

(** *** Downloader *)

(** [int(response.headers.get('content-length', 0))] *)
Definition announced (max_str_digits : nat) (content_length : option string) : res Z :=
  match content_length with
  | Some header => py_int max_str_digits header
  | None => inr 0%Z
  end.

(** Whether [download_book] gets as far as opening its file. *)
Definition opens_file (rt : runtime) (book_result : DownloadBooks.BookResult) : bool :=
  match stream rt (DownloadBooks.download_url book_result) with
  | StreamUnreachable => false
  | Streamed status content_length _ _ =>
      negb (Requests.error_status status)
      && match announced (max_str_digits rt) content_length with
         | inr _ => true
         | inl _ => false
         end
      && can_open rt (download_folder rt, DownloadBooks.filename book_result)
  end.

Definition transfer_complete (rt : runtime) (book_result : DownloadBooks.BookResult) : bool :=
  match stream rt (DownloadBooks.download_url book_result) with
  | StreamUnreachable => false
  | Streamed _ _ _ complete => complete
  end.

(** The chunks a download delivers and the size its header announces. *)
Definition delivered (rt : runtime) (book_result : DownloadBooks.BookResult)
  : list (list Byte.byte) :=
  match stream rt (DownloadBooks.download_url book_result) with
  | StreamUnreachable => []
  | Streamed _ _ chunks _ => chunks
  end.

Definition announced_size (rt : runtime) (book_result : DownloadBooks.BookResult) : res Z :=
  match stream rt (DownloadBooks.download_url book_result) with
  | StreamUnreachable => inr 0%Z
  | Streamed _ content_length _ _ => announced (max_str_digits rt) content_length
  end.

Definition touches_disk (e : event) : bool :=
  match e with
  | FileOpen _ | FileWrite _ _ => true
  | _ => false
  end.

(** The calls of [f.write], in order: the file and the bytes. *)
Definition writes (events : list event) : list (path * list Byte.byte) :=
  flat_map (fun e => match e with FileWrite p data => [(p, data)] | _ => [] end) events.

Definition nonempty {A : Type} (l : list A) : bool :=
  match l with [] => false | _ => true end.

(** The writes a download has to make: with an announced size other
    than 0 one per chunk that is not empty, in the order of arrival; with
    none, or 0, a single one with the whole body.  Each goes to the file
    of the download. *)
Definition offered_writes (rt : runtime) (book_result : DownloadBooks.BookResult)
  : list (path * list Byte.byte) :=
  let filepath := (download_folder rt, DownloadBooks.filename book_result) in
  match announced_size rt book_result with
  | inr size =>
      if (size =? 0)%Z
      then [(filepath, List.concat (delivered rt book_result))]
      else map (pair filepath) (filter nonempty (delivered rt book_result))
  | inl _ => []
  end.

(** The writes of a download once its file is open, and how many
    progress figures are shown: with no announced size (or 0) the whole
    body in one write, and only if the transfer is complete; with an
    announced size every chunk that is not empty as it arrives, with one
    figure per such chunk.  Every write goes to the file of the
    download. *)
Definition expected_writes (rt : runtime) (book_result : DownloadBooks.BookResult)
  : list (path * list Byte.byte) :=
  let filepath := (download_folder rt, DownloadBooks.filename book_result) in
  match announced_size rt book_result with
  | inr size =>
      if (size =? 0)%Z
      then if transfer_complete rt book_result
           then [(filepath, List.concat (delivered rt book_result))] else []
      else map (pair filepath) (filter nonempty (delivered rt book_result))
  | inl _ => []
  end.

Definition expected_updates (rt : runtime) (book_result : DownloadBooks.BookResult) : nat :=
  match announced_size rt book_result with
  | inr size =>
      if (size =? 0)%Z then 0
      else List.length (filter nonempty (delivered rt book_result))
  | inl _ => 0
  end.

Definition chars_of (s : string) : list ascii := list_ascii_of_string s.

(** What a run of [download_book] leaves behind after its request: no
    other request, nothing on disk unless the file was opened, and then
    the writes and the progress figures above. *)
Definition transfer_facts (rt : runtime) (book_result : DownloadBooks.BookResult)
           (events : list event) : Prop :=
  filter is_request events = []
  /\ (opens_file rt book_result = false -> existsb touches_disk events = false)
  /\ (opens_file rt book_result = true ->
      writes events = expected_writes rt book_result
      /\ List.length (DownloadBooks.progress_values events)
         = expected_updates rt book_result).

(** *** Selector *)

(** The row the table shows for a result under a number. *)
Definition table_row (number : Z) (r : DownloadBooks.BookResult) : list text :=
  [ [Fmt (PInt number)]; [Lit (DownloadBooks.title r)]; [Lit (DownloadBooks.author r)];
    [Lit (DownloadBooks.format r)]; [Lit (DownloadBooks.source r)] ].

Definition table (results : list DownloadBooks.BookResult) : event :=
  ShowTable ["#"; "Title"; "Author"; "Format"; "Source"]
            (DownloadBooks.table_rows 1 results).

End Shapes.

(* ================================================================== *)
(** * ResultAggregator: what the dict comprehension of [main] keeps *)

Section Aggregator.
Import DownloadBooks Spec Aggregation.

Lemma mem_In (k : string) (l : list string) : mem k l = true <-> In k l.
Proof.
  unfold mem. rewrite existsb_exists. split.
  - intros (x & Hx & E). apply String.eqb_eq in E. now subst.
  - intros H. exists k. split; [assumption | apply String.eqb_refl].
Qed.

Lemma keys_dict_set (d : dict) (k : string) (v : BookResult) :
  keys (dict_set d k v) = if mem k (keys d) then keys d else keys d ++ [k].
Proof.
  induction d as [|[k' v'] d IH]; simpl; [reflexivity|].
  rewrite (String.eqb_sym k k').
  destruct (String.eqb k' k) eqn:E; simpl; [reflexivity|].
  unfold keys in *. rewrite IH.
  now destruct (mem k (map fst d)).
Qed.

Lemma lookup_dict_set (d : dict) (k : string) (v : BookResult) (u : string) :
  lookup (dict_set d k v) u = if String.eqb k u then Some v else lookup d u.
Proof.
  unfold lookup.
  induction d as [|[k' v'] d IH]; simpl.
  - now destruct (String.eqb k u).
  - destruct (String.eqb k' k) eqn:E; simpl.
    + apply String.eqb_eq in E. subst k'. now destruct (String.eqb k u).
    + destruct (String.eqb k' u) eqn:E'; simpl.
      * apply String.eqb_eq in E'. subst u.
        rewrite String.eqb_sym, E. reflexivity.
      * exact IH.
Qed.

Lemma well_keyed_dict_set (d : dict) (r : BookResult) :
  well_keyed d -> well_keyed (dict_set d (download_url r) r).
Proof.
  intros [ND OWN]. split.
  - rewrite keys_dict_set.
    destruct (mem (download_url r) (keys d)) eqn:E; [assumption|].
    apply NoDup_app; [assumption | repeat constructor; intros [] | ].
    intros x Hx [<-|[]].
    apply mem_In in Hx. congruence.
  - clear ND. induction d as [|[k' v'] d IH]; simpl.
    + repeat constructor.
    + inversion OWN as [|? ? Hkv OWN']; subst.
      destruct (String.eqb k' (download_url r)) eqn:E.
      * apply String.eqb_eq in E. constructor; [now simpl | assumption].
      * constructor; [assumption | now apply IH].
Qed.

Lemma well_keyed_collect (results : list BookResult) (d : dict) :
  well_keyed d -> well_keyed (collect d results).
Proof.
  revert d. induction results as [|r results IH]; intros d W; simpl.
  - assumption.
  - apply IH. now apply well_keyed_dict_set.
Qed.

Lemma well_keyed_empty : well_keyed [].
Proof. split; constructor. Qed.

Lemma well_keyed_urls (d : dict) :
  well_keyed d -> map (@download_url string) (dict_values d) = keys d.
Proof.
  intros [_ OWN]. unfold dict_values, keys.
  induction OWN as [|kv d Hkv OWN IH]; simpl in *; [reflexivity|].
  f_equal; [exact Hkv | exact IH].
Qed.

Lemma lookup_In (d : dict) (k : string) (v : BookResult) :
  NoDup (keys d) -> In (k, v) d -> lookup d k = Some v.
Proof.
  unfold lookup, keys.
  induction d as [|[k' v'] d IH]; simpl; intros ND HIn; [contradiction|].
  inversion ND as [|? ? Hnot ND']; subst.
  destruct HIn as [E|HIn].
  - inversion E; subst. now rewrite String.eqb_refl.
  - destruct (String.eqb k' k) eqn:E.
    + apply String.eqb_eq in E. subst k'.
      exfalso. apply Hnot. now apply (in_map fst) in HIn.
    + now apply IH.
Qed.

Lemma well_keyed_values (d : dict) (r : BookResult) :
  well_keyed d -> (In r (dict_values d) <-> lookup d (download_url r) = Some r).
Proof.
  intros [ND OWN]. unfold dict_values. split.
  - intros HIn. apply in_map_iff in HIn as ([k v] & E & HIn). simpl in E. subst v.
    assert (download_url r = k) as <-.
    { rewrite Forall_forall in OWN. exact (OWN _ HIn). }
    now apply lookup_In.
  - unfold lookup. intros H.
    destruct (find _ d) as [[k v]|] eqn:F; [|discriminate].
    simpl in H. inversion H; subst v.
    apply find_some in F as [HIn _]. now apply (in_map snd) in HIn.
Qed.

Lemma find_last (A : Type) (p : A -> bool) (l : list A) (x : A) :
  find p (l ++ [x])
  = match find p l with
    | Some y => Some y
    | None => if p x then Some x else None
    end.
Proof.
  induction l as [|y l IH]; simpl; [reflexivity|].
  now destruct (p y).
Qed.

(** The value under a URL is the last entry that carried it. *)
Lemma lookup_collect (results : list BookResult) (d : dict) (u : string) :
  lookup (collect d results) u
  = match last_with_url u results with
    | Some r => Some r
    | None => lookup d u
    end.
Proof.
  unfold last_with_url.
  revert d. induction results as [|r results IH]; intros d; simpl; [reflexivity|].
  rewrite IH, lookup_dict_set, find_last.
  destruct (find (has_url u) (rev results)) as [x|]; [reflexivity|].
  unfold has_url. now destruct (String.eqb (download_url r) u).
Qed.

Lemma filter_twice (A : Type) (p q : A -> bool) (l : list A) :
  filter p (filter q l) = filter (fun x => q x && p x) l.
Proof.
  induction l as [|x l IH]; simpl; [reflexivity|].
  destruct (q x); simpl; [destruct (p x)|]; now rewrite IH.
Qed.

(** The keys come in the order in which the URLs are first seen. *)
Lemma keys_collect (results : list BookResult) (d : dict) :
  keys (collect d results)
  = keys d ++ filter (fun u => negb (mem u (keys d)))
                     (first_seen (map (@download_url string) results)).
Proof.
  revert d. induction results as [|r results IH]; intros d; simpl.
  - now rewrite app_nil_r.
  - rewrite IH, keys_dict_set, filter_twice.
    set (u := download_url r).
    destruct (mem u (keys d)) eqn:E; simpl.
    + f_equal. apply filter_ext. intros x.
      destruct (String.eqb x u) eqn:Exu; simpl; [|reflexivity].
      apply String.eqb_eq in Exu. subst x. now rewrite E.
    + rewrite <- app_assoc. simpl. f_equal. f_equal.
      apply filter_ext. intros x.
      unfold mem. rewrite existsb_app. simpl.
      now rewrite orb_false_r, negb_orb, andb_comm.
Qed.

Lemma extend_all (per_source : list (list BookResult)) (results : list BookResult) :
  fold_left (fun results found => results ++ found) per_source results
  = results ++ in_input_order per_source.
Proof.
  unfold in_input_order.
  revert results. induction per_source as [|found rest IH]; intros results; simpl.
  - now rewrite app_nil_r.
  - now rewrite IH, app_assoc.
Qed.

Lemma aggregate_collect (per_source : list (list BookResult)) :
  aggregate per_source = dict_values (collect [] (in_input_order per_source)).
Proof. unfold aggregate, unique_results. now rewrite extend_all. Qed.

(** C1, as the specification has it, fails: of two entries with one URL
    the first is not in the output.  Two sources answer with the same
    URL under different titles; the entry of the second source is the
    one kept. *)
Lemma first_duplicate_is_dropped :
  let first := Samples.entry "Emma (scan)" "https://archive.org/emma.pdf" in
  let second := Samples.entry "Emma" "https://archive.org/emma.pdf" in
  let per_source := [[first]; [second]] in
  2 <= occurrences "https://archive.org/emma.pdf" (in_input_order per_source)
  /\ first_with_url "https://archive.org/emma.pdf" (in_input_order per_source)
     = Some first
  /\ aggregate per_source = [second]
  /\ ~ In first (aggregate per_source).
Proof.
  cbv zeta. repeat split.
  - vm_compute. apply le_n.
  - intros [E|[]]. discriminate E.
Qed.

(** C1 (amended): an entry is in the aggregated output exactly when it is
    the last entry of the input, in overall input order, that carries its
    [download_url]; the output lists the URLs in the order in which each
    is first seen. *)
Theorem aggregate_keeps_last_entry (per_source : list (list BookResult)) :
  (forall r : BookResult,
      In r (aggregate per_source)
      <-> last_with_url (download_url r) (in_input_order per_source) = Some r)
  /\ map (@download_url string) (aggregate per_source)
     = first_seen (map (@download_url string) (in_input_order per_source)).
Proof.
  rewrite aggregate_collect.
  pose proof (well_keyed_collect (in_input_order per_source) well_keyed_empty) as W.
  split.
  - intros r. rewrite (well_keyed_values r W), lookup_collect.
    destruct (last_with_url _ _); simpl; [reflexivity|].
    split; discriminate.
  - rewrite (well_keyed_urls W), keys_collect. simpl.
    induction (first_seen _) as [|u l IH]; simpl; [reflexivity|].
    f_equal. exact IH.
Qed.

(** C2: the aggregated output never holds two entries with one
    [download_url], and no sources, or sources without results, give the
    empty output. *)
Theorem aggregate_urls_distinct (per_source : list (list BookResult)) :
  NoDup (map (@download_url string) (aggregate per_source))
  /\ aggregate [] = []
  /\ main_results [] [] = [].
Proof.
  split; [|split; reflexivity].
  rewrite aggregate_collect.
  pose proof (well_keyed_collect (in_input_order per_source) well_keyed_empty) as W.
  rewrite (well_keyed_urls W). exact (proj1 W).
Qed.

End Aggregator.

(* ================================================================== *)
(** * SourceClient: the search functions of both scripts *)

Section SourceClient.
Import Py IO Spec Shapes.

Variable rt : runtime.

(** A [try] whose handler returns lets through only what the [except]
    clause does not name. *)
Lemma try_except_escape (A : Type) (body : M A) (class : exn -> bool)
      (handler : exn -> M A) (w : world) (e : exn) :
  (forall e' w', exists a w'', handler e' w' = (inr a, w'')) ->
  fst (try_except body class handler w) = inl e -> class e = false.
Proof.
  intros H. unfold try_except.
  destruct (body w) as [[e'|a] w']; simpl; [|discriminate].
  destruct (class e') eqn:C.
  - destruct (H e' w') as (a & w'' & ->). discriminate.
  - simpl. now intros [= <-].
Qed.

Ltac replied :=
  match goal with
  | |- context [api ?rt ?url ?params] =>
      destruct (api rt url params) as [|status [data|]|status failure]; simpl;
      try destruct (Requests.error_status status); simpl
  end.

Ltac printed :=
  repeat match goal with
         | |- context [has_plain_text ?e] => destruct (has_plain_text e); simpl
         | |- context [renders ?rt ?t] => destruct (renders rt t); simpl
         end.

Lemma download_books_open_library (title author : string) (w : world) :
  fst (DownloadBooks.search_open_library rt title author w)
  = if reported rt DownloadBooks.open_library_error (open_library_failure rt title author)
    then inr (found_on_open_library rt title author)
    else inl MarkupError.
Proof.
  unfold DownloadBooks.search_open_library, try_except, Requests.get,
    Requests.raise_for_status, Requests.json, lift, emit, raise,
    console_print_error, console_print, reported, open_library_failure, search_failure,
    found_on_open_library, Requests.payload.
  simpl. replied; printed; try reflexivity.
  destruct (DownloadBooks.open_library_results data) as [e|found]; simpl;
    printed; reflexivity.
Qed.

Lemma download_books_project_gutenberg (title author : string) (w : world) :
  fst (DownloadBooks.search_project_gutenberg rt title author w)
  = if reported rt DownloadBooks.project_gutenberg_error
                (project_gutenberg_failure rt title author)
    then inr (found_on_gutenberg rt title author)
    else inl MarkupError.
Proof.
  unfold DownloadBooks.search_project_gutenberg, try_except, Requests.get,
    Requests.raise_for_status, Requests.json, lift, emit, raise,
    console_print_error, console_print, reported, project_gutenberg_failure,
    search_failure, found_on_gutenberg, Requests.payload.
  simpl. replied; printed; try reflexivity.
  destruct (DownloadBooks.project_gutenberg_results data) as [e|found]; simpl;
    printed; reflexivity.
Qed.

(** On a payload the traversal accepts nothing is printed and the
    results are the traversal's. *)
Lemma open_library_found (title author : string) (w : world) (data : pyval)
      (found : list (DownloadBooks.BookResult_of pyval)) :
  Requests.payload (api rt DownloadBooks.open_library_api
                        (DownloadBooks.open_library_params title author)) = Some data ->
  DownloadBooks.open_library_results data = inr found ->
  fst (DownloadBooks.search_open_library rt title author w) = inr found.
Proof.
  intros P R. rewrite download_books_open_library.
  unfold reported, open_library_failure, search_failure, found_on_open_library.
  rewrite P. revert P. unfold Requests.payload.
  destruct (api rt _ _) as [|status [payload|]|status failure]; try discriminate.
  destruct (Requests.error_status status); [discriminate|].
  intros [= ->]. now rewrite R.
Qed.

Lemma project_gutenberg_found (title author : string) (w : world) (data : pyval)
      (found : list (DownloadBooks.BookResult_of pyval)) :
  Requests.payload (api rt DownloadBooks.project_gutenberg_api
                        (DownloadBooks.project_gutenberg_params title author)) = Some data ->
  DownloadBooks.project_gutenberg_results data = inr found ->
  fst (DownloadBooks.search_project_gutenberg rt title author w) = inr found.
Proof.
  intros P R. rewrite download_books_project_gutenberg.
  unfold reported, project_gutenberg_failure, search_failure, found_on_gutenberg.
  rewrite P. revert P. unfold Requests.payload.
  destruct (api rt _ _) as [|status [payload|]|status failure]; try discriminate.
  destruct (Requests.error_status status); [discriminate|].
  intros [= ->]. now rewrite R.
Qed.

(** The traversal of a payload raises builtin exceptions only. *)
Lemma for_each_raises (A S : Type) (P : exn -> Prop) (body : S -> A -> res S) :
  (forall s x e, body s x = inl e -> P e) ->
  forall (l : list A) (s : S) (e : exn), for_each l s body = inl e -> P e.
Proof.
  intros Hbody. induction l as [|x l IH]; intros s e; simpl; [discriminate|].
  destruct (body s x) as [e'|s'] eqn:B.
  - intros [= <-]. exact (Hbody _ _ _ B).
  - apply IH.
Qed.

Lemma py_get_raises (v : pyval) (k : string) (d : pyval) (e : exn) :
  py_get v k d = inl e -> is_RequestException e = false.
Proof. destruct v; simpl; intros [= <-]; reflexivity. Qed.

Lemma py_getitem_raises (v : pyval) (k : string) (e : exn) :
  py_getitem v k = inl e -> is_RequestException e = false.
Proof.
  destruct v; simpl; try (intros [= <-]; reflexivity).
  destruct (dict_lookup d k); intros [= <-]; reflexivity.
Qed.

Lemma py_iter_raises (v : pyval) (e : exn) :
  py_iter v = inl e -> is_RequestException e = false.
Proof. destruct v; simpl; intros [= <-]; reflexivity. Qed.

Ltac raised H :=
  first [ apply py_get_raises in H
        | apply py_getitem_raises in H
        | apply py_iter_raises in H ];
  exact H.

Ltac run H :=
  repeat match type of H with
         | context [py_get ?v ?k ?d] =>
             let E := fresh "E" in
             destruct (py_get v k d) eqn:E; simpl in H;
             [injection H as <-; raised E|]
         | context [py_getitem ?v ?k] =>
             let E := fresh "E" in
             destruct (py_getitem v k) eqn:E; simpl in H;
             [injection H as <-; raised E|]
         | context [py_iter ?v] =>
             let E := fresh "E" in
             destruct (py_iter v) eqn:E; simpl in H;
             [injection H as <-; raised E|]
         end.

Lemma google_books_raises (books : pyval) (e : exn) :
  GetBookLinks.google_books_results books = inl e -> is_RequestException e = false.
Proof.
  unfold GetBookLinks.google_books_results. simpl. intros H. run H.
  revert H. apply for_each_raises with (P := fun e => is_RequestException e = false).
  clear. intros found book e H.
  unfold GetBookLinks.google_books_item, GetBookLinks.open_library_item in H.
  simpl in H. run H. discriminate H.
Qed.

Lemma open_library_links_raises (books : pyval) (e : exn) :
  GetBookLinks.open_library_results books = inl e -> is_RequestException e = false.
Proof.
  unfold GetBookLinks.open_library_results. simpl. intros H. run H.
  revert H. apply for_each_raises with (P := fun e => is_RequestException e = false).
  clear. intros found book e H.
  unfold GetBookLinks.google_books_item, GetBookLinks.open_library_item in H.
  simpl in H. run H. discriminate H.
Qed.

Lemma get_book_links_google_books (book_name author_name : string) (w : world) :
  fst (GetBookLinks.search_google_books rt book_name author_name w)
  = found_on_google_books rt book_name author_name.
Proof.
  unfold GetBookLinks.search_google_books, try_except, Requests.get,
    Requests.raise_for_status, Requests.json, lift, emit, raise,
    found_on_google_books, excepted, reply_failure, Requests.payload.
  simpl. replied; try reflexivity.
  - destruct (py_get data "items" (PList [])) as [e|books] eqn:G; simpl.
    + now rewrite (py_get_raises _ _ _ G).
    + destruct (GetBookLinks.google_books_results books) as [e|found] eqn:R;
        simpl; [|reflexivity].
      now rewrite (google_books_raises _ R).
  - now destruct (is_RequestException failure).
Qed.

Lemma get_book_links_open_library (book_name author_name : string) (w : world) :
  fst (GetBookLinks.search_open_library rt book_name author_name w)
  = found_on_open_library_links rt book_name author_name.
Proof.
  unfold GetBookLinks.search_open_library, try_except, Requests.get,
    Requests.raise_for_status, Requests.json, lift, emit, raise,
    found_on_open_library_links, excepted, reply_failure, Requests.payload.
  simpl. replied; try reflexivity.
  - destruct (py_get data "docs" (PList [])) as [e|books] eqn:G; simpl.
    + now rewrite (py_get_raises _ _ _ G).
    + destruct (GetBookLinks.open_library_results books) as [e|found] eqn:R;
        simpl; [|reflexivity].
      now rewrite (open_library_links_raises _ R).
  - now destruct (is_RequestException failure).
Qed.

Lemma py_join_raises_plain (sep : string) (v : pyval) (e : exn) :
  py_join sep v = inl e -> has_plain_text e = true.
Proof.
  unfold py_join.
  destruct (py_iter v) as [e'|items] eqn:I.
  - intros [= <-]. destruct v; simpl in I; now inversion I.
  - destruct (all_str items) as [e'|ss] eqn:S; [|discriminate].
    intros [= <-]. clear I. revert e' S.
    induction items as [|x items IH]; simpl; [discriminate|].
    intros e'. destruct x; try (now intros [= <-]).
    destruct (all_str items) as [e''|ss]; [|discriminate].
    intros [= <-]. now apply IH.
Qed.

(** Whatever the traversal of [search_project_gutenberg] raises has a
    plain text. *)
Lemma project_gutenberg_raises_plain (data : pyval) (e : exn) :
  DownloadBooks.project_gutenberg_results data = inl e -> has_plain_text e = true.
Proof.
  unfold DownloadBooks.project_gutenberg_results. simpl.
  destruct (py_get data "results" _) as [e'|books] eqn:G; simpl.
  { intros [= <-]. destruct data; simpl in G; now inversion G. }
  destruct (py_iter books) as [e'|l] eqn:I; simpl.
  { intros [= <-]. destruct books; simpl in I; now inversion I. }
  apply for_each_raises with (P := fun e => has_plain_text e = true).
  clear. intros s book e.
  unfold DownloadBooks.project_gutenberg_book. simpl.
  destruct (py_get book "formats" _) as [e'|formats] eqn:G; simpl.
  { intros [= <-]. destruct book; simpl in G; now inversion G. }
  destruct (py_items formats) as [e'|items] eqn:I; simpl.
  { intros [= <-]. destruct formats; simpl in I; now inversion I. }
  apply for_each_raises with (P := fun e => has_plain_text e = true).
  clear. intros s [fmt_type url] e.
  unfold DownloadBooks.project_gutenberg_format. simpl.
  destruct (Str.contains "pdf" _ || Str.contains "epub" _); [|discriminate].
  destruct (py_get book "title" _) as [e'|title] eqn:T; simpl.
  { intros [= <-]. destruct book; simpl in T; now inversion T. }
  destruct (py_get book "authors" _) as [e'|authors] eqn:A; simpl.
  { intros [= <-]. destruct book; simpl in A; now inversion A. }
  destruct (py_first authors) as [e'|first] eqn:F; simpl.
  { intros [= <-]. destruct authors as [| | | |[|c t]|[|x l]|d]; simpl in F;
      now inversion F. }
  destruct (py_get first "name" _) as [e'|name] eqn:N; simpl.
  { intros [= <-]. destruct first; simpl in N; now inversion N. }
  destruct (py_join ", " name) as [e'|spelled] eqn:J; simpl; [|discriminate].
  intros [= <-]. exact (py_join_raises_plain _ _ J).
Qed.

(** Whatever the traversal of [search_open_library] raises has a plain
    text. *)
Lemma open_library_raises_plain (data : pyval) (e : exn) :
  DownloadBooks.open_library_results data = inl e -> has_plain_text e = true.
Proof.
  unfold DownloadBooks.open_library_results. simpl.
  destruct (py_get data "docs" _) as [e'|docs] eqn:G; simpl.
  { intros [= <-]. destruct data; simpl in G; now inversion G. }
  destruct (py_iter docs) as [e'|l] eqn:I; simpl.
  { intros [= <-]. destruct docs; simpl in I; now inversion I. }
  apply for_each_raises with (P := fun e => has_plain_text e = true).
  clear. intros s doc e.
  unfold DownloadBooks.open_library_doc. simpl.
  destruct (py_get doc "formats" _) as [e'|formats] eqn:G; simpl.
  { intros [= <-]. destruct doc; simpl in G; now inversion G. }
  destruct (py_iter formats) as [e'|fmts] eqn:I; simpl.
  { intros [= <-]. destruct formats; simpl in I; now inversion I. }
  apply for_each_raises with (P := fun e => has_plain_text e = true).
  clear. intros s fmt e.
  unfold DownloadBooks.open_library_format. simpl.
  destruct (py_lower fmt) as [e'|low] eqn:L; simpl.
  { intros [= <-]. destruct fmt; simpl in L; now inversion L. }
  destruct (Str.contains ".pdf" _ || Str.contains ".epub" _); [|discriminate].
  destruct (py_get doc "title" _) as [e'|title] eqn:T; simpl.
  { intros [= <-]. destruct doc; simpl in T; now inversion T. }
  destruct (py_get doc "author_name" _) as [e'|names] eqn:N; simpl.
  { intros [= <-]. destruct doc; simpl in N; now inversion N. }
  destruct (py_join ", " names) as [e'|author] eqn:J; simpl; [|discriminate].
  intros [= <-]. exact (py_join_raises_plain _ _ J).
Qed.

(** *** What the loops collect *)

Lemma for_each_collects (A S T : Type) (view : S -> list T) (step : A -> list T)
      (body : S -> A -> res S) :
  (forall s x s', body s x = inr s' -> view s' = view s ++ step x) ->
  forall (l : list A) (s out : S),
    for_each l s body = inr out -> view out = view s ++ flat_map step l.
Proof.
  intros Hbody. induction l as [|x l IH]; intros s out; simpl.
  - intros [= <-]. now rewrite app_nil_r.
  - destruct (body s x) as [e|s'] eqn:B; [discriminate|].
    intros H. rewrite (IH _ _ H), (Hbody _ _ _ B). now rewrite app_assoc.
Qed.

Lemma flat_map_nested (A B C : Type) (f : A -> list B) (g : B -> list C) (l : list A) :
  flat_map g (flat_map f l) = flat_map (fun x => flat_map g (f x)) l.
Proof.
  induction l as [|x l IH]; simpl; [reflexivity|].
  now rewrite flat_map_app, IH.
Qed.

Lemma flat_map_kept (A B : Type) (p : A -> bool) (f : A -> B) (l : list A) :
  flat_map (fun x => if p x then [f x] else []) l = map f (filter p l).
Proof.
  induction l as [|x l IH]; simpl; [reflexivity|].
  destruct (p x); simpl; now rewrite IH.
Qed.

Lemma open_library_format_collects (doc : pyval)
      (results found : list (DownloadBooks.BookResult_of pyval)) (fmt : pyval) :
  DownloadBooks.open_library_format doc results fmt = inr found ->
  map format_and_url found
  = map format_and_url results
    ++ (if names_pdf_or_epub_file fmt then [(file_format fmt, fmt)] else []).
Proof.
  unfold DownloadBooks.open_library_format.
  destruct fmt as [| | | |s| |]; simpl; try discriminate.
  destruct (Str.contains ".pdf" (Str.lower s) || Str.contains ".epub" (Str.lower s)).
  - destruct (py_get doc "title" _) as [|title]; simpl; [discriminate|].
    destruct (py_get doc "author_name" _) as [|names]; simpl; [discriminate|].
    destruct (py_join ", " names) as [|author]; simpl; [discriminate|].
    intros [= <-]. now rewrite map_app.
  - intros [= <-]. now rewrite app_nil_r.
Qed.

Lemma open_library_doc_collects
      (results found : list (DownloadBooks.BookResult_of pyval)) (doc : pyval) :
  DownloadBooks.open_library_doc results doc = inr found ->
  map format_and_url found
  = map format_and_url results
    ++ flat_map (fun fmt => if names_pdf_or_epub_file fmt
                            then [(file_format fmt, fmt)] else [])
                (items_of (field doc "formats" (PList []))).
Proof.
  unfold DownloadBooks.open_library_doc, items_of, field. simpl.
  destruct (py_get doc "formats" _) as [|formats]; simpl; [discriminate|].
  destruct (py_iter formats) as [|fmts]; simpl; [discriminate|].
  apply for_each_collects with (view := map format_and_url).
  intros s x s'. apply open_library_format_collects.
Qed.

Lemma open_library_results_kept (data : pyval)
      (found : list (DownloadBooks.BookResult_of pyval)) :
  DownloadBooks.open_library_results data = inr found ->
  map format_and_url found
  = map (fun fmt => (file_format fmt, fmt))
        (filter names_pdf_or_epub_file (open_library_formats data)).
Proof.
  unfold DownloadBooks.open_library_results, open_library_formats, items_of at 2, field.
  simpl.
  destruct (py_get data "docs" _) as [|docs]; simpl; [discriminate|].
  destruct (py_iter docs) as [|l]; simpl; [discriminate|].
  intros H.
  apply for_each_collects with (view := map format_and_url)
    (step := fun doc => flat_map (fun fmt => if names_pdf_or_epub_file fmt
                                             then [(file_format fmt, fmt)] else [])
                                 (items_of (field doc "formats" (PList [])))) in H.
  - rewrite H. simpl. now rewrite <- flat_map_nested, flat_map_kept.
  - intros s x s'. apply open_library_doc_collects.
Qed.

Lemma project_gutenberg_format_collects (book : pyval)
      (results found : list (DownloadBooks.BookResult_of pyval))
      (item : string * pyval) :
  DownloadBooks.project_gutenberg_format book results item = inr found ->
  map format_and_url found
  = map format_and_url results
    ++ (if names_pdf_or_epub (fst item)
        then [(media_format (fst item), snd item)] else []).
Proof.
  unfold DownloadBooks.project_gutenberg_format, names_pdf_or_epub, media_format.
  destruct item as [fmt_type url]. simpl.
  destruct (Str.contains "pdf" (Str.lower fmt_type)
            || Str.contains "epub" (Str.lower fmt_type)).
  - destruct (py_get book "title" _) as [|title]; simpl; [discriminate|].
    destruct (py_get book "authors" _) as [|authors]; simpl; [discriminate|].
    destruct (py_first authors) as [|first]; simpl; [discriminate|].
    destruct (py_get first "name" _) as [|name]; simpl; [discriminate|].
    destruct (py_join ", " name) as [|author]; simpl; [discriminate|].
    intros [= <-]. now rewrite map_app.
  - intros [= <-]. now rewrite app_nil_r.
Qed.

Lemma project_gutenberg_results_kept (data : pyval)
      (found : list (DownloadBooks.BookResult_of pyval)) :
  DownloadBooks.project_gutenberg_results data = inr found ->
  map format_and_url found
  = map (fun item => (media_format (fst item), snd item))
        (filter (fun item => names_pdf_or_epub (fst item)) (gutenberg_formats data)).
Proof.
  unfold DownloadBooks.project_gutenberg_results, gutenberg_formats, items_of, field.
  simpl.
  destruct (py_get data "results" _) as [|books]; simpl; [discriminate|].
  destruct (py_iter books) as [|l]; simpl; [discriminate|].
  intros H.
  apply for_each_collects with (view := map format_and_url)
    (step := fun book =>
               flat_map (fun item => if names_pdf_or_epub (fst item)
                                     then [(media_format (fst item), snd item)] else [])
                        match py_items (field book "formats" (PDict [])) with
                        | inr items => items
                        | inl _ => []
                        end) in H.
  - rewrite H. simpl.
    rewrite <- (flat_map_nested
                  (fun book => match py_items (field book "formats" (PDict [])) with
                               | inr items => items
                               | inl _ => []
                               end)).
    now rewrite flat_map_kept.
  - clear. intros s book s'.
    unfold DownloadBooks.project_gutenberg_book, field. simpl.
    destruct (py_get book "formats" _) as [|formats]; simpl; [discriminate|].
    destruct (py_items formats) as [|items]; simpl; [discriminate|].
    apply for_each_collects with (view := map format_and_url).
    intros s0 x s0'. apply project_gutenberg_format_collects.
Qed.

Lemma one_each (A : Type) (l : list A) :
  List.length (flat_map (fun _ => [tt]) l) = List.length l.
Proof. induction l; simpl; congruence. Qed.

Lemma google_books_results_all (books : pyval) (found : list GetBookLinks.book_link) :
  GetBookLinks.google_books_results books = inr found ->
  List.length found = List.length (items_of books).
Proof.
  unfold GetBookLinks.google_books_results, items_of. simpl.
  destruct (py_iter books) as [|l]; simpl; [discriminate|].
  intros H.
  apply for_each_collects with (view := map (fun _ => tt)) (step := fun _ => [tt]) in H.
  - apply (f_equal (@List.length unit)) in H.
    rewrite length_map in H. simpl in H. now rewrite one_each in H.
  - clear. intros s book s'. unfold GetBookLinks.google_books_item. simpl.
    repeat match goal with
           | |- context [match ?c with inl _ => _ | inr _ => _ end] =>
               destruct c; simpl; [discriminate|]
           end.
    intros [= <-]. now rewrite map_app.
Qed.

Lemma open_library_links_all (books : pyval) (found : list GetBookLinks.book_link) :
  GetBookLinks.open_library_results books = inr found ->
  List.length found = List.length (items_of books).
Proof.
  unfold GetBookLinks.open_library_results, items_of. simpl.
  destruct (py_iter books) as [|l]; simpl; [discriminate|].
  intros H.
  apply for_each_collects with (view := map (fun _ => tt)) (step := fun _ => [tt]) in H.
  - apply (f_equal (@List.length unit)) in H.
    rewrite length_map in H. simpl in H. now rewrite one_each in H.
  - clear. intros s book s'. unfold GetBookLinks.open_library_item. simpl.
    repeat match goal with
           | |- context [match ?c with inl _ => _ | inr _ => _ end] =>
               destruct c; simpl; [discriminate|]
           end.
    intros [= <-]. now rewrite map_app.
Qed.

(** C3 (amended): the two search functions of download_books.py catch
    every exception of the request, the status check, the decoding and
    the traversal, print one error line and return the empty sequence;
    nothing but rich's [MarkupError], raised by that print when the text
    of the exception is not well-formed markup, leaves them, and the
    exceptions of the traversal have a plain text.  The two of
    get_book_links.py return the empty sequence when the failure is a
    [requests.RequestException] (no answer, a 4xx or 5xx status, a body
    that is not JSON) and never propagate one; any other exception, of
    the decoder or of the traversal of the payload, goes to the caller. *)
Theorem search_functions_on_failure (title author : string) (w : world) :
  (fst (DownloadBooks.search_open_library rt title author w)
   = if reported rt DownloadBooks.open_library_error (open_library_failure rt title author)
     then inr (found_on_open_library rt title author)
     else inl MarkupError)
  /\ (fst (DownloadBooks.search_project_gutenberg rt title author w)
      = if reported rt DownloadBooks.project_gutenberg_error
                    (project_gutenberg_failure rt title author)
        then inr (found_on_gutenberg rt title author)
        else inl MarkupError)
  /\ (fst (GetBookLinks.search_google_books rt title author w)
      = let reply := api rt GetBookLinks.google_books_api
                         (GetBookLinks.google_books_params title author) in
        match Requests.payload reply with
        | Some data =>
            books <- py_get data "items" (PList []) ;;
            GetBookLinks.google_books_results books
        | None =>
            if is_RequestException (reply_failure reply) then inr []
            else inl (reply_failure reply)
        end)
  /\ (fst (GetBookLinks.search_open_library rt title author w)
      = let reply := api rt GetBookLinks.open_library_api
                         (GetBookLinks.open_library_params title author) in
        match Requests.payload reply with
        | Some data =>
            books <- py_get data "docs" (PList []) ;;
            GetBookLinks.open_library_results books
        | None =>
            if is_RequestException (reply_failure reply) then inr []
            else inl (reply_failure reply)
        end)
  /\ propagates_only_other_errors
       (fst (GetBookLinks.search_google_books rt title author w))
  /\ propagates_only_other_errors
       (fst (GetBookLinks.search_open_library rt title author w))
  /\ (forall data e,
         DownloadBooks.open_library_results data = inl e
         \/ DownloadBooks.project_gutenberg_results data = inl e ->
         has_plain_text e = true).
Proof.
  split; [apply download_books_open_library|].
  split; [apply download_books_project_gutenberg|].
  split; [apply get_book_links_google_books|].
  split; [apply get_book_links_open_library|].
  unfold propagates_only_other_errors. split; [|split].
  - destruct (fst (GetBookLinks.search_google_books rt title author w)) as [e|found] eqn:R;
      [|exact I].
    apply try_except_escape in R; [exact R|].
    intros e' w'. simpl. eauto.
  - destruct (fst (GetBookLinks.search_open_library rt title author w)) as [e|found] eqn:R;
      [|exact I].
    apply try_except_escape in R; [exact R|].
    intros e' w'. simpl. eauto.
  - intros data e [R|R];
      [exact (open_library_raises_plain _ R) | exact (project_gutenberg_raises_plain _ R)].
Qed.

(** C4 (amended): when the request succeeds and the traversal of the
    payload raises nothing, [search_open_library] of download_books.py
    returns one result for each entry of the docs' [formats] lists that
    contains ".pdf" or ".epub" in any letter case, in order, with format
    PDF when ".pdf" occurs and EPUB otherwise, and
    [search_project_gutenberg] one result for each [formats] item whose
    key contains "pdf" or "epub" in any letter case; entries of other
    formats yield nothing.  The search functions of get_book_links.py
    apply no format filter: every item of the payload yields one
    result. *)
Theorem format_filter (title author : string) (w : world) :
  (forall data found,
      Requests.payload (api rt DownloadBooks.open_library_api
                            (DownloadBooks.open_library_params title author))
      = Some data ->
      DownloadBooks.open_library_results data = inr found ->
      fst (DownloadBooks.search_open_library rt title author w) = inr found
      /\ map format_and_url found
         = map (fun fmt => (file_format fmt, fmt))
               (filter names_pdf_or_epub_file (open_library_formats data)))
  /\ (forall data found,
         Requests.payload (api rt DownloadBooks.project_gutenberg_api
                               (DownloadBooks.project_gutenberg_params title author))
         = Some data ->
         DownloadBooks.project_gutenberg_results data = inr found ->
         fst (DownloadBooks.search_project_gutenberg rt title author w) = inr found
         /\ map format_and_url found
            = map (fun item => (media_format (fst item), snd item))
                  (filter (fun item => names_pdf_or_epub (fst item))
                          (gutenberg_formats data)))
  /\ (forall data found,
         Requests.payload (api rt GetBookLinks.google_books_api
                               (GetBookLinks.google_books_params title author))
         = Some data ->
         (books <- py_get data "items" (PList []) ;;
          GetBookLinks.google_books_results books) = inr found ->
         fst (GetBookLinks.search_google_books rt title author w) = inr found
         /\ List.length found = List.length (items_of (field data "items" (PList []))))
  /\ (forall data found,
         Requests.payload (api rt GetBookLinks.open_library_api
                               (GetBookLinks.open_library_params title author))
         = Some data ->
         (books <- py_get data "docs" (PList []) ;;
          GetBookLinks.open_library_results books) = inr found ->
         fst (GetBookLinks.search_open_library rt title author w) = inr found
         /\ List.length found = List.length (items_of (field data "docs" (PList [])))).
Proof.
  repeat split.
  - now apply open_library_found with (data := data).
  - now apply open_library_results_kept.
  - now apply project_gutenberg_found with (data := data).
  - now apply project_gutenberg_results_kept.
  - rewrite get_book_links_google_books. unfold found_on_google_books.
    cbv zeta. rewrite H. exact H0.
  - unfold field. simpl in H0.
    destruct (py_get data "items" (PList [])) as [e|books]; [discriminate|].
    now apply google_books_results_all.
  - rewrite get_book_links_open_library. unfold found_on_open_library_links.
    cbv zeta. rewrite H. exact H0.
  - unfold field. simpl in H0.
    destruct (py_get data "docs" (PList [])) as [e|books]; [discriminate|].
    now apply open_library_links_all.
Qed.

End SourceClient.

(** C3, as the specification has it, fails for get_book_links.py: a Google
    Books payload whose item has no ['volumeInfo'] makes
    [search_google_books] raise [KeyError] to its caller. *)
Lemma google_books_lets_KeyError_through :
  fst (GetBookLinks.search_google_books
         (Samples.answering Samples.bare_item) "Emma" "Jane Austen" Samples.idle)
  = inl (Py.KeyError (Py.PStr "volumeInfo")).
Proof. reflexivity. Qed.

Lemma search_functions_on_failure_witness :
  DownloadBooks.project_gutenberg_results Samples.unsigned = inl Py.IndexError
  /\ Py.has_plain_text Py.IndexError = true.
Proof.
  split; [reflexivity|].
  refine (proj2 (proj2 (proj2 (proj2 (proj2 (proj2
            (@search_functions_on_failure Samples.offline "Beowulf" "" Samples.idle))))))
            Samples.unsigned Py.IndexError _).
  right. reflexivity.
Defined.

(** The exceptions the amended C3 leaves room for do occur: an error line
    rich refuses lets [MarkupError] out of [search_open_library] of
    download_books.py, and a body on which [json()] raises
    [RecursionError] lets that out of [search_google_books]; with
    [JSONDecodeError] the same call returns the empty list. *)
Lemma other_exceptions_get_out :
  fst (DownloadBooks.search_open_library
         (Samples.refusing (IO.Responded 503 None) IO.StreamUnreachable)
         "Emma" "Jane Austen" Samples.idle)
  = inl Py.MarkupError
  /\ fst (GetBookLinks.search_google_books
            (Samples.machine (IO.Garbled 200 Py.RecursionError) IO.StreamUnreachable)
            "Emma" "Jane Austen" Samples.idle)
     = inl Py.RecursionError
  /\ fst (GetBookLinks.search_google_books
            (Samples.machine (IO.Responded 200 None) IO.StreamUnreachable)
            "Emma" "Jane Austen" Samples.idle)
     = inr [].
Proof. repeat split. Qed.

(** C4, as the specification has it, fails for get_book_links.py: an item
    that names neither PDF nor EPUB anywhere is converted into a result. *)
Lemma google_books_converts_any_item :
  GetBookLinks.mentions_format Samples.plain_item = false
  /\ fst (GetBookLinks.search_google_books
            (Samples.answering Samples.plain_item) "Emma" "Jane Austen" Samples.idle)
     = inr [ {| GetBookLinks.title := Py.PStr "Emma";
                GetBookLinks.authors := Py.PList [];
                GetBookLinks.download_link := GetBookLinks.Value (Py.PStr "N/A") |} ].
Proof. split; reflexivity. Qed.

Lemma format_filter_witness :
  let rt := Samples.answering Samples.catalogue in
  (exists found,
      fst (DownloadBooks.search_open_library rt "Emma" "Jane Austen" Samples.idle)
      = inr found
      /\ map Spec.format_and_url found
         = [("PDF", Py.PStr "https://archive.org/emma.PDF")])
  /\ (exists found,
         fst (DownloadBooks.search_project_gutenberg rt "Emma" "Jane Austen" Samples.idle)
         = inr found
         /\ map Spec.format_and_url found
            = [("EPUB", Py.PStr "https://gutenberg.org/158.epub")])
  /\ (exists found,
         fst (GetBookLinks.search_google_books rt "Emma" "Jane Austen" Samples.idle)
         = inr found
         /\ List.length found = 1)
  /\ (exists found,
         fst (GetBookLinks.search_open_library rt "Emma" "Jane Austen" Samples.idle)
         = inr found
         /\ List.length found = 1).
Proof.
  intros rt.
  destruct (format_filter rt "Emma" "Jane Austen" Samples.idle) as (OL & PG & GB & OL2).
  split; [|split; [|split]]; eexists.
  - exact (OL Samples.catalogue _ eq_refl eq_refl).
  - exact (PG Samples.catalogue _ eq_refl eq_refl).
  - exact (GB Samples.catalogue _ eq_refl eq_refl).
  - exact (OL2 Samples.catalogue _ eq_refl eq_refl).
Defined.

(** C5 fails on the code for Project Gutenberg: the name of the first
    author is joined character by character, the default "Unknown"
    included; Open Library joins the names as the claim says. *)
Lemma gutenberg_author_is_spelled_out :
  option_map (map (@DownloadBooks.author Py.pyval))
    (match fst (DownloadBooks.search_project_gutenberg
                  (Samples.answering Samples.austen)
                  "Pride and Prejudice" "Jane Austen" Samples.idle) with
     | inr found => Some found
     | inl _ => None
     end)
  = Some ["J, a, n, e,  , A, u, s, t, e, n"; "J, a, n, e,  , A, u, s, t, e, n"]
  /\ Spec.recovered (DownloadBooks.project_gutenberg_results Samples.anonymous)
     = [ {| DownloadBooks.title := Py.PStr "Beowulf";
            DownloadBooks.author := "U, n, k, n, o, w, n";
            DownloadBooks.format := "PDF";
            DownloadBooks.source := "Project Gutenberg";
            DownloadBooks.download_url := Py.PStr "https://gutenberg.org/16328.pdf";
            DownloadBooks.file_size := None |} ]
  /\ map (@DownloadBooks.author Py.pyval)
         (Spec.recovered (DownloadBooks.open_library_results Samples.shelf))
     = ["Jane Austen, An Editor"; "Jane Austen, An Editor"; "Unknown"].
Proof. repeat split. Qed.

(* ================================================================== *)
(** * Presenter/Selector: [display_results] *)

Section Selector.
Import Py IO Spec DownloadBooks.

Variable rt : runtime.

Lemma py_int_raises (m : nat) (s : string) (e : exn) :
  py_int m s = inl e -> e = ValueError.
Proof.
  unfold py_int.
  destruct (int_digits _ _ _ _) as [[v count]|]; [|now intros [= <-]].
  destruct (over_limit m count); [now intros [= <-] | discriminate].
Qed.

(** The loop body, case by case. *)
Lemma on_choice_cases (results : list BookResult) (choice : string) (w : world) :
  on_choice rt results choice w
  = if quits choice then (inr (Some None), w)
    else match py_int (max_str_digits rt) choice with
         | inl _ => (inr None, say not_a_number w)
         | inr k =>
             if ((1 <=? k) && (k <=? Z.of_nat (List.length results)))%Z
             then match nth_error results (Z.to_nat (k - 1)) with
                  | Some result => (inr (Some (Some result)), w)
                  | None => (inl IndexError, w)
                  end
             else (inr None, say invalid_number w)
         end.
Proof.
  unfold on_choice, quits, say, try_except, lift, emit, raise.
  destruct (String.eqb (Str.lower choice) "q"); [reflexivity|].
  simpl.
  destruct (py_int (max_str_digits rt) choice) as [e|k] eqn:P.
  - apply py_int_raises in P. subst e. reflexivity.
  - replace ((0 <=? k - 1) && (k - 1 <? Z.of_nat (List.length results)))%Z
      with ((1 <=? k) && (k <=? Z.of_nat (List.length results)))%Z.
    + destruct ((1 <=? k) && (k <=? Z.of_nat (List.length results)))%Z;
        [|reflexivity].
      now destruct (nth_error results (Z.to_nat (k - 1))).
    + f_equal.
      * destruct (Z.leb_spec 1 k), (Z.leb_spec 0 (k - 1)); (reflexivity || lia).
      * destruct (Z.leb_spec k (Z.of_nat (List.length results))),
          (Z.ltb_spec (k - 1) (Z.of_nat (List.length results))); (reflexivity || lia).
Qed.

(** The body reads no input, which is what lets [choose] go on from the
    lines that follow. *)
Lemma on_choice_reads_nothing (results : list BookResult) (choice : string) (w : world) :
  stdin (snd (on_choice rt results choice w)) = stdin w.
Proof.
  rewrite on_choice_cases.
  destruct (quits choice); [reflexivity|].
  destruct (py_int _ _) as [e|k]; [reflexivity|].
  destruct ((1 <=? k) && _)%Z; [|reflexivity].
  now destruct (nth_error _ _).
Qed.

Lemma choose_rejected (results : list BookResult) (choice : string)
      (rest : list string) (shown : list event) :
  rejected (max_str_digits rt) (List.length results) choice = true ->
  choose rt results (choice :: rest) shown
  = choose rt results rest (shown ++ reprompts (max_str_digits rt) [choice]).
Proof.
  unfold rejected, reprompts, rejection. intros R.
  simpl. rewrite on_choice_cases.
  destruct (quits choice); [discriminate|].
  simpl in R.
  destruct (py_int (max_str_digits rt) choice) as [e|k]; simpl.
  - now rewrite <- app_assoc.
  - apply negb_true_iff in R. rewrite R. simpl. now rewrite <- app_assoc.
Qed.

Lemma reprompts_app (m : nat) (l l' : list string) :
  reprompts m (l ++ l') = reprompts m l ++ reprompts m l'.
Proof. unfold reprompts. apply flat_map_app. Qed.

Lemma choose_all_rejected (results : list BookResult) (bad rest : list string) :
  Forall (fun choice =>
            rejected (max_str_digits rt) (List.length results) choice = true) bad ->
  forall shown,
    choose rt results (bad ++ rest) shown
    = choose rt results rest (shown ++ reprompts (max_str_digits rt) bad).
Proof.
  induction 1 as [|choice bad R _ IH]; intros shown.
  - simpl. now rewrite app_nil_r.
  - change ((choice :: bad) ++ rest) with (choice :: (bad ++ rest)).
    rewrite choose_rejected by exact R. rewrite IH.
    change (choice :: bad) with ([choice] ++ bad).
    now rewrite reprompts_app, app_assoc.
Qed.

Lemma choose_at_end (results : list BookResult) (shown : list event) :
  choose rt results [] shown
  = (inl EOFError, {| stdin := []; trace := shown ++ [Input choice_prompt] |}).
Proof. reflexivity. Qed.

Lemma choose_quit (results : list BookResult) (choice : string)
      (rest : list string) (shown : list event) :
  quits choice = true ->
  choose rt results (choice :: rest) shown
  = (inr None, {| stdin := rest; trace := shown ++ [Input choice_prompt] |}).
Proof. intros Q. simpl. rewrite on_choice_cases, Q. reflexivity. Qed.

(** What the loop can end with. *)
Lemma choose_outcome (results : list BookResult) (lines : list string) :
  forall shown,
    match choose rt results lines shown with
    | (inr None, w') =>
        exists skipped choice,
          lines = skipped ++ choice :: stdin w' /\ quits choice = true
    | (inr (Some r), w') =>
        exists skipped choice k,
          lines = skipped ++ choice :: stdin w'
          /\ py_int (max_str_digits rt) choice = inr k
          /\ (1 <= k <= Z.of_nat (List.length results))%Z
          /\ nth_error results (Z.to_nat (k - 1)) = Some r
    | (inl e, w') => e = EOFError /\ stdin w' = []
    end.
Proof.
  induction lines as [|choice rest IH]; intros shown.
  - simpl. split; reflexivity.
  - simpl. rewrite on_choice_cases.
    destruct (quits choice) eqn:Q.
    { exists [], choice. split; [reflexivity | assumption]. }
    destruct (py_int (max_str_digits rt) choice) as [e|k] eqn:P.
    + specialize (IH (trace (say not_a_number
                                 {| stdin := rest;
                                    trace := shown ++ [Input choice_prompt] |}))).
      destruct (choose rt results rest _) as [[e'|[r|]] w']; [exact IH| |].
      * destruct IH as (skipped & c & k & -> & H). exists (choice :: skipped), c, k.
        split; [reflexivity | exact H].
      * destruct IH as (skipped & c & -> & H). exists (choice :: skipped), c.
        split; [reflexivity | exact H].
    + destruct ((1 <=? k) && (k <=? Z.of_nat (List.length results)))%Z eqn:R.
      * apply andb_true_iff in R as [R1 R2].
        apply Z.leb_le in R1. apply Z.leb_le in R2.
        destruct (nth_error results (Z.to_nat (k - 1))) as [r|] eqn:N.
        -- exists [], choice, k. repeat split; (assumption || reflexivity).
        -- exfalso. apply nth_error_None in N. lia.
      * specialize (IH (trace (say invalid_number
                                   {| stdin := rest;
                                      trace := shown ++ [Input choice_prompt] |}))).
        destruct (choose rt results rest _) as [[e'|[r|]] w']; [exact IH| |].
        -- destruct IH as (skipped & c & k' & -> & H). exists (choice :: skipped), c, k'.
           split; [reflexivity | exact H].
        -- destruct IH as (skipped & c & -> & H). exists (choice :: skipped), c.
           split; [reflexivity | exact H].
Qed.

Lemma display_results_loop (r : BookResult) (results : list BookResult) (w : world) :
  table_renders rt (r :: results) = true ->
  display_results rt (r :: results) w
  = choose rt (r :: results) (stdin w)
           (trace w ++ [ShowTable ["#"; "Title"; "Author"; "Format"; "Source"]
                                  (table_rows 1 (r :: results))]).
Proof.
  intros T. unfold display_results, emit, raise.
  cbn [bind Monad_M ret]. rewrite T. reflexivity.
Qed.

(** A table rich refuses ends the call before the first prompt. *)
Lemma display_results_refused (r : BookResult) (results : list BookResult) (w : world) :
  table_renders rt (r :: results) = false ->
  display_results rt (r :: results) w
  = (inl MarkupError,
     {| stdin := stdin w;
        trace := trace w ++ [ShowTable ["#"; "Title"; "Author"; "Format"; "Source"]
                                       (table_rows 1 (r :: results))] |}).
Proof.
  intros T. unfold display_results, emit, raise.
  cbn [bind Monad_M ret]. rewrite T. reflexivity.
Qed.

(** C6: against a list of two whose table rich renders, the inputs "0",
    "-1", "abc" are each answered with a message and a new prompt, and
    "2" returns the second item.  In general, once the table is shown,
    every input that is not an integer or is out of range is answered
    that way and the loop goes on with the next input: on rejected
    inputs alone it never returns (it is still asking when the input
    ends), and after them the quit token ends it with no selection. *)
Theorem selector_reprompts (a b : BookResult) (rest : list string) (shown : list event) :
  (table_renders rt [a; b] = true ->
   display_results rt [a; b] {| stdin := ["0"; "-1"; "abc"; "2"] ++ rest; trace := shown |}
   = (inr (Some b),
      {| stdin := rest;
         trace := shown
                  ++ [ShowTable ["#"; "Title"; "Author"; "Format"; "Source"]
                                (table_rows 1 [a; b]);
                      Input choice_prompt; Print invalid_number;
                      Input choice_prompt; Print invalid_number;
                      Input choice_prompt; Print not_a_number;
                      Input choice_prompt] |}))
  /\ (forall (r : BookResult) (results : list BookResult) (bad : list string),
         table_renders rt (r :: results) = true ->
         Forall (fun choice =>
                   rejected (max_str_digits rt) (List.length (r :: results)) choice
                   = true) bad ->
         let table := ShowTable ["#"; "Title"; "Author"; "Format"; "Source"]
                                (table_rows 1 (r :: results)) in
         (forall more,
             display_results rt (r :: results) {| stdin := bad ++ more; trace := shown |}
             = choose rt (r :: results) more
                      (shown ++ table :: reprompts (max_str_digits rt) bad))
         /\ fst (display_results rt (r :: results) {| stdin := bad; trace := shown |})
            = inl EOFError
         /\ (forall choice more,
                quits choice = true ->
                display_results rt (r :: results)
                                {| stdin := bad ++ choice :: more; trace := shown |}
                = (inr None,
                   {| stdin := more;
                      trace := shown ++ table :: reprompts (max_str_digits rt) bad
                               ++ [Input choice_prompt] |}))).
Proof.
  split.
  { intros T. rewrite display_results_loop by exact T. simpl stdin. simpl trace.
    assert (Forall (fun choice =>
                      rejected (max_str_digits rt) (List.length [a; b]) choice = true)
                   ["0"; "-1"; "abc"]) as Hbad by (repeat constructor).
    pose proof (@choose_all_rejected [a; b] ["0"; "-1"; "abc"] ("2" :: rest) Hbad) as E.
    simpl app in E. simpl app. rewrite E.
    unfold choose. rewrite on_choice_cases.
    change (py_int (max_str_digits rt) "2") with (@inr exn Z 2%Z).
    cbv iota beta. simpl.
    now rewrite <- !app_assoc. }
  intros r results bad T Hbad table.
  assert (forall more,
             display_results rt (r :: results) {| stdin := bad ++ more; trace := shown |}
             = choose rt (r :: results) more
                      (shown ++ table :: reprompts (max_str_digits rt) bad)) as Loop.
  { intros more. rewrite display_results_loop by exact T. simpl stdin. simpl trace.
    rewrite (@choose_all_rejected (r :: results) bad more Hbad).
    now rewrite <- app_assoc. }
  split; [exact Loop|]. split.
  - specialize (Loop []). rewrite app_nil_r in Loop. now rewrite Loop, choose_at_end.
  - intros choice more Q. rewrite Loop. rewrite choose_quit by exact Q.
    now rewrite <- app_assoc.
Qed.

(** C9: whatever [display_results] returns is [None] or an element of
    its list; a result it returns for the accepted input k is the k-th
    element, counted from 1; on the empty list it returns [None] and
    reads no input.  (Nothing is said of the runs that end in an
    exception: the input ends before an answer is accepted, or rich
    refuses the table.) *)
Theorem display_results_returns_listed (results : list BookResult) (w : world) :
  match display_results rt results w with
  | (inr None, _) => True
  | (inr (Some r), w') =>
      In r results
      /\ exists skipped choice k,
          stdin w = skipped ++ choice :: stdin w'
          /\ py_int (max_str_digits rt) choice = inr k
          /\ (1 <= k <= Z.of_nat (List.length results))%Z
          /\ nth_error results (Z.to_nat (k - 1)) = Some r
  | (inl _, _) => True
  end
  /\ display_results rt [] w = (inr None, say no_results w).
Proof.
  split; [|reflexivity].
  destruct results as [|r0 results]; [exact I|].
  destruct (table_renders rt (r0 :: results)) eqn:T;
    [|now rewrite display_results_refused].
  rewrite display_results_loop by exact T.
  pose proof (choose_outcome (r0 :: results) (stdin w)
                (trace w ++ [ShowTable ["#"; "Title"; "Author"; "Format"; "Source"]
                                       (table_rows 1 (r0 :: results))])) as O.
  destruct (choose rt (r0 :: results) (stdin w) _) as [[e|[r|]] w'].
  - exact I.
  - destruct O as (skipped & choice & k & H1 & H2 & H3 & H4).
    split; [exact (nth_error_In _ _ H4)|].
    exists skipped, choice, k. repeat split; (assumption || apply H3).
  - exact I.
Qed.

End Selector.

Lemma selector_reprompts_witness :
  let a := Samples.entry "Emma" "https://archive.org/emma.pdf" in
  let b := Samples.entry "Persuasion" "https://archive.org/persuasion.pdf" in
  fst (DownloadBooks.display_results Samples.offline [a; b]
         {| IO.stdin := ["0"; "-1"; "abc"]; IO.trace := [] |})
  = inl Py.EOFError.
Proof.
  intros a b.
  destruct (selector_reprompts Samples.offline a b [] []) as [_ General].
  refine (proj1 (proj2 (General a [b] ["0"; "-1"; "abc"] _ _))).
  - reflexivity.
  - repeat constructor.
Defined.

(* ================================================================== *)
(** * Downloader: the file name and the progress figures *)

Section Downloader.
Import Py IO Spec DownloadBooks.

Variable rt : runtime.

Lemma keep_is_allowed (c : ascii) : keep_in_filename c = allowed_in_filename c.
Proof.
  unfold keep_in_filename, allowed_in_filename. simpl.
  now destruct (Str.isalnum c), (Ascii.eqb c " "), (Ascii.eqb c "-"), (Ascii.eqb c "_").
Qed.

Lemma select_filter (keep : ascii -> bool) (s : string) :
  Str.select keep s = string_of_list_ascii (filter keep (list_ascii_of_string s)).
Proof.
  induction s as [|c s IH]; simpl; [reflexivity|].
  destruct (keep c); simpl; now rewrite IH.
Qed.

Lemma drop_while_last (A : Type) (p : A -> bool) (l : list A) (x : A) :
  drop_while p (l ++ [x])
  = match drop_while p l with
    | [] => if p x then [] else [x]
    | y :: r => y :: r ++ [x]
    end.
Proof.
  induction l as [|y l IH]; simpl; [reflexivity|].
  destruct (p y); [exact IH | reflexivity].
Qed.

Lemma rstrip_trim (p : ascii -> bool) (l : list ascii) :
  Str.rstrip_with p (string_of_list_ascii l)
  = string_of_list_ascii (rev (drop_while p (rev l))).
Proof.
  induction l as [|c l IH]; simpl; [reflexivity|].
  rewrite IH, drop_while_last.
  destruct (drop_while p (rev l)) as [|y r]; simpl.
  - now destruct (p c).
  - rewrite rev_app_distr. simpl.
    destruct (rev r ++ [y]) as [|z t] eqn:E; [|reflexivity].
    now destruct (rev r).
Qed.

Lemma filename_refines (book_result : BookResult) :
  DownloadBooks.filename book_result
  = Spec.filename (title book_result) (format book_result).
Proof.
  unfold DownloadBooks.filename, Spec.filename, safe_title, Str.rstrip,
    trim_trailing_space.
  rewrite select_filter, rstrip_trim.
  now rewrite (filter_ext keep_in_filename allowed_in_filename keep_is_allowed).
Qed.

(** C7: the file name is the title without the characters that are
    neither alphanumeric nor space, hyphen or underscore, with trailing
    white space trimmed, followed by a period and the format in lower
    case; "A/B: Test*" as PDF gives "AB Test.pdf". *)
Theorem filename_as_specified (book_result : BookResult) :
  DownloadBooks.filename book_result
  = Spec.filename (title book_result) (format book_result)
  /\ DownloadBooks.filename
       {| title := "A/B: Test*"; author := "Unknown"; format := "PDF";
          source := "OpenLibrary"; download_url := "https://archive.org/ab.pdf";
          file_size := None |}
     = "AB Test.pdf".
Proof. split; [apply filename_refines | reflexivity]. Qed.

Lemma content_length_16384 (m : nat) : py_int m "16384" = inr 16384%Z.
Proof. reflexivity. Qed.

Lemma halfway : PrimFloat.mul (py_truediv 8192 16384) 100 = 50%float.
Proof. vm_compute. reflexivity. Qed.

Lemma all_of_it : PrimFloat.mul (py_truediv 16384 16384) 100 = 100%float.
Proof. vm_compute. reflexivity. Qed.

Lemma receive_chunk (filepath : path) (name : string) (total_size downloaded : Z)
      (chunk : list Byte.byte) (w : world) :
  chunk <> [] ->
  receive filepath name total_size downloaded chunk w
  = (inr (downloaded + Z.of_nat (List.length chunk))%Z,
     {| stdin := stdin w;
        trace := trace w
                 ++ [FileWrite filepath chunk;
                     StatusUpdate
                       [Lit "[bold green]Downloading "; Lit name; Lit ": ";
                        FmtFixed1
                          (PrimFloat.mul
                             (py_truediv (downloaded + Z.of_nat (List.length chunk))
                                         total_size) 100);
                        Lit "%"]] |}).
Proof.
  intros N. destruct chunk as [|x chunk]; [contradiction|].
  unfold receive, emit. cbn [bind Monad_M ret stdin trace].
  now rewrite <- app_assoc.
Qed.

(** C8: a download announced with content-length 16384 and delivered in
    two chunks of 8192 bytes reports the figures 50 and 100, in that
    order: strictly increasing, ending at 100%. *)
Theorem progress_of_two_chunks (book_result : BookResult) (w : world)
        (status : Z) (first second : list Byte.byte) (complete : bool) :
  stream rt (download_url book_result)
  = Streamed status (Some "16384") [first; second] complete ->
  Requests.error_status status = false ->
  can_open rt (download_folder rt, DownloadBooks.filename book_result) = true ->
  List.length first = Z.to_nat 8192 ->
  List.length second = Z.to_nat 8192 ->
  exists events,
    trace (snd (download_book rt book_result w)) = trace w ++ events
    /\ progress_values events = [50%float; 100%float]
    /\ strictly_increasing (progress_values events) = true
    /\ last (progress_values events) 0%float = 100%float.
Proof.
  intros Hstream Hstatus Hopen H1 H2.
  assert (first <> []) as N1 by (intros ->; discriminate H1).
  assert (second <> []) as N2 by (intros ->; discriminate H2).
  unfold download_book, transfer, try_except, Requests.raise_for_status, lift, emit, raise.
  cbn [bind Monad_M ret stdin trace].
  rewrite Hstream, Hstatus.
  cbn [bind Monad_M ret stdin trace].
  rewrite content_length_16384, Hopen.
  cbn [bind Monad_M ret stdin trace for_each Z.eqb].
  rewrite (receive_chunk _ _ _ _ _ N1).
  cbn [bind Monad_M ret stdin trace for_each].
  rewrite (receive_chunk _ _ _ _ _ N2).
  rewrite H1, H2.
  change (0 + Z.of_nat (Z.to_nat 8192))%Z with 8192%Z.
  change (8192 + Z.of_nat (Z.to_nat 8192))%Z with 16384%Z.
  rewrite halfway, all_of_it.
  unfold console_print_error, console_print, emit.
  destruct complete;
    cbn [bind Monad_M ret stdin trace snd is_Exception has_plain_text];
    repeat match goal with
           | |- context [renders ?rt ?t] =>
               destruct (renders rt t);
               cbn [bind Monad_M ret stdin trace snd is_Exception has_plain_text]
           end;
    rewrite <- !app_assoc; eexists; (split; [reflexivity|]);
    repeat split.
Qed.

End Downloader.

Lemma progress_of_two_chunks_witness :
  exists events,
    IO.trace (snd (DownloadBooks.download_book Samples.two_chunks
                     (Samples.entry "Emma" "https://archive.org/emma.pdf") Samples.idle))
    = IO.trace Samples.idle ++ events
    /\ DownloadBooks.progress_values events = [50%float; 100%float]
    /\ Spec.strictly_increasing (DownloadBooks.progress_values events) = true
    /\ last (DownloadBooks.progress_values events) 0%float = 100%float.
Proof.
  apply (@progress_of_two_chunks Samples.two_chunks
           (Samples.entry "Emma" "https://archive.org/emma.pdf") Samples.idle
           200 Samples.chunk Samples.chunk true);
    vm_compute; reflexivity.
Defined.

(* ================================================================== *)
(** * get_book_links: the guard of [fetch_books] *)

Section FetchBooks.
Import Py IO Spec GetBookLinks.

Variable rt : runtime.

Lemma fetch_books_guard (book author : string) (rest : list string)
      (shown : list event) :
  String.eqb (Str.strip book) "" || String.eqb (Str.strip author) "" = true ->
  fetch_books rt {| stdin := book :: author :: rest; trace := shown |}
  = (inr tt,
     {| stdin := rest;
        trace := shown ++ [Print welcome; Input ask_book; Input ask_author;
                           Print both_required] |}).
Proof.
  intros G. unfold fetch_books, input, emit.
  cbn [bind Monad_M ret stdin trace]. rewrite G.
  cbn [stdin trace]. now rewrite <- !app_assoc.
Qed.

(** C10: when the book name or the author name is empty once stripped,
    [fetch_books] prints its message and returns; between the welcome
    and the return there are the two prompts and that message, and no
    request. *)
Theorem fetch_books_requires_both (book author : string) (rest : list string)
        (shown : list event) :
  Str.strip book = "" \/ Str.strip author = "" ->
  exists events,
    fetch_books rt {| stdin := book :: author :: rest; trace := shown |}
    = (inr tt, {| stdin := rest; trace := shown ++ events |})
    /\ events = [Print welcome; Input ask_book; Input ask_author; Print both_required]
    /\ existsb is_request events = false.
Proof.
  intros G. eexists. split; [|split; reflexivity].
  apply fetch_books_guard.
  destruct G as [-> | ->]; [reflexivity | apply orb_true_r].
Qed.

End FetchBooks.

Lemma fetch_books_requires_both_witness :
  exists events,
    GetBookLinks.fetch_books (Samples.answering Samples.plain_item)
      {| IO.stdin := ["   "; "Jane Austen"]; IO.trace := [] |}
    = (inr tt, {| IO.stdin := []; IO.trace := [] ++ events |})
    /\ events = [IO.Print GetBookLinks.welcome; IO.Input GetBookLinks.ask_book;
                 IO.Input GetBookLinks.ask_author; IO.Print GetBookLinks.both_required]
    /\ existsb Spec.is_request events = false.
Proof.
  apply (@fetch_books_requires_both (Samples.answering Samples.plain_item)
           "   " "Jane Austen" [] []).
  left. reflexivity.
Defined.

(* ================================================================== *)
(** * More on the aggregation of [main] *)

Section AggregatorMore.
Import DownloadBooks Spec Aggregation.

Lemma aggregate_urls (per_source : list (list BookResult)) :
  map (@download_url string) (aggregate per_source)
  = first_seen (map (@download_url string) (in_input_order per_source)).
Proof.
  rewrite aggregate_collect.
  rewrite (well_keyed_urls (well_keyed_collect (in_input_order per_source) well_keyed_empty)).
  rewrite keys_collect. simpl.
  induction (first_seen _) as [|u l IH]; simpl; [reflexivity|].
  f_equal. exact IH.
Qed.

Lemma first_seen_In (urls : list string) (u : string) :
  In u (first_seen urls) <-> In u urls.
Proof.
  induction urls as [|x urls IH]; simpl; [reflexivity|].
  rewrite filter_In, IH. split.
  - intros [E|[H _]]; [now left | now right].
  - intros [E|H]; [now left|].
    destruct (String.eqb u x) eqn:E.
    + apply String.eqb_eq in E. now left.
    + right. now split.
Qed.

Lemma first_seen_NoDup (urls : list string) : NoDup (first_seen urls).
Proof.
  induction urls as [|x urls IH]; simpl; constructor.
  - rewrite filter_In. intros [_ H]. now rewrite String.eqb_refl in H.
  - now apply NoDup_filter.
Qed.

Lemma filter_out_absent (x : string) (l : list string) :
  ~ In x l -> filter (fun y => negb (String.eqb y x)) l = l.
Proof.
  induction l as [|y l IH]; simpl; intros H; [reflexivity|].
  destruct (String.eqb y x) eqn:E; simpl.
  - apply String.eqb_eq in E. exfalso. apply H. now left.
  - rewrite IH; [reflexivity|]. intros H'. apply H. now right.
Qed.

Lemma filter_out_present (x : string) (l : list string) :
  NoDup l -> In x l ->
  S (List.length (filter (fun y => negb (String.eqb y x)) l)) = List.length l.
Proof.
  induction 1 as [|y l Hy ND IH]; simpl; intros H; [contradiction|].
  destruct (String.eqb y x) eqn:E; simpl.
  - apply String.eqb_eq in E. subst y. now rewrite filter_out_absent.
  - destruct H as [->|H]; [now rewrite String.eqb_refl in E|].
    now rewrite IH.
Qed.

Lemma first_seen_counts (urls : list string) :
  List.length (first_seen urls) = List.length (nodup string_dec urls).
Proof.
  induction urls as [|x urls IH]; simpl; [reflexivity|].
  destruct (in_dec string_dec x urls) as [H|H].
  - rewrite <- IH. apply filter_out_present; [apply first_seen_NoDup|].
    now apply first_seen_In.
  - simpl. rewrite <- IH. f_equal. f_equal.
    apply filter_out_absent. now rewrite first_seen_In.
Qed.

Lemma first_seen_distinct (urls : list string) : NoDup urls -> first_seen urls = urls.
Proof.
  induction 1 as [|x urls Hx ND IH]; simpl; [reflexivity|].
  rewrite IH. f_equal. now apply filter_out_absent.
Qed.

Lemma aggregate_from_input (per_source : list (list BookResult)) (r : BookResult) :
  In r (aggregate per_source) -> In r (in_input_order per_source).
Proof.
  rewrite aggregate_collect.
  rewrite (well_keyed_values r
             (well_keyed_collect (in_input_order per_source) well_keyed_empty)).
  rewrite lookup_collect. unfold last_with_url.
  destruct (find _ _) as [x|] eqn:F; simpl; [|discriminate].
  intros [= ->]. apply find_some in F as [F _]. now apply in_rev.
Qed.

(** X1: the aggregation neither loses nor invents a URL. *)
Theorem aggregate_keeps_every_url (per_source : list (list BookResult)) (url : string) :
  In url (map (@download_url string) (aggregate per_source))
  <-> In url (map (@download_url string) (in_input_order per_source)).
Proof. rewrite aggregate_urls. apply first_seen_In. Qed.

(** X2: every entry of the output is an entry of the input, and the
    output has as many entries as the input has distinct URLs, so never
    more than the input. *)
Theorem aggregate_size (per_source : list (list BookResult)) :
  incl (aggregate per_source) (in_input_order per_source)
  /\ List.length (aggregate per_source)
     = List.length (nodup string_dec
                          (map (@download_url string) (in_input_order per_source)))
  /\ List.length (aggregate per_source) <= List.length (in_input_order per_source).
Proof.
  assert (List.length (aggregate per_source)
          = List.length (nodup string_dec
                               (map (@download_url string) (in_input_order per_source))))
    as Count.
  { rewrite <- first_seen_counts, <- aggregate_urls. now rewrite length_map. }
  split; [intros r; apply aggregate_from_input|]. split; [exact Count|].
  rewrite Count.
  replace (List.length (in_input_order per_source))
    with (List.length (map (@download_url string) (in_input_order per_source)))
    by apply length_map.
  apply NoDup_incl_length; [apply NoDup_nodup|].
  intros u. apply nodup_In.
Qed.

Lemma dict_set_new (d : dict) (r : BookResult) :
  ~ In (download_url r) (keys d) ->
  dict_set d (download_url r) r = d ++ [(download_url r, r)].
Proof.
  unfold keys. induction d as [|[k v] d IH]; simpl; intros H; [reflexivity|].
  destruct (String.eqb k (download_url r)) eqn:E.
  - apply String.eqb_eq in E. exfalso. apply H. now left.
  - rewrite IH; [reflexivity|]. intros H'. apply H. now right.
Qed.

Lemma collect_distinct (results : list BookResult) :
  forall d : dict,
    NoDup (keys d ++ map (@download_url string) results) ->
    collect d results = d ++ map (fun r => (download_url r, r)) results.
Proof.
  induction results as [|r results IH]; intros d ND; simpl.
  - now rewrite app_nil_r.
  - assert (~ In (download_url r) (keys d)) as New.
    { intros H. apply NoDup_remove_2 in ND. apply ND, in_or_app. now left. }
    rewrite dict_set_new by exact New. rewrite IH.
    + now rewrite <- app_assoc.
    + unfold keys in *. rewrite map_app, <- app_assoc. exact ND.
Qed.

(** X3: an input without duplicate URLs passes unchanged, in its order. *)
Theorem aggregate_without_duplicates (per_source : list (list BookResult)) :
  NoDup (map (@download_url string) (in_input_order per_source)) ->
  aggregate per_source = in_input_order per_source.
Proof.
  intros ND. rewrite aggregate_collect, collect_distinct by exact ND.
  unfold dict_values. simpl. rewrite map_map. simpl. apply map_id.
Qed.

(** X4: aggregating an aggregated list changes nothing. *)
Theorem aggregate_idempotent (per_source : list (list BookResult)) :
  aggregate [aggregate per_source] = aggregate per_source.
Proof.
  assert (in_input_order [aggregate per_source] = aggregate per_source) as E
    by apply app_nil_r.
  rewrite <- E at 2. apply aggregate_without_duplicates.
  rewrite E, aggregate_urls. apply first_seen_NoDup.
Qed.

End AggregatorMore.

Lemma aggregate_without_duplicates_witness :
  DownloadBooks.aggregate
    [[Samples.entry "Emma" "https://archive.org/emma.pdf"];
     [Samples.entry "Persuasion" "https://archive.org/persuasion.pdf"]]
  = [Samples.entry "Emma" "https://archive.org/emma.pdf";
     Samples.entry "Persuasion" "https://archive.org/persuasion.pdf"].
Proof.
  apply (@aggregate_without_duplicates
           [[Samples.entry "Emma" "https://archive.org/emma.pdf"];
            [Samples.entry "Persuasion" "https://archive.org/persuasion.pdf"]]).
  repeat constructor; simpl; intuition discriminate.
Defined.

(* ================================================================== *)
(** * More on the search functions of download_books.py *)

Section SearchResults.
Import Py IO Spec Shapes.

Variable rt : runtime.

Lemma for_each_succeeds (A S : Type) (body : S -> A -> res S) (l : list A) :
  (forall s x, In x l -> exists s', body s x = inr s') ->
  forall s, exists out, for_each l s body = inr out.
Proof.
  induction l as [|x l IH]; intros Hbody s; simpl; [eauto|].
  destruct (Hbody s x (or_introl eq_refl)) as (s' & ->).
  apply IH. intros s0 y Hy. apply Hbody. now right.
Qed.

Lemma for_each_poisoned (A S : Type) (body : S -> A -> res S) (l : list A) (x : A) :
  In x l -> (forall s, exists e, body s x = inl e) ->
  forall s, exists e, for_each l s body = inl e.
Proof.
  induction l as [|y l IH]; intros HIn Hx s; simpl; [contradiction|].
  destruct (body s y) as [e|s'] eqn:B; [eauto|].
  destruct HIn as [->|HIn].
  - destruct (Hx s) as (e & E). congruence.
  - now apply IH.
Qed.

Lemma field_get (v : pyval) (k : string) (default x : pyval) :
  py_get v k default = inr x -> field v k default = x.
Proof. unfold field. now intros ->. Qed.

Lemma open_library_format_exact (doc : pyval)
      (results found : list (DownloadBooks.BookResult_of pyval)) (fmt : pyval) :
  DownloadBooks.open_library_format doc results fmt = inr found ->
  found = results ++ (if names_pdf_or_epub_file fmt
                      then [open_library_result doc fmt] else []).
Proof.
  unfold DownloadBooks.open_library_format, open_library_result, author_names.
  destruct fmt as [| | | |s| |]; simpl; try discriminate.
  destruct (Str.contains ".pdf" (Str.lower s) || Str.contains ".epub" (Str.lower s)).
  - destruct (py_get doc "title" _) as [|title] eqn:T; simpl; [discriminate|].
    destruct (py_get doc "author_name" _) as [|names] eqn:N; simpl; [discriminate|].
    destruct (py_join ", " names) as [|author] eqn:J; simpl; [discriminate|].
    intros [= <-]. rewrite (field_get _ _ _ T), (field_get _ _ _ N), J. reflexivity.
  - intros [= <-]. now rewrite app_nil_r.
Qed.

Lemma open_library_doc_exact
      (results found : list (DownloadBooks.BookResult_of pyval)) (doc : pyval) :
  DownloadBooks.open_library_doc results doc = inr found ->
  found = results
          ++ map (open_library_result doc)
                 (filter names_pdf_or_epub_file (items_of (field doc "formats" (PList [])))).
Proof.
  unfold DownloadBooks.open_library_doc, items_of, field. simpl.
  destruct (py_get doc "formats" _) as [|formats]; simpl; [discriminate|].
  destruct (py_iter formats) as [|fmts]; simpl; [discriminate|].
  intros H. rewrite <- flat_map_kept.
  apply for_each_collects
    with (view := fun s : list (DownloadBooks.BookResult_of pyval) => s)
         (step := fun fmt => if names_pdf_or_epub_file fmt
                             then [open_library_result doc fmt] else []) in H;
    [exact H|].
  intros s x s'. apply open_library_format_exact.
Qed.

Lemma open_library_results_exact (data : pyval)
      (found : list (DownloadBooks.BookResult_of pyval)) :
  DownloadBooks.open_library_results data = inr found ->
  found = open_library_expected data.
Proof.
  unfold DownloadBooks.open_library_results, open_library_expected, items_of at 2, field.
  simpl.
  destruct (py_get data "docs" _) as [|docs]; simpl; [discriminate|].
  destruct (py_iter docs) as [|l]; simpl; [discriminate|].
  intros H.
  apply for_each_collects
    with (view := fun s : list (DownloadBooks.BookResult_of pyval) => s)
         (step := fun doc =>
                    map (open_library_result doc)
                        (filter names_pdf_or_epub_file
                                (items_of (field doc "formats" (PList []))))) in H;
    [exact H|].
  intros s x s'. apply open_library_doc_exact.
Qed.

Lemma all_str_joins (l : list pyval) :
  forallb is_str l = true -> exists ss, all_str l = inr ss.
Proof.
  induction l as [|v l IH]; simpl; [eauto|].
  destruct v; simpl; try discriminate.
  intros H. destruct (IH H) as (ss & ->). eauto.
Qed.

Lemma str_list_joins (sep : string) (v : pyval) :
  str_list v = true -> exists s, py_join sep v = inr s.
Proof.
  destruct v; simpl; try discriminate.
  intros H. unfold py_join. simpl.
  destruct (all_str_joins _ H) as (ss & ->). eauto.
Qed.

Lemma open_library_doc_succeeds (doc : pyval)
      (results : list (DownloadBooks.BookResult_of pyval)) :
  open_library_doc_ok doc = true ->
  exists found, DownloadBooks.open_library_doc results doc = inr found.
Proof.
  destruct doc as [| | | | | |d]; simpl; try discriminate.
  unfold optional. intros H. apply andb_true_iff in H as [F N].
  unfold DownloadBooks.open_library_doc. simpl.
  assert (exists fmts, py_iter (match dict_lookup d "formats" with
                                | Some x => x
                                | None => PList []
                                end) = inr fmts /\ forallb is_str fmts = true)
    as (fmts & -> & Hf).
  { revert F. destruct (dict_lookup d "formats") as [v|]; [|now exists []].
    destruct v; simpl; try discriminate. intros F. eexists. split; [reflexivity | exact F]. }
  simpl. apply for_each_succeeds. intros s fmt HIn.
  rewrite forallb_forall in Hf. specialize (Hf _ HIn).
  destruct fmt; try discriminate Hf.
  unfold DownloadBooks.open_library_format. simpl.
  destruct (Str.contains ".pdf" _ || Str.contains ".epub" _); [|eauto].
  destruct (str_list_joins ", " (match dict_lookup d "author_name" with
                                 | Some x => x
                                 | None => PList [PStr "Unknown"]
                                 end)) as (names & ->); [|simpl; eauto].
  revert N. now destruct (dict_lookup d "author_name").
Qed.

Lemma open_library_succeeds (data : pyval) :
  open_library_ok data = true ->
  exists found, DownloadBooks.open_library_results data = inr found.
Proof.
  destruct data as [| | | | | |d]; simpl; try discriminate.
  unfold optional. intros H.
  unfold DownloadBooks.open_library_results. simpl.
  assert (exists docs, py_iter (match dict_lookup d "docs" with
                                | Some x => x
                                | None => PList []
                                end) = inr docs
                       /\ forallb open_library_doc_ok docs = true)
    as (docs & -> & Hd).
  { revert H. destruct (dict_lookup d "docs") as [v|]; [|now exists []].
    destruct v; simpl; try discriminate. intros H. eexists. split; [reflexivity | exact H]. }
  simpl. apply for_each_succeeds. intros s doc HIn.
  rewrite forallb_forall in Hd. now apply open_library_doc_succeeds, Hd.
Qed.

(** X5: [search_open_library] of download_books.py, entry by entry.  When
    the traversal of the payload raises nothing, the results are, doc by
    doc and in order, one per PDF or EPUB entry of [formats], with the
    doc's title ("Unknown" without one), its author names joined by ", "
    ("Unknown" without a list), source "OpenLibrary", the entry as URL and
    no file size.  The traversal raises nothing on a payload of the shape
    Open Library sends. *)
Theorem open_library_entry_by_entry (title author : string) (w : world) (data : pyval) :
  (forall found,
      DownloadBooks.open_library_results data = inr found ->
      found = open_library_expected data)
  /\ (Requests.payload (api rt DownloadBooks.open_library_api
                            (DownloadBooks.open_library_params title author))
      = Some data ->
      open_library_ok data = true ->
      fst (DownloadBooks.search_open_library rt title author w)
      = inr (open_library_expected data)).
Proof.
  split; [apply open_library_results_exact|].
  intros P OK.
  destruct (open_library_succeeds _ OK) as (found & E).
  rewrite <- (open_library_results_exact _ E).
  now apply open_library_found with (data := data).
Qed.

End SearchResults.

Lemma open_library_entry_by_entry_witness :
  fst (DownloadBooks.search_open_library (Samples.answering Samples.shelf)
         "Emma" "Jane Austen" Samples.idle)
  = inr (Shapes.open_library_expected Samples.shelf).
Proof.
  exact (proj2 (@open_library_entry_by_entry (Samples.answering Samples.shelf)
                  "Emma" "Jane Austen" Samples.idle Samples.shelf) eq_refl eq_refl).
Defined.

Section GutenbergResults.
Import Py IO Spec Shapes.

Variable rt : runtime.

Lemma project_gutenberg_format_exact (book : pyval)
      (results found : list (DownloadBooks.BookResult_of pyval))
      (item : string * pyval) :
  DownloadBooks.project_gutenberg_format book results item = inr found ->
  found = results ++ (if names_pdf_or_epub (fst item)
                      then [project_gutenberg_result book item] else []).
Proof.
  unfold DownloadBooks.project_gutenberg_format, project_gutenberg_result, first_author,
    names_pdf_or_epub, media_format.
  destruct item as [fmt_type url]. simpl.
  destruct (Str.contains "pdf" (Str.lower fmt_type)
            || Str.contains "epub" (Str.lower fmt_type)).
  - destruct (py_get book "title" _) as [|title] eqn:T; simpl; [discriminate|].
    destruct (py_get book "authors" _) as [|authors]; simpl; [discriminate|].
    destruct (py_first authors) as [|first]; simpl; [discriminate|].
    destruct (py_get first "name" _) as [|name]; simpl; [discriminate|].
    destruct (py_join ", " name) as [|author]; simpl; [discriminate|].
    intros [= <-]. now rewrite (field_get _ _ _ T).
  - intros [= <-]. now rewrite app_nil_r.
Qed.

Lemma project_gutenberg_book_exact
      (results found : list (DownloadBooks.BookResult_of pyval)) (book : pyval) :
  DownloadBooks.project_gutenberg_book results book = inr found ->
  found = results
          ++ map (project_gutenberg_result book)
                 (filter (fun item => names_pdf_or_epub (fst item)) (formats_of book)).
Proof.
  unfold DownloadBooks.project_gutenberg_book, formats_of, field. simpl.
  destruct (py_get book "formats" _) as [|formats]; simpl; [discriminate|].
  destruct (py_items formats) as [|items]; simpl; [discriminate|].
  intros H.
  rewrite <- (flat_map_kept (fun item => names_pdf_or_epub (fst item))).
  apply for_each_collects
    with (view := fun s : list (DownloadBooks.BookResult_of pyval) => s)
         (step := fun item => if names_pdf_or_epub (fst item)
                              then [project_gutenberg_result book item] else []) in H;
    [exact H|].
  intros s x s'. apply project_gutenberg_format_exact.
Qed.

Lemma project_gutenberg_results_exact (data : pyval)
      (found : list (DownloadBooks.BookResult_of pyval)) :
  DownloadBooks.project_gutenberg_results data = inr found ->
  found = project_gutenberg_expected data.
Proof.
  unfold DownloadBooks.project_gutenberg_results, project_gutenberg_expected, items_of,
    field.
  simpl.
  destruct (py_get data "results" _) as [|books]; simpl; [discriminate|].
  destruct (py_iter books) as [|l]; simpl; [discriminate|].
  intros H.
  apply for_each_collects
    with (view := fun s : list (DownloadBooks.BookResult_of pyval) => s)
         (step := fun book =>
                    map (project_gutenberg_result book)
                        (filter (fun item => names_pdf_or_epub (fst item))
                                (formats_of book))) in H;
    [exact H|].
  intros s x s'. apply project_gutenberg_book_exact.
Qed.

Lemma all_str_chars (s : string) : all_str (map PStr (Str.chars s)) = inr (Str.chars s).
Proof. induction s as [|c s IH]; simpl; [reflexivity|]. now rewrite IH. Qed.

(** X6: [search_project_gutenberg], entry by entry.  When the traversal
    of the payload raises nothing, the results are, book by book and in
    order, one per [formats] item whose key names PDF or EPUB, with the
    book's title ("Unknown" without one), source "Project Gutenberg", the
    item's value as URL and no file size; the author is the name of the
    first author only, with ", " put between its characters. *)
Theorem project_gutenberg_entry_by_entry (data : pyval) :
  (forall found,
      DownloadBooks.project_gutenberg_results data = inr found ->
      found = project_gutenberg_expected data)
  /\ (forall d a others name,
         dict_lookup d "authors" = Some (PList (PDict a :: others)) ->
         dict_lookup a "name" = Some (PStr name) ->
         first_author (PDict d) = inr (Str.join ", " (Str.chars name))).
Proof.
  split; [apply project_gutenberg_results_exact|].
  intros d a others name A N. unfold first_author, py_join. simpl.
  rewrite A. simpl. rewrite N. simpl. now rewrite all_str_chars.
Qed.

(** X7: one book is enough to lose every result.  When some book of the
    payload has an empty author list and a PDF or EPUB format, the
    [IndexError] of [authors[0]] ends the traversal and
    [search_project_gutenberg] returns the empty list, whatever the other
    books hold. *)
Theorem project_gutenberg_all_or_nothing (title author : string) (w : world)
        (data : pyval) (d : list (string * pyval)) (item : string * pyval) :
  Requests.payload (api rt DownloadBooks.project_gutenberg_api
                        (DownloadBooks.project_gutenberg_params title author))
  = Some data ->
  In (PDict d) (items_of (field data "results" (PList []))) ->
  dict_lookup d "authors" = Some (PList []) ->
  In item (formats_of (PDict d)) ->
  names_pdf_or_epub (fst item) = true ->
  fst (DownloadBooks.search_project_gutenberg rt title author w) = inr [].
Proof.
  intros P B A F K.
  rewrite download_books_project_gutenberg.
  unfold reported, project_gutenberg_failure, search_failure, found_on_gutenberg.
  rewrite P. revert P. unfold Requests.payload.
  destruct (api rt _ _) as [|status [payload|]|status failure]; try discriminate.
  destruct (Requests.error_status status); [discriminate|].
  intros [= ->].
  assert (exists e, DownloadBooks.project_gutenberg_results data = inl e) as (e & E).
  2:{ rewrite E, (project_gutenberg_raises_plain _ E). reflexivity. }
  unfold DownloadBooks.project_gutenberg_results. simpl.
  unfold items_of, field in B.
  destruct (py_get data "results" (PList [])) as [e|books]; simpl; [eauto|].
  destruct (py_iter books) as [e|l]; simpl; [eauto|].
  apply for_each_poisoned with (x := PDict d); [exact B|].
  intros s. unfold DownloadBooks.project_gutenberg_book. simpl.
  unfold formats_of, field in F. simpl in F.
  destruct (py_items _) as [e|items]; simpl; [eauto|].
  apply for_each_poisoned with (x := item); [exact F|].
  intros s'. unfold DownloadBooks.project_gutenberg_format, names_pdf_or_epub in *.
  rewrite K. simpl. rewrite A. simpl. eauto.
Qed.

Lemma open_library_effect (title author : string) (w : world) :
  snd (DownloadBooks.search_open_library rt title author w)
  = {| stdin := stdin w;
       trace :=
         trace w
         ++ HttpGet DownloadBooks.open_library_api
                    (DownloadBooks.open_library_params title author)
            :: match search_failure
                       (api rt DownloadBooks.open_library_api
                            (DownloadBooks.open_library_params title author))
                       DownloadBooks.open_library_results with
               | Some e => [Print [Lit "[red]Error searching OpenLibrary: "; FmtExn e;
                                   Lit "[/red]"]]
               | None => []
               end |}.
Proof.
  unfold DownloadBooks.search_open_library, try_except, Requests.get,
    Requests.raise_for_status, Requests.json, search_failure, lift, emit, raise,
    console_print_error, console_print.
  simpl.
  destruct (api rt _ _) as [|status [data|]|status failure]; simpl;
    try destruct (Requests.error_status status); simpl;
    try destruct (DownloadBooks.open_library_results data); simpl;
    repeat match goal with
           | |- context [has_plain_text ?e] => destruct (has_plain_text e); simpl
           | |- context [renders ?rt ?t] => destruct (renders rt t); simpl
           end;
    now rewrite <- ?app_assoc.
Qed.

Lemma project_gutenberg_effect (title author : string) (w : world) :
  snd (DownloadBooks.search_project_gutenberg rt title author w)
  = {| stdin := stdin w;
       trace :=
         trace w
         ++ HttpGet DownloadBooks.project_gutenberg_api
                    (DownloadBooks.project_gutenberg_params title author)
            :: match search_failure
                       (api rt DownloadBooks.project_gutenberg_api
                            (DownloadBooks.project_gutenberg_params title author))
                       DownloadBooks.project_gutenberg_results with
               | Some e => [Print [Lit "[red]Error searching Project Gutenberg: ";
                                   FmtExn e; Lit "[/red]"]]
               | None => []
               end |}.
Proof.
  unfold DownloadBooks.search_project_gutenberg, try_except, Requests.get,
    Requests.raise_for_status, Requests.json, search_failure, lift, emit, raise,
    console_print_error, console_print.
  simpl.
  destruct (api rt _ _) as [|status [data|]|status failure]; simpl;
    try destruct (Requests.error_status status); simpl;
    try destruct (DownloadBooks.project_gutenberg_results data); simpl;
    repeat match goal with
           | |- context [has_plain_text ?e] => destruct (has_plain_text e); simpl
           | |- context [renders ?rt ?t] => destruct (renders rt t); simpl
           end;
    now rewrite <- ?app_assoc.
Qed.

(** X8: what a search of download_books.py does besides returning.  It
    issues one request, to its own endpoint with its own parameters,
    reads no input, and prints one line, with the exception in it,
    exactly when the request, the status, the decoding or the traversal
    failed. *)
Theorem search_leaves_one_request (title author : string) (w : world) :
  snd (DownloadBooks.search_open_library rt title author w)
  = {| stdin := stdin w;
       trace :=
         trace w
         ++ HttpGet DownloadBooks.open_library_api
                    (DownloadBooks.open_library_params title author)
            :: match search_failure
                       (api rt DownloadBooks.open_library_api
                            (DownloadBooks.open_library_params title author))
                       DownloadBooks.open_library_results with
               | Some e => [Print [Lit "[red]Error searching OpenLibrary: "; FmtExn e;
                                   Lit "[/red]"]]
               | None => []
               end |}
  /\ snd (DownloadBooks.search_project_gutenberg rt title author w)
     = {| stdin := stdin w;
          trace :=
            trace w
            ++ HttpGet DownloadBooks.project_gutenberg_api
                       (DownloadBooks.project_gutenberg_params title author)
               :: match search_failure
                          (api rt DownloadBooks.project_gutenberg_api
                               (DownloadBooks.project_gutenberg_params title author))
                          DownloadBooks.project_gutenberg_results with
                  | Some e => [Print [Lit "[red]Error searching Project Gutenberg: ";
                                      FmtExn e; Lit "[/red]"]]
                  | None => []
                  end |}.
Proof. split; [apply open_library_effect | apply project_gutenberg_effect]. Qed.

End GutenbergResults.

Lemma project_gutenberg_entry_by_entry_witness :
  Shapes.first_author
    (Py.PDict [("authors", Py.PList [Py.PDict [("name", Py.PStr "Jane Austen")]])])
  = inr (Str.join ", " (Str.chars "Jane Austen")).
Proof.
  exact (proj2 (project_gutenberg_entry_by_entry Samples.austen)
               [("authors", Py.PList [Py.PDict [("name", Py.PStr "Jane Austen")]])]
               [("name", Py.PStr "Jane Austen")] [] "Jane Austen" eq_refl eq_refl).
Defined.

Lemma project_gutenberg_all_or_nothing_witness :
  let lost :=
    Py.PDict
      [("results",
        Py.PList
          [Py.PDict [("title", Py.PStr "Emma");
                     ("authors", Py.PList [Py.PDict [("name", Py.PStr "Jane Austen")]]);
                     ("formats",
                      Py.PDict [("application/pdf", Py.PStr "https://gutenberg.org/158.pdf")])];
           Py.PDict [("title", Py.PStr "Beowulf");
                     ("authors", Py.PList []);
                     ("formats",
                      Py.PDict [("application/pdf",
                                 Py.PStr "https://gutenberg.org/16328.pdf")])]])] in
  fst (DownloadBooks.search_project_gutenberg (Samples.answering lost)
         "Emma" "Jane Austen" Samples.idle)
  = inr [].
Proof.
  intros lost.
  apply (@project_gutenberg_all_or_nothing (Samples.answering lost)
           "Emma" "Jane Austen" Samples.idle lost
           [("title", Py.PStr "Beowulf"); ("authors", Py.PList []);
            ("formats",
             Py.PDict [("application/pdf", Py.PStr "https://gutenberg.org/16328.pdf")])]
           ("application/pdf", Py.PStr "https://gutenberg.org/16328.pdf")).
  - reflexivity.
  - right. left. reflexivity.
  - reflexivity.
  - left. reflexivity.
  - reflexivity.
Defined.

(* ================================================================== *)
(** * More on [display_results] *)

Section SelectorMore.
Import Py IO Spec Shapes DownloadBooks.

Variable rt : runtime.

Lemma lower_char_q (c : ascii) :
  Str.lower_char c = "q"%char -> c = "q"%char \/ c = "Q"%char.
Proof.
  destruct c as [[] [] [] [] [] [] [] []]; vm_compute; intros H;
    try discriminate H; auto.
Qed.

Lemma quits_exactly (choice : string) :
  quits choice = true <-> choice = "q" \/ choice = "Q".
Proof.
  unfold quits. rewrite String.eqb_eq. split.
  - destruct choice as [|c [|c' s]]; simpl; try discriminate.
    intros [= H]. destruct (lower_char_q _ H) as [-> | ->]; auto.
  - intros [-> | ->]; reflexivity.
Qed.

Lemma number_is_no_quit (choice : string) (k : Z) :
  py_int (max_str_digits rt) choice = inr k -> quits choice = false.
Proof.
  intros P. destruct (quits choice) eqn:Q; [|reflexivity].
  apply quits_exactly in Q as [-> | ->]; discriminate P.
Qed.

Lemma choose_accepted (results : list BookResult) (choice : string) (k : Z)
      (more : list string) (shown : list event) :
  py_int (max_str_digits rt) choice = inr k ->
  (1 <= k <= Z.of_nat (List.length results))%Z ->
  exists r,
    nth_error results (Z.to_nat (k - 1)) = Some r
    /\ choose rt results (choice :: more) shown
       = (inr (Some r), {| stdin := more; trace := shown ++ [Input choice_prompt] |}).
Proof.
  intros P [L U].
  destruct (nth_error results (Z.to_nat (k - 1))) as [r|] eqn:N.
  - exists r. split; [reflexivity|].
    simpl. rewrite on_choice_cases, (number_is_no_quit _ P), P.
    apply Z.leb_le in L. apply Z.leb_le in U. rewrite L, U. simpl. now rewrite N.
  - apply nth_error_None in N. lia.
Qed.

(** X9: the loop of [display_results] takes an input for the quit
    token, returning [None] without a message, exactly when it is the
    single letter q, in either case: no surrounding blank is stripped
    and no longer word is taken for it. *)
Theorem quit_token_is_q (results : list BookResult) (choice : string) (w : world) :
  on_choice rt results choice w = (inr (Some None), w)
  <-> choice = "q" \/ choice = "Q".
Proof.
  rewrite <- quits_exactly, on_choice_cases.
  destruct (quits choice); [tauto|].
  split; [|discriminate].
  destruct (py_int _ _) as [e|k]; [discriminate|].
  destruct ((1 <=? k) && _)%Z; [|discriminate].
  destruct (nth_error _ _); discriminate.
Qed.

Lemma display_results_accepts (results : list BookResult) (bad : list string)
      (choice : string) (k : Z) (more : list string) (shown : list event) :
  table_renders rt results = true ->
  Forall (fun c => rejected (max_str_digits rt) (List.length results) c = true) bad ->
  py_int (max_str_digits rt) choice = inr k ->
  (1 <= k <= Z.of_nat (List.length results))%Z ->
  exists r,
    nth_error results (Z.to_nat (k - 1)) = Some r
    /\ display_results rt results {| stdin := bad ++ choice :: more; trace := shown |}
       = (inr (Some r),
          {| stdin := more;
             trace := shown ++ table results :: reprompts (max_str_digits rt) bad
                      ++ [Input choice_prompt] |}).
Proof.
  intros T Hbad P R.
  destruct results as [|r0 results]; [simpl in R; lia|].
  destruct (@choose_accepted (r0 :: results) choice k more
              ((shown ++ [table (r0 :: results)]) ++ reprompts (max_str_digits rt) bad)
              P R) as (r & N & E).
  exists r. split; [exact N|].
  rewrite display_results_loop by exact T. simpl stdin. simpl trace.
  rewrite (@choose_all_rejected rt (r0 :: results) bad (choice :: more) Hbad).
  unfold table in *. rewrite E. now rewrite <- !app_assoc.
Qed.

(** X10: the first input that is the number of a row decides.  Once rich
    has rendered the table, after any run of rejected inputs, an input
    that [int] reads as k with 1 <= k <= len(results) makes
    [display_results] return results[k-1]; the inputs after it stay
    unread, and the console has shown the table, a prompt and a message
    per rejected input, and one more prompt. *)
Theorem first_accepted_input_wins (results : list BookResult) (bad : list string)
        (choice : string) (k : Z) (more : list string) (shown : list event) :
  table_renders rt results = true ->
  Forall (fun c => rejected (max_str_digits rt) (List.length results) c = true) bad ->
  py_int (max_str_digits rt) choice = inr k ->
  (1 <= k <= Z.of_nat (List.length results))%Z ->
  exists r,
    nth_error results (Z.to_nat (k - 1)) = Some r
    /\ display_results rt results {| stdin := bad ++ choice :: more; trace := shown |}
       = (inr (Some r),
          {| stdin := more;
             trace := shown ++ table results :: reprompts (max_str_digits rt) bad
                      ++ [Input choice_prompt] |}).
Proof.
  now apply display_results_accepts.
Qed.

Lemma table_rows_nth (results : list BookResult) :
  forall (start : Z) (i : nat) (r : BookResult),
    nth_error results i = Some r ->
    nth_error (table_rows start results) i = Some (table_row (start + Z.of_nat i) r).
Proof.
  induction results as [|x results IH]; intros start [|i] r; simpl; try discriminate.
  - intros [= ->]. now rewrite Z.add_0_r.
  - intros H. rewrite (IH _ _ _ H). do 2 f_equal. lia.
Qed.

Lemma table_rows_length (results : list BookResult) (start : Z) :
  List.length (table_rows start results) = List.length results.
Proof. revert start. induction results; intros start; simpl; congruence. Qed.

(** X11: the table has one row per result, and the result returned for
    the number k is the one shown in the row numbered k. *)
Theorem table_numbers_match_selection (results : list BookResult) (k : Z) (r : BookResult) :
  (1 <= k)%Z ->
  nth_error results (Z.to_nat (k - 1)) = Some r ->
  List.length (table_rows 1 results) = List.length results
  /\ nth_error (table_rows 1 results) (Z.to_nat (k - 1)) = Some (table_row k r).
Proof.
  intros L N. split; [apply table_rows_length|].
  rewrite (table_rows_nth _ 1 _ N). do 2 f_equal. lia.
Qed.

Lemma on_choice_quiet (results : list BookResult) (choice : string) (w : world) :
  filter is_request (trace (snd (on_choice rt results choice w)))
  = filter is_request (trace w).
Proof.
  rewrite on_choice_cases.
  destruct (quits choice); [reflexivity|].
  destruct (py_int _ _) as [e|k]; simpl.
  - rewrite filter_app. simpl. now rewrite app_nil_r.
  - destruct ((1 <=? k) && _)%Z; simpl.
    + now destruct (nth_error _ _).
    + rewrite filter_app. simpl. now rewrite app_nil_r.
Qed.

Lemma choose_quiet (results : list BookResult) (lines : list string) :
  forall shown,
    filter is_request (trace (snd (choose rt results lines shown)))
    = filter is_request shown.
Proof.
  induction lines as [|choice rest IH]; intros shown; simpl.
  - rewrite filter_app. simpl. now rewrite app_nil_r.
  - pose proof (on_choice_quiet results choice
                  {| stdin := rest; trace := shown ++ [Input choice_prompt] |}) as Q.
    destruct (on_choice rt results choice _) as [[e|[answer|]] w']; simpl in *.
    + rewrite Q, filter_app. simpl. now rewrite app_nil_r.
    + rewrite Q, filter_app. simpl. now rewrite app_nil_r.
    + rewrite IH, Q, filter_app. simpl. now rewrite app_nil_r.
Qed.

Lemma display_results_quiet (results : list BookResult) (w : world) :
  filter is_request (trace (snd (display_results rt results w)))
  = filter is_request (trace w).
Proof.
  destruct results as [|r results].
  - simpl. rewrite filter_app. simpl. now rewrite app_nil_r.
  - destruct (table_renders rt (r :: results)) eqn:T.
    + rewrite display_results_loop by exact T.
      rewrite choose_quiet, filter_app. simpl. now rewrite app_nil_r.
    + rewrite display_results_refused by exact T.
      cbn [snd trace]. rewrite filter_app. simpl. now rewrite app_nil_r.
Qed.

End SelectorMore.

Lemma first_accepted_input_wins_witness :
  let a := Samples.entry "Emma" "https://archive.org/emma.pdf" in
  let b := Samples.entry "Persuasion" "https://archive.org/persuasion.pdf" in
  exists r,
    nth_error [a; b] (Z.to_nat (2 - 1)) = Some r
    /\ DownloadBooks.display_results Samples.offline [a; b]
         {| IO.stdin := ["7"; "x"] ++ " 2 " :: ["1"]; IO.trace := [] |}
       = (inr (Some r),
          {| IO.stdin := ["1"];
             IO.trace := [] ++ Shapes.table [a; b]
                         :: Spec.reprompts (IO.max_str_digits Samples.offline) ["7"; "x"]
                         ++ [IO.Input DownloadBooks.choice_prompt] |}).
Proof.
  intros a b.
  apply (@first_accepted_input_wins Samples.offline [a; b] ["7"; "x"] " 2 " 2 ["1"] []).
  - reflexivity.
  - repeat constructor.
  - reflexivity.
  - simpl. lia.
Defined.

Lemma table_numbers_match_selection_witness :
  let a := Samples.entry "Emma" "https://archive.org/emma.pdf" in
  let b := Samples.entry "Persuasion" "https://archive.org/persuasion.pdf" in
  List.length (DownloadBooks.table_rows 1 [a; b]) = List.length [a; b]
  /\ nth_error (DownloadBooks.table_rows 1 [a; b]) (Z.to_nat (2 - 1))
     = Some (Shapes.table_row 2 b).
Proof.
  intros a b. apply (@table_numbers_match_selection [a; b] 2 b); [lia | reflexivity].
Defined.

(* ================================================================== *)
(** * More on [download_book] *)

Section DownloaderMore.
Import Py IO Spec Shapes DownloadBooks.

Variable rt : runtime.

Lemma writes_app (l l' : list event) : writes (l ++ l') = writes l ++ writes l'.
Proof. apply flat_map_app. Qed.

Lemma progress_values_app (l l' : list event) :
  progress_values (l ++ l') = progress_values l ++ progress_values l'.
Proof. apply flat_map_app. Qed.

Lemma world_eta (w : world) : {| stdin := stdin w; trace := trace w ++ [] |} = w.
Proof. destruct w. simpl. now rewrite app_nil_r. Qed.

(** The streaming loop: it never raises, writes every chunk that is not
    empty, in order, and shows one figure per such chunk. *)
Lemma receive_loop (filepath : path) (name : string) (total_size : Z)
      (chunks : list (list Byte.byte)) :
  forall (downloaded : Z) (w : world),
  exists (total : Z) (events : list event),
    for_each chunks downloaded (receive filepath name total_size) w
    = (inr total, {| stdin := stdin w; trace := trace w ++ events |})
    /\ writes events = map (pair filepath) (filter nonempty chunks)
    /\ List.length (progress_values events) = List.length (filter nonempty chunks)
    /\ filter is_request events = []
    /\ existsb touches_disk events = nonempty (filter nonempty chunks).
Proof.
  induction chunks as [|chunk chunks IH]; intros downloaded w.
  - exists downloaded, []. simpl. rewrite world_eta. repeat split.
  - destruct chunk as [|x chunk].
    + destruct (IH downloaded w) as (total & events & E & W & P & R & D).
      exists total, events. simpl. rewrite E. repeat split; assumption.
    + cbn [for_each bind Monad_M].
      rewrite receive_chunk by discriminate.
      match goal with
      | |- context [for_each chunks ?d _ ?w'] =>
          destruct (IH d w') as (total & events & E & W & P & R & D); rewrite E
      end.
      eexists total, (_ :: _ :: events). simpl stdin. simpl trace.
      rewrite <- app_assoc. split; [reflexivity|].
      simpl. rewrite W, P, R. repeat split.
Qed.

Ltac stops_early :=
  cbn; do 2 eexists; rewrite <- ?app_assoc; (split; [reflexivity|]);
  repeat split; intros; (reflexivity || discriminate).

Ltac finish :=
  cbn; do 2 eexists; rewrite <- ?app_assoc; (split; [reflexivity|]).

Lemma transfer_run (book_result : BookResult) (w : world) :
  exists outcome events,
    transfer rt book_result w
    = (outcome,
       {| stdin := stdin w;
          trace := trace w ++ HttpGetStream (download_url book_result) :: events |})
    /\ (forall done, outcome = inr done ->
        done = true
        /\ opens_file rt book_result = true /\ transfer_complete rt book_result = true)
    /\ transfer_facts rt book_result events.
Proof.
  unfold transfer, transfer_facts, opens_file, expected_writes, expected_updates,
    transfer_complete, announced_size, delivered, announced, Requests.raise_for_status,
    lift, emit, raise, console_print.
  cbn [bind Monad_M ret stdin trace].
  destruct (stream rt (download_url book_result)) as [|status header chunks complete];
    [stops_early|].
  destruct (Requests.error_status status); [stops_early|].
  cbn [bind Monad_M ret stdin trace negb andb].
  destruct header as [h|].
  - destruct (py_int (max_str_digits rt) h) as [e|total_size]; [stops_early|].
    cbn [bind Monad_M ret stdin trace negb andb].
    destruct (can_open rt _); [|stops_early].
    cbn [bind Monad_M ret stdin trace negb andb].
    destruct (total_size =? 0)%Z.
    + destruct complete; [destruct (renders rt _)|]; finish.
      all: repeat split; intros; try discriminate; try congruence.
      all: simpl; now rewrite ?app_nil_r.
    + cbn [bind Monad_M ret stdin trace].
      match goal with
      | |- context [for_each chunks ?d (receive ?fp ?name ?total) ?w'] =>
        destruct (receive_loop fp name total chunks d w')
          as (total' & events & E & W & P & R & D);
        rewrite E
      end.
      destruct complete; [destruct (renders rt _)|]; finish.
      all: (split; [intros done Hd; first [discriminate Hd | injection Hd as <-; repeat split]|]).
      all: rewrite !filter_app, R.
      all: (split; [reflexivity|]).
      all: (split; [intros; discriminate|]); intros _.
      all: rewrite !writes_app, !progress_values_app, !length_app, W, P.
      all: simpl; rewrite ?app_nil_r; split; (reflexivity || lia).
  - cbn [bind Monad_M ret stdin trace negb andb].
    destruct (can_open rt _); [|stops_early].
    cbn [bind Monad_M ret stdin trace negb andb Z.eqb].
    destruct complete; [destruct (renders rt _)|]; finish.
    all: repeat split; intros; try discriminate; try congruence.
    all: simpl; now rewrite ?app_nil_r.
Qed.

Lemma transfer_facts_print (book_result : BookResult) (events : list event) (t : text) :
  transfer_facts rt book_result events ->
  transfer_facts rt book_result (events ++ [Print t]).
Proof.
  unfold transfer_facts.
  rewrite filter_app, existsb_app, writes_app, progress_values_app. simpl.
  rewrite !app_nil_r, orb_false_r. exact (fun F => F).
Qed.

(** A run of [download_book]: the [try] block and, when it raised, the
    error line. *)
Lemma download_book_run (book_result : BookResult) (w : world) :
  exists outcome events,
    download_book rt book_result w
    = (outcome,
       {| stdin := stdin w;
          trace := trace w ++ HttpGetStream (download_url book_result) :: events |})
    /\ (outcome = inr true ->
        opens_file rt book_result = true /\ transfer_complete rt book_result = true)
    /\ transfer_facts rt book_result events.
Proof.
  destruct (transfer_run book_result w) as (outcome & events & E & T & F).
  unfold download_book, try_except. rewrite E.
  destruct outcome as [e|done].
  - unfold is_Exception, console_print.
    cbn [bind Monad_M ret stdin trace].
    destruct (renders rt _);
      cbn [bind Monad_M ret stdin trace]; rewrite <- app_assoc;
      do 2 eexists; (split; [reflexivity|]); (split; [discriminate|]);
      apply transfer_facts_print, F.
  - exists (inr done), events. split; [reflexivity|]. split; [|exact F].
    intros _. exact (proj2 (T done eq_refl)).
Qed.

End DownloaderMore.

Section DownloaderFacts.
Import Py IO Spec Shapes DownloadBooks.

Variable rt : runtime.

(** X12: [download_book] returns [True] only after a complete transfer
    into a file it could open: the server answered with a status below
    400 (or from 600 on), the [content-length], if any, read as an
    integer, the file was opened and the transfer ran to its end.
    Whatever the outcome, it reads no input and issues one request, for
    the [download_url]. *)
Theorem download_book_outcome (book_result : BookResult) (w : world) :
  (fst (download_book rt book_result w) = inr true ->
   opens_file rt book_result = true /\ transfer_complete rt book_result = true)
  /\ stdin (snd (download_book rt book_result w)) = stdin w
  /\ filter is_request (trace (snd (download_book rt book_result w)))
     = filter is_request (trace w) ++ [HttpGetStream (download_url book_result)].
Proof.
  destruct (download_book_run rt book_result w) as (outcome & events & -> & T & R & _).
  simpl. split; [exact T|]. split; [reflexivity|].
  rewrite filter_app. simpl. now rewrite R.
Qed.

(** X13: a download that fails before its file is open (no answer, a
    4xx or 5xx status, a [content-length] that is no integer, a file that
    cannot be opened) opens and writes nothing. *)
Theorem download_failure_leaves_disk_alone (book_result : BookResult) (w : world) :
  opens_file rt book_result = false ->
  exists events,
    trace (snd (download_book rt book_result w)) = trace w ++ events
    /\ existsb touches_disk events = false.
Proof.
  intros F.
  destruct (download_book_run rt book_result w) as (outcome & events & -> & _ & _ & D & _).
  eexists. split; [reflexivity|]. simpl. exact (D F).
Qed.

Lemma expected_writes_prefix (book_result : BookResult) :
  exists n, expected_writes rt book_result = firstn n (offered_writes rt book_result).
Proof.
  unfold expected_writes, offered_writes.
  destruct (announced_size rt book_result) as [e|size]; [now exists 0|].
  destruct (size =? 0)%Z.
  - destruct (transfer_complete rt book_result); [now exists 1 | now exists 0].
  - eexists. symmetry. apply firstn_all.
Qed.

Lemma expected_writes_complete (book_result : BookResult) :
  transfer_complete rt book_result = true ->
  expected_writes rt book_result = offered_writes rt book_result.
Proof.
  unfold expected_writes, offered_writes. intros ->.
  destruct (announced_size rt book_result) as [e|size]; [reflexivity|].
  now destruct (size =? 0)%Z.
Qed.

Lemma writes_none (events : list event) :
  existsb touches_disk events = false -> writes events = [].
Proof.
  induction events as [|e events IH]; simpl; [reflexivity|].
  intros H. apply orb_false_iff in H as [He Hs].
  rewrite (IH Hs). now destruct e.
Qed.

(** X14: the calls of [f.write].  Each goes to the file of the download
    (the file name under the download folder).  With an announced size
    other than 0 the calls carry the chunks that are not empty, in the
    order of arrival and as they came; with no announced size, or 0,
    there is a single call with the whole body.  A run has made the
    first so many of these calls; a download that returns [True] has
    made all of them, and has shown one progress figure per chunk that
    is not empty (none without an announced size). *)
Theorem download_writes_what_arrives (book_result : BookResult) (w : world) :
  exists events,
    trace (snd (download_book rt book_result w)) = trace w ++ events
    /\ (exists n, writes events = firstn n (offered_writes rt book_result))
    /\ (fst (download_book rt book_result w) = inr true ->
        writes events = offered_writes rt book_result
        /\ List.length (progress_values events) = expected_updates rt book_result).
Proof.
  destruct (download_book_run rt book_result w)
    as (outcome & events & -> & T & _ & D & W).
  eexists. split; [reflexivity|]. cbn [fst]. split.
  - change (writes (HttpGetStream (download_url book_result) :: events))
      with (writes events).
    destruct (opens_file rt book_result).
    + rewrite (proj1 (W eq_refl)). apply expected_writes_prefix.
    + exists 0. now rewrite writes_none by exact (D eq_refl).
  - intros O. destruct (T O) as [Open Complete].
    change (writes (HttpGetStream (download_url book_result) :: events))
      with (writes events).
    change (progress_values (HttpGetStream (download_url book_result) :: events))
      with (progress_values events).
    destruct (W Open) as [Writes Updates].
    split; [|exact Updates].
    now rewrite Writes, expected_writes_complete.
Qed.

Lemma select_only (keep : ascii -> bool) (s : string) :
  forallb keep (chars_of (Str.select keep s)) = true.
Proof.
  induction s as [|c s IH]; simpl; [reflexivity|].
  destruct (keep c) eqn:K; simpl; [now rewrite K|exact IH].
Qed.

Lemma rstrip_only (p q : ascii -> bool) (s : string) :
  forallb q (chars_of s) = true -> forallb q (chars_of (Str.rstrip_with p s)) = true.
Proof.
  induction s as [|c s IH]; simpl; [reflexivity|].
  intros H. apply andb_true_iff in H as [Hc Hs]. specialize (IH Hs).
  destruct (Str.rstrip_with p s) as [|c' r].
  - destruct (p c); simpl; [reflexivity|now rewrite Hc].
  - simpl in *. now rewrite Hc, IH.
Qed.

Lemma select_kept (keep : ascii -> bool) (s : string) :
  forallb keep (chars_of s) = true -> Str.select keep s = s.
Proof.
  induction s as [|c s IH]; simpl; [reflexivity|].
  intros H. apply andb_true_iff in H as [-> Hs]. now rewrite IH.
Qed.

Lemma rstrip_step (p : ascii -> bool) (c : ascii) (s : string) :
  Str.rstrip_with p (String c s)
  = match Str.rstrip_with p s with
    | EmptyString => if p c then EmptyString else String c EmptyString
    | String c' r => String c (String c' r)
    end.
Proof. reflexivity. Qed.

Lemma rstrip_twice (p : ascii -> bool) (s : string) :
  Str.rstrip_with p (Str.rstrip_with p s) = Str.rstrip_with p s.
Proof.
  induction s as [|c s IH]; [reflexivity|].
  rewrite rstrip_step.
  destruct (Str.rstrip_with p s) as [|c' r] eqn:E.
  - destruct (p c) eqn:P; simpl; [reflexivity|now rewrite P].
  - rewrite rstrip_step, IH. reflexivity.
Qed.

Lemma safe_title_only (title : string) :
  forallb keep_in_filename (chars_of (safe_title title)) = true.
Proof. unfold safe_title, Str.rstrip. apply rstrip_only, select_only. Qed.

(** X15: the title part of the file name holds only letters, digits,
    spaces, hyphens and underscores, so no slash, backslash or period;
    it does not end in white space; sanitising it again changes
    nothing. *)
Theorem safe_title_is_safe (title : string) :
  forallb keep_in_filename (chars_of (safe_title title)) = true
  /\ ~ In "/"%char (chars_of (safe_title title))
  /\ ~ In "\"%char (chars_of (safe_title title))
  /\ ~ In "."%char (chars_of (safe_title title))
  /\ Str.rstrip (safe_title title) = safe_title title
  /\ safe_title (safe_title title) = safe_title title.
Proof.
  pose proof (safe_title_only title) as Only.
  assert (forall c, keep_in_filename c = false -> ~ In c (chars_of (safe_title title)))
    as Out.
  { intros c K HIn. rewrite forallb_forall in Only. specialize (Only c HIn). congruence. }
  split; [exact Only|].
  split; [now apply Out|]. split; [now apply Out|]. split; [now apply Out|].
  split.
  - unfold safe_title, Str.rstrip. apply rstrip_twice.
  - unfold safe_title at 1. rewrite (select_kept _ _ Only).
    unfold safe_title, Str.rstrip. apply rstrip_twice.
Qed.

End DownloaderFacts.

Lemma download_failure_leaves_disk_alone_witness :
  exists events,
    IO.trace (snd (DownloadBooks.download_book Samples.offline
                     (Samples.entry "Emma" "https://archive.org/emma.pdf") Samples.idle))
    = IO.trace Samples.idle ++ events
    /\ existsb Shapes.touches_disk events = false.
Proof.
  apply (@download_failure_leaves_disk_alone Samples.offline
           (Samples.entry "Emma" "https://archive.org/emma.pdf") Samples.idle).
  reflexivity.
Defined.

Lemma download_book_outcome_witness :
  let emma := Samples.entry "Emma" "https://archive.org/emma.pdf" in
  Shapes.opens_file Samples.two_chunks emma = true
  /\ Shapes.transfer_complete Samples.two_chunks emma = true.
Proof.
  intros emma.
  apply (proj1 (@download_book_outcome Samples.two_chunks emma Samples.idle)).
  vm_compute. reflexivity.
Defined.

Lemma download_writes_what_arrives_witness :
  let emma := Samples.entry "Emma" "https://archive.org/emma.pdf" in
  exists events,
    IO.trace (snd (DownloadBooks.download_book Samples.two_chunks emma Samples.idle))
    = IO.trace Samples.idle ++ events
    /\ Shapes.writes events = Shapes.offered_writes Samples.two_chunks emma
    /\ List.length (DownloadBooks.progress_values events)
       = Shapes.expected_updates Samples.two_chunks emma.
Proof.
  intros emma.
  destruct (@download_writes_what_arrives Samples.two_chunks emma Samples.idle)
    as (events & T & _ & W).
  exists events. split; [exact T|]. apply W. vm_compute. reflexivity.
Defined.

(* ================================================================== *)
(** * [main] of download_books.py *)

Section MainFacts.
Import Py IO Spec Shapes DownloadBooks MainScript.

Variable rt : runtime.

Lemma filter_request_last (l : list event) (e : event) :
  is_request e = false -> filter is_request (l ++ [e]) = filter is_request l.
Proof. intros H. rewrite filter_app. simpl. rewrite H. apply app_nil_r. Qed.

Lemma __init___run (w : world) :
  folder_exists rt = true \/ makedirs_ok rt = true ->
  exists events,
    __init__ rt w = (inr tt, {| stdin := stdin w; trace := trace w ++ events |})
    /\ filter is_request events = [].
Proof.
  unfold __init__, _ensure_download_folder, emit, raise.
  destruct (folder_exists rt).
  - intros _. exists []. cbn [ret Monad_M]. now rewrite world_eta.
  - intros [F|M]; [discriminate|]. rewrite M.
    eexists. cbn [bind ret Monad_M stdin trace]. split; reflexivity.
Qed.

(** X16: the search half of [main].  When the download folder is there
    or can be made, a title and an author are on the input, and rich
    renders the error line of each search that fails, it asks Open
    Library, then Project Gutenberg, once each and with the two lines
    exactly as typed (nothing is stripped and an empty line is sent like
    any other), and returns the Open Library results followed by the
    Project Gutenberg ones. *)
Theorem main_search_asks_both (title author : string) (rest : list string)
        (shown : list event) :
  folder_exists rt = true \/ makedirs_ok rt = true ->
  reported rt open_library_error (open_library_failure rt title author) = true ->
  reported rt project_gutenberg_error (project_gutenberg_failure rt title author) = true ->
  let run := main_search rt {| stdin := title :: author :: rest; trace := shown |} in
  fst run = inr (found_on_open_library rt title author
                 ++ found_on_gutenberg rt title author)
  /\ stdin (snd run) = rest
  /\ filter is_request (trace (snd run))
     = filter is_request shown
       ++ [HttpGet open_library_api (open_library_params title author);
           HttpGet project_gutenberg_api (project_gutenberg_params title author)].
Proof.
  intros Folder R1 R2. unfold main_search. cbn [bind Monad_M].
  destruct (__init___run {| stdin := title :: author :: rest; trace := shown |} Folder)
    as (made & -> & Made).
  unfold input, emit. cbn [bind Monad_M ret stdin trace].
  match goal with
  | |- context [search_open_library rt title author ?w] =>
      pose proof (download_books_open_library rt title author w) as F1;
      pose proof (open_library_effect rt title author w) as S1;
      destruct (search_open_library rt title author w) as [r1 w1]
  end.
  rewrite R1 in F1. simpl in F1, S1. subst r1 w1. cbn [app].
  match goal with
  | |- context [search_project_gutenberg rt title author ?w] =>
      pose proof (download_books_project_gutenberg rt title author w) as F2;
      pose proof (project_gutenberg_effect rt title author w) as S2;
      destruct (search_project_gutenberg rt title author w) as [r2 w2]
  end.
  rewrite R2 in F2. simpl in F2, S2. subst r2 w2.
  cbn [fst snd stdin trace].
  split; [reflexivity|]. split; [reflexivity|].
  rewrite !filter_app, Made. cbn [filter is_request app].
  rewrite !app_nil_r.
  destruct (search_failure _ open_library_results);
    destruct (search_failure _ project_gutenberg_results);
    simpl; rewrite <- ?app_assoc; reflexivity.
Qed.

Lemma unique_results_listed (results : list BookResult) (r : BookResult) :
  In r (unique_results results) -> In r results.
Proof.
  intros H. apply (aggregate_from_input [results]) in H.
  unfold in_input_order in H. simpl in H. now rewrite app_nil_r in H.
Qed.

(** X17: the second half of [main].  Whatever the input, it issues no
    request unless [display_results] returns a book, and then exactly
    one, the download of that book.  When rich renders the table of the
    results left after the removal of duplicates, and an input that
    [int] reads as k with 1 <= k <= the number of rows follows a run of
    rejected inputs, the book downloaded is the one of row k, an entry
    of the list [main] collected, and the inputs after it stay unread.
    Without results it prints the notice and reads nothing. *)
Theorem main_select_downloads_the_choice (results : list BookResult) (w : world) :
  filter is_request (trace (snd (main_select rt results w)))
  = filter is_request (trace w)
    ++ match fst (display_results rt (unique_results results) w) with
       | inr (Some r) => [HttpGetStream (download_url r)]
       | _ => []
       end
  /\ (forall (bad : list string) (choice : string) (k : Z) (more : list string)
             (shown : list event),
         table_renders rt (unique_results results) = true ->
         Forall (fun c => rejected (max_str_digits rt)
                                   (List.length (unique_results results)) c = true) bad ->
         py_int (max_str_digits rt) choice = inr k ->
         (1 <= k <= Z.of_nat (List.length (unique_results results)))%Z ->
         exists r,
           nth_error (unique_results results) (Z.to_nat (k - 1)) = Some r
           /\ In r results
           /\ let run := main_select rt results
                                     {| stdin := bad ++ choice :: more; trace := shown |} in
              stdin (snd run) = more
              /\ filter is_request (trace (snd run))
                 = filter is_request shown ++ [HttpGetStream (download_url r)])
  /\ main_select rt [] w = (inr tt, say no_results w).
Proof.
  assert (forall w,
             filter is_request (trace (snd (main_select rt results w)))
             = filter is_request (trace w)
               ++ match fst (display_results rt (unique_results results) w) with
                  | inr (Some r) => [HttpGetStream (download_url r)]
                  | _ => []
                  end) as General.
  { clear w. intros w. unfold main_select. cbn [bind Monad_M].
    pose proof (display_results_quiet rt (unique_results results) w) as Q.
    destruct (display_results rt (unique_results results) w) as [[e|[r|]] w'];
      simpl in Q; cbn [fst snd ret Monad_M]; rewrite ?app_nil_r; try exact Q.
    destruct (download_book_run rt r w') as (outcome & events & -> & _ & R & _).
    destruct outcome as [e|done]; cbn [snd trace];
      rewrite filter_app; simpl; now rewrite R, Q. }
  split; [apply General|]. split; [|reflexivity].
  intros bad choice k more shown T Hbad P K.
  destruct (@display_results_accepts rt (unique_results results) bad choice k more shown
              T Hbad P K) as (r & N & E).
  exists r. split; [exact N|].
  split; [exact (unique_results_listed _ _ (nth_error_In _ _ N))|].
  cbv zeta. split.
  - unfold main_select. cbn [bind Monad_M]. rewrite E.
    destruct (download_book_run rt r
                {| stdin := more;
                   trace := shown ++ table (unique_results results)
                            :: reprompts (max_str_digits rt) bad
                            ++ [Input choice_prompt] |})
      as (outcome & events & -> & _).
    now destruct outcome.
  - rewrite General, E. reflexivity.
Qed.

End MainFacts.

Lemma main_search_asks_both_witness :
  let run := MainScript.main_search (Samples.answering Samples.catalogue)
               {| IO.stdin := ["Emma"; "Jane Austen"]; IO.trace := [] |} in
  fst run
  = inr (Shapes.found_on_open_library (Samples.answering Samples.catalogue)
           "Emma" "Jane Austen"
         ++ Shapes.found_on_gutenberg (Samples.answering Samples.catalogue)
              "Emma" "Jane Austen")
  /\ IO.stdin (snd run) = []
  /\ filter Spec.is_request (IO.trace (snd run))
     = filter Spec.is_request []
       ++ [IO.HttpGet DownloadBooks.open_library_api
             (DownloadBooks.open_library_params "Emma" "Jane Austen");
           IO.HttpGet DownloadBooks.project_gutenberg_api
             (DownloadBooks.project_gutenberg_params "Emma" "Jane Austen")].
Proof.
  apply (@main_search_asks_both (Samples.answering Samples.catalogue)
           "Emma" "Jane Austen" [] []).
  - left. reflexivity.
  - reflexivity.
  - reflexivity.
Defined.

Lemma main_select_downloads_the_choice_witness :
  let a := Samples.entry "Emma" "https://archive.org/emma.pdf" in
  let b := Samples.entry "Persuasion" "https://archive.org/persuasion.pdf" in
  exists r,
    nth_error (DownloadBooks.unique_results [a; b; a]) (Z.to_nat (2 - 1)) = Some r
    /\ In r [a; b; a]
    /\ let run := MainScript.main_select Samples.offline [a; b; a]
                    {| IO.stdin := ["x"] ++ "2" :: ["1"]; IO.trace := [] |} in
       IO.stdin (snd run) = ["1"]
       /\ filter Spec.is_request (IO.trace (snd run))
          = filter Spec.is_request [] ++ [IO.HttpGetStream (DownloadBooks.download_url r)].
Proof.
  intros a b.
  refine (proj1 (proj2 (@main_select_downloads_the_choice Samples.offline [a; b; a]
                          Samples.idle))
                ["x"] "2" 2%Z ["1"] [] _ _ _ _).
  - reflexivity.
  - repeat constructor.
  - reflexivity.
  - simpl. lia.
Defined.

(* ================================================================== *)
(** * More on get_book_links.py *)

Section LinksFacts.
Import Py IO Spec Shapes GetBookLinks.

Variable rt : runtime.

Lemma for_each_maps (A B : Type) (f : A -> B) (body : list B -> A -> res (list B))
      (l : list A) :
  (forall s x, In x l -> body s x = inr (s ++ [f x])) ->
  forall s, for_each l s body = inr (s ++ map f l).
Proof.
  induction l as [|x l IH]; intros Hbody s; simpl.
  - now rewrite app_nil_r.
  - rewrite (Hbody s x (or_introl eq_refl)). rewrite IH.
    + now rewrite <- app_assoc.
    + intros s0 y Hy. apply Hbody. now right.
Qed.

Lemma google_books_item_exact (found : list book_link) (book : pyval) :
  google_books_item_ok book = true ->
  google_books_item found book = inr (found ++ [google_books_link book]).
Proof.
  destruct book as [| | | | | |d]; simpl; try discriminate.
  unfold google_books_item, google_books_link, field. simpl.
  destruct (dict_lookup d "volumeInfo") as [[| | | | | |info]|]; try discriminate.
  destruct (dict_lookup d "accessInfo") as [[| | | | | |access]|]; try discriminate.
  reflexivity.
Qed.

Lemma open_library_item_exact (found : list book_link) (book : pyval) :
  is_dict book = true ->
  open_library_item found book = inr (found ++ [open_library_link book]).
Proof. destruct book; simpl; try discriminate. reflexivity. Qed.

(** X18: the search functions of get_book_links.py on payloads of the
    expected shape.  When [items] is a list of objects that each have an
    object under 'volumeInfo' and under 'accessInfo',
    [search_google_books] returns one entry per item, in order, with the
    title ([None] without one), the authors (an empty list without any)
    and the reader link ("N/A" without one).  When [docs] is a list of
    objects, [search_open_library] returns one entry per doc with the
    title, the author names, and "https://openlibrary.org" followed by
    the key as link.  A payload without [items], or without [docs], gives
    the empty list. *)
Theorem links_entry_by_entry (book_name author_name : string) (w : world)
        (data : pyval) (l : list pyval) :
  (Requests.payload (api rt google_books_api (google_books_params book_name author_name))
   = Some data ->
   py_get data "items" (PList []) = inr (PList l) ->
   forallb google_books_item_ok l = true ->
   fst (search_google_books rt book_name author_name w) = inr (map google_books_link l))
  /\ (Requests.payload (api rt open_library_api (open_library_params book_name author_name))
      = Some data ->
      py_get data "docs" (PList []) = inr (PList l) ->
      forallb is_dict l = true ->
      fst (search_open_library rt book_name author_name w) = inr (map open_library_link l)).
Proof.
  split; intros P G OK.
  - rewrite get_book_links_google_books. unfold found_on_google_books.
    cbv zeta. rewrite P, G. simpl.
    unfold google_books_results. simpl.
    apply (for_each_maps google_books_link).
    intros s x Hx. apply google_books_item_exact.
    rewrite forallb_forall in OK. now apply OK.
  - rewrite get_book_links_open_library. unfold found_on_open_library_links.
    cbv zeta. rewrite P, G. simpl.
    unfold open_library_results. simpl.
    apply (for_each_maps open_library_link).
    intros s x Hx. apply open_library_item_exact.
    rewrite forallb_forall in OK. now apply OK.
Qed.

Lemma google_books_down (book_name author_name : string) (w : world) :
  request_failed (api rt google_books_api (google_books_params book_name author_name)) = true ->
  search_google_books rt book_name author_name w
  = (inr [],
     {| stdin := stdin w;
        trace :=
          trace w
          ++ [HttpGet google_books_api (google_books_params book_name author_name);
              Print [Lit "Error fetching data from Google Books: ";
                     FmtExn (reply_failure
                               (api rt google_books_api
                                    (google_books_params book_name author_name)))]] |}).
Proof.
  unfold search_google_books, try_except, Requests.get, Requests.raise_for_status,
    Requests.json, request_failed, Requests.payload, reply_failure, lift, emit, raise.
  simpl.
  destruct (api rt _ _) as [|status [data|]|status failure]; simpl;
    try destruct (Requests.error_status status); simpl;
    try discriminate; intros F; rewrite ?F; now rewrite <- ?app_assoc.
Qed.

Lemma open_library_down (book_name author_name : string) (w : world) :
  request_failed (api rt open_library_api (open_library_params book_name author_name)) = true ->
  search_open_library rt book_name author_name w
  = (inr [],
     {| stdin := stdin w;
        trace :=
          trace w
          ++ [HttpGet open_library_api (open_library_params book_name author_name);
              Print [Lit "Error fetching data from Open Library: ";
                     FmtExn (reply_failure
                               (api rt open_library_api
                                    (open_library_params book_name author_name)))]] |}).
Proof.
  unfold search_open_library, try_except, Requests.get, Requests.raise_for_status,
    Requests.json, request_failed, Requests.payload, reply_failure, lift, emit, raise.
  simpl.
  destruct (api rt _ _) as [|status [data|]|status failure]; simpl;
    try destruct (Requests.error_status status); simpl;
    try discriminate; intros F; rewrite ?F; now rewrite <- ?app_assoc.
Qed.

Lemma guard_passes (book author : string) :
  Str.strip book <> "" -> Str.strip author <> "" ->
  String.eqb (Str.strip book) "" || String.eqb (Str.strip author) "" = false.
Proof.
  intros B A. apply String.eqb_neq in B. apply String.eqb_neq in A. now rewrite B, A.
Qed.

(** X19: [fetch_books] with both catalogues failing with an exception of
    requests (no answer, a 4xx or 5xx status, or a body on which [json()]
    raises [JSONDecodeError]).  It asks Google Books, then Open Library,
    each once and with the stripped names, prints the error and "Found 0
    books" for each, then "No books found for your query.", and returns
    normally. *)
Theorem fetch_books_with_both_down (book author : string) (rest : list string)
        (shown : list event) :
  let book_name := Str.strip book in
  let author_name := Str.strip author in
  let google := api rt google_books_api (google_books_params book_name author_name) in
  let library := api rt open_library_api (open_library_params book_name author_name) in
  book_name <> "" -> author_name <> "" ->
  request_failed google = true ->
  request_failed library = true ->
  fetch_books rt {| stdin := book :: author :: rest; trace := shown |}
  = (inr tt,
     {| stdin := rest;
        trace :=
          shown
          ++ [Print welcome; Input ask_book; Input ask_author;
              Print [Lit "Fetching books from Google Books..."];
              HttpGet google_books_api (google_books_params book_name author_name);
              Print [Lit "Error fetching data from Google Books: ";
                     FmtExn (reply_failure google)];
              Print [Lit "Found "; Fmt (PInt 0); Lit " books on Google Books."];
              Print [Lit "Fetching books from Open Library..."];
              HttpGet open_library_api (open_library_params book_name author_name);
              Print [Lit "Error fetching data from Open Library: ";
                     FmtExn (reply_failure library)];
              Print [Lit "Found "; Fmt (PInt 0); Lit " books on Open Library."];
              Print [Lit "No books found for your query."]] |}).
Proof.
  intros book_name author_name google library.
  subst book_name author_name google library. intros B A G L.
  unfold fetch_books, input, emit. cbn [bind Monad_M ret stdin trace].
  rewrite (guard_passes _ _ B A).
  cbn [bind Monad_M ret stdin trace].
  rewrite google_books_down by exact G.
  cbn [bind Monad_M ret stdin trace List.length].
  rewrite open_library_down by exact L.
  cbn [bind Monad_M ret stdin trace List.length app].
  now rewrite <- !app_assoc.
Qed.

End LinksFacts.

Lemma links_entry_by_entry_witness :
  fst (GetBookLinks.search_google_books (Samples.answering Samples.catalogue)
         "Emma" "Jane Austen" Samples.idle)
  = inr (map Shapes.google_books_link
             [Py.PDict [("volumeInfo", Py.PDict [("title", Py.PStr "Emma")]);
                        ("accessInfo",
                         Py.PDict [("webReaderLink",
                                    Py.PStr "https://play.google.com/1")])]]).
Proof.
  exact (proj1 (@links_entry_by_entry (Samples.answering Samples.catalogue)
                  "Emma" "Jane Austen" Samples.idle Samples.catalogue _)
               eq_refl eq_refl eq_refl).
Defined.

Lemma fetch_books_with_both_down_witness :
  fst (GetBookLinks.fetch_books Samples.offline
         {| IO.stdin := [" Emma "; "Jane Austen"]; IO.trace := [] |})
  = inr tt.
Proof.
  rewrite (@fetch_books_with_both_down Samples.offline " Emma " "Jane Austen" [] []).
  - reflexivity.
  - discriminate.
  - discriminate.
  - reflexivity.
  - reflexivity.
Defined.

Section ListingFacts.
Import Py IO Spec Shapes GetBookLinks.

Variable rt : runtime.

Lemma all_str_raises (l : list pyval) (e : exn) : all_str l = inl e -> e = TypeError.
Proof.
  induction l as [|v l IH]; simpl; [discriminate|].
  destruct v; try (now intros [= <-]).
  destruct (all_str l); [|discriminate]. intros [= <-]. now apply IH.
Qed.

Lemma py_join_raises (sep : string) (v : pyval) (e : exn) :
  py_join sep v = inl e -> e = TypeError.
Proof.
  unfold py_join. destruct (py_iter v) as [e'|items] eqn:I.
  - destruct v; simpl in I; try discriminate; injection I as <-; now intros [= <-].
  - destruct (all_str items) eqn:A; [|discriminate].
    intros [= <-]. exact (all_str_raises _ A).
Qed.

Lemma print_book_cases (idx : Z) (book : book_link) (w : world) :
  print_book (idx, book) w
  = match joined_authors book with
    | inr authors =>
        (inr tt, {| stdin := stdin w;
                    trace := trace w ++ [listing_line idx book authors] |})
    | inl _ => (inl TypeError, w)
    end.
Proof.
  unfold print_book, joined_authors, listing_line, lift, emit. simpl.
  destruct (py_join ", " (authors book)) as [e|a] eqn:J; [|reflexivity].
  now rewrite (py_join_raises _ _ J).
Qed.

Lemma listing_all (books : list book_link) :
  forallb joinable books = true ->
  forall (start : Z) (w : world),
    for_each (enumerate start books) tt (fun _ entry => print_book entry) w
    = (inr tt, {| stdin := stdin w; trace := trace w ++ listing start books |}).
Proof.
  induction books as [|book books IH]; intros J start w.
  - simpl. unfold listing. simpl. now rewrite world_eta.
  - simpl in J. apply andb_true_iff in J as [Jb Js].
    cbn [enumerate for_each bind Monad_M]. rewrite print_book_cases.
    unfold listing. cbn [enumerate flat_map fst snd].
    unfold joinable in Jb. destruct (joined_authors book) as [e|a]; [discriminate|].
    rewrite (IH Js). cbn [stdin trace]. now rewrite <- app_assoc.
Qed.

Lemma listing_stops (before : list book_link) (bad : book_link) (after : list book_link) :
  forallb joinable before = true -> joinable bad = false ->
  forall (start : Z) (w : world),
    for_each (enumerate start (before ++ bad :: after)) tt
             (fun _ entry => print_book entry) w
    = (inl TypeError,
       {| stdin := stdin w; trace := trace w ++ listing start before |}).
Proof.
  induction before as [|book before IH]; intros J B start w.
  - cbn [app enumerate for_each bind Monad_M]. rewrite print_book_cases.
    unfold joinable in B. destruct (joined_authors bad); [|discriminate].
    unfold listing. simpl. now rewrite world_eta.
  - simpl in J. apply andb_true_iff in J as [Jb Js].
    cbn [app enumerate for_each bind Monad_M]. rewrite print_book_cases.
    unfold listing. cbn [enumerate flat_map fst snd].
    unfold joinable in Jb. destruct (joined_authors book) as [e|a]; [discriminate|].
    rewrite (IH Js B). cbn [stdin trace]. now rewrite <- app_assoc.
Qed.

(** X20: the listing loop of [fetch_books].  Books whose authors can be
    joined (a list of strings, a string, an object) are printed one per
    line, numbered from the start value in list order, so across both
    catalogues without a gap.  The first book whose authors cannot be
    joined (for instance a null 'author_name') ends the loop with
    [TypeError], after the books before it have been printed. *)
Theorem listing_numbers_and_stops (books : list book_link) (start : Z) (w : world) :
  (forallb joinable books = true ->
   for_each (enumerate start books) tt (fun _ entry => print_book entry) w
   = (inr tt, {| stdin := stdin w; trace := trace w ++ listing start books |}))
  /\ (forall before bad after,
         books = before ++ bad :: after ->
         forallb joinable before = true -> joinable bad = false ->
         for_each (enumerate start books) tt (fun _ entry => print_book entry) w
         = (inl TypeError,
            {| stdin := stdin w; trace := trace w ++ listing start before |})).
Proof.
  split.
  - intros J. now apply listing_all.
  - intros before bad after -> J B. now apply listing_stops.
Qed.

Lemma listing_grows (books : list book_link) :
  forall (start : Z) (w : world),
  exists outcome tail,
    for_each (enumerate start books) tt (fun _ entry => print_book entry) w
    = (outcome, {| stdin := stdin w; trace := trace w ++ tail |}).
Proof.
  induction books as [|book books IH]; intros start w.
  - exists (inr tt), []. simpl. now rewrite world_eta.
  - cbn [enumerate for_each bind Monad_M]. rewrite print_book_cases.
    destruct (joined_authors book) as [e|a].
    + exists (inl TypeError), []. now rewrite world_eta.
    + destruct (IH (start + 1)%Z
                   {| stdin := stdin w;
                      trace := trace w ++ [listing_line start book a] |})
        as (outcome & tail & ->).
      eexists outcome, (_ :: tail). cbn [stdin trace]. now rewrite <- app_assoc.
Qed.

Lemma search_google_books_run (book_name author_name : string) (w : world) :
  exists outcome tail,
    search_google_books rt book_name author_name w
    = (outcome,
       {| stdin := stdin w;
          trace := trace w
                   ++ HttpGet google_books_api (google_books_params book_name author_name)
                      :: tail |}).
Proof.
  unfold search_google_books, try_except, Requests.get, Requests.raise_for_status,
    Requests.json, lift, emit, raise.
  simpl.
  destruct (api rt _ _) as [|status [data|]|status failure]; simpl;
    try destruct (Requests.error_status status); simpl;
    try destruct (is_RequestException failure); simpl;
    try (eexists _, _; rewrite <- ?app_assoc; simpl; reflexivity).
  destruct (py_get data "items" (PList [])) as [e|books]; simpl.
  - destruct (is_RequestException e); simpl;
      eexists _, _; rewrite <- ?app_assoc; simpl; reflexivity.
  - destruct (google_books_results books) as [e|found]; simpl;
      [destruct (is_RequestException e); simpl|];
      eexists _, _; rewrite <- ?app_assoc; simpl; reflexivity.
Qed.

Lemma search_open_library_run (book_name author_name : string) (w : world) :
  exists outcome tail,
    search_open_library rt book_name author_name w
    = (outcome,
       {| stdin := stdin w;
          trace := trace w
                   ++ HttpGet open_library_api (open_library_params book_name author_name)
                      :: tail |}).
Proof.
  unfold search_open_library, try_except, Requests.get, Requests.raise_for_status,
    Requests.json, lift, emit, raise.
  simpl.
  destruct (api rt _ _) as [|status [data|]|status failure]; simpl;
    try destruct (Requests.error_status status); simpl;
    try destruct (is_RequestException failure); simpl;
    try (eexists _, _; rewrite <- ?app_assoc; simpl; reflexivity).
  destruct (py_get data "docs" (PList [])) as [e|books]; simpl.
  - destruct (is_RequestException e); simpl;
      eexists _, _; rewrite <- ?app_assoc; simpl; reflexivity.
  - destruct (open_library_results books) as [e|found]; simpl;
      [destruct (is_RequestException e); simpl|];
      eexists _, _; rewrite <- ?app_assoc; simpl; reflexivity.
Qed.

(** X21: past the guard.  When both names are non-empty once stripped,
    [fetch_books] reads exactly the two lines and its first request goes
    to Google Books, with the stripped names in the query; whatever
    follows comes after that request. *)
Theorem fetch_books_asks_google_first (book author : string) (rest : list string)
        (shown : list event) :
  Str.strip book <> "" -> Str.strip author <> "" ->
  exists outcome tail,
    fetch_books rt {| stdin := book :: author :: rest; trace := shown |}
    = (outcome,
       {| stdin := rest;
          trace :=
            shown
            ++ [Print welcome; Input ask_book; Input ask_author;
                Print [Lit "Fetching books from Google Books..."];
                HttpGet google_books_api
                        (google_books_params (Str.strip book) (Str.strip author))]
            ++ tail |}).
Proof.
  intros B A.
  unfold fetch_books, input, emit. cbn [bind Monad_M ret stdin trace].
  rewrite (guard_passes _ _ B A). cbn [bind Monad_M ret stdin trace].
  match goal with
  | |- context [search_google_books rt ?b ?a ?w] =>
      destruct (search_google_books_run b a w) as (o1 & t1 & ->)
  end.
  destruct o1 as [e|google_books].
  { cbn [bind Monad_M ret stdin trace]. rewrite <- ?app_assoc. cbn [app].
    eexists _, _. reflexivity. }
  cbn [bind Monad_M ret stdin trace].
  match goal with
  | |- context [search_open_library rt ?b ?a ?w] =>
      destruct (search_open_library_run b a w) as (o2 & t2 & ->)
  end.
  destruct o2 as [e|open_library_books].
  { cbn [bind Monad_M ret stdin trace]. rewrite <- ?app_assoc. cbn [app].
    eexists _, _. reflexivity. }
  cbn [bind Monad_M ret stdin trace].
  destruct (google_books ++ open_library_books) as [|first others].
  { cbn [bind Monad_M ret stdin trace]. rewrite <- ?app_assoc. cbn [app].
    eexists _, _. reflexivity. }
  cbn [bind Monad_M ret stdin trace].
  match goal with
  | |- context [for_each (enumerate ?n ?l) tt ?f ?w] =>
      destruct (listing_grows l n w) as (o3 & t3 & ->)
  end.
  cbn [bind Monad_M ret stdin trace]. rewrite <- ?app_assoc. cbn [app].
    eexists _, _. reflexivity.
Qed.

End ListingFacts.

Lemma listing_numbers_and_stops_witness :
  let emma := Shapes.open_library_link
                (Py.PDict [("title", Py.PStr "Emma");
                           ("author_name", Py.PList [Py.PStr "Jane Austen"])]) in
  let nameless := Shapes.open_library_link
                    (Py.PDict [("title", Py.PStr "Beowulf"); ("author_name", Py.PNone)]) in
  IO.for_each (Mm := IO.Monad_M) (GetBookLinks.enumerate 1 [emma; nameless; emma]) tt
           (fun _ entry => GetBookLinks.print_book entry) Samples.idle
  = (inl Py.TypeError,
     {| IO.stdin := IO.stdin Samples.idle;
        IO.trace := IO.trace Samples.idle ++ Shapes.listing 1 [emma] |}).
Proof.
  intros emma nameless.
  exact (proj2 (listing_numbers_and_stops [emma; nameless; emma] 1 Samples.idle)
               [emma] nameless [emma] eq_refl eq_refl eq_refl).
Defined.

Lemma fetch_books_asks_google_first_witness :
  exists outcome tail,
    GetBookLinks.fetch_books (Samples.answering Samples.catalogue)
      {| IO.stdin := [" Emma "; "Jane Austen"]; IO.trace := [] |}
    = (outcome,
       {| IO.stdin := [];
          IO.trace :=
            []
            ++ [IO.Print GetBookLinks.welcome; IO.Input GetBookLinks.ask_book;
                IO.Input GetBookLinks.ask_author;
                IO.Print [IO.Lit "Fetching books from Google Books..."];
                IO.HttpGet GetBookLinks.google_books_api
                  (GetBookLinks.google_books_params (Str.strip " Emma ")
                                                    (Str.strip "Jane Austen"))]
            ++ tail |}).
Proof.
  apply (@fetch_books_asks_google_first (Samples.answering Samples.catalogue)
           " Emma " "Jane Austen" [] []); discriminate.
Defined.
